(** * WebPagesDownloadToZip: the fetch-archive loop of [downloader.py]

    A shallow embedding of [downloader.py] (version 1.1.0).  The pure part
    (the entry name derived from a URL) is a Rocq function over strings;
    the effectful part ([run], [main]) is written in a small monad that
    threads the process state and lets an exception leave the state it
    was raised in, as Python does.

    Library calls the script relies on ([urllib.parse.urlparse],
    [os.path.basename], [zipfile.ZipFile], [requests.get],
    [random.randint], [pathlib.Path]) are modelled after the behaviour
    of CPython 3.11 and requests 2.x, POSIX flavour. *)

From Stdlib Require Import String Ascii List ZArith Lia Bool.
Import ListNotations.
Local Open Scope string_scope.
Local Open Scope Z_scope.

(** ** Python string primitives

    A Python [str] is modelled as the Rocq [string] of its characters,
    one [ascii] for each code point: the model covers the texts whose
    code points are below 256, and [len] counts characters.  The
    delimiters the code looks for are all ASCII. *)

Module PyStr.

(** [c in s] *)
Fixpoint contains (c : ascii) (s : string) : bool :=
  match s with
  | EmptyString => false
  | String d t => Ascii.eqb d c || contains c t
  end.

(** [s.find(c)]: the first index of [c], or -1. *)
Fixpoint find (c : ascii) (s : string) : Z :=
  match s with
  | EmptyString => -1
  | String d t =>
      if Ascii.eqb d c then 0
      else let k := find c t in if k <? 0 then -1 else k + 1
  end.

(** [s.rfind(c)]: the last index of [c], or -1. *)
Fixpoint rfind (c : ascii) (s : string) : Z :=
  match s with
  | EmptyString => -1
  | String d t =>
      let k := rfind c t in
      if 0 <=? k then k + 1
      else if Ascii.eqb d c then 0 else -1
  end.

Fixpoint take (n : nat) (s : string) : string :=
  match n, s with
  | S m, String c t => String c (take m t)
  | _, _ => EmptyString
  end.

Fixpoint drop (n : nat) (s : string) : string :=
  match n, s with
  | S m, String _ t => drop m t
  | _, _ => s
  end.

(** [s[:i]] and [s[i:]] for the indices the code computes, which are
    never negative. *)
Definition upto (i : Z) (s : string) : string := take (Z.to_nat i) s.
Definition from (i : Z) (s : string) : string := drop (Z.to_nat i) s.

(** [s.find(c, start)] for [start >= 0]. *)
Definition find_from (c : ascii) (s : string) (start : Z) : Z :=
  let k := find c (from start s) in
  if k <? 0 then -1 else start + k.

Definition len (s : string) : Z := Z.of_nat (String.length s).

(** [s.lstrip(chars)] with the set of characters given as a test. *)
Fixpoint lstrip (p : ascii -> bool) (s : string) : string :=
  match s with
  | EmptyString => EmptyString
  | String c t => if p c then lstrip p t else s
  end.

(** [s.replace(c, "")] *)
Fixpoint remove (c : ascii) (s : string) : string :=
  match s with
  | EmptyString => EmptyString
  | String d t => if Ascii.eqb d c then remove c t else String d (remove c t)
  end.

Fixpoint all (p : ascii -> bool) (s : string) : bool :=
  match s with
  | EmptyString => true
  | String c t => p c && all p t
  end.

Definition between (lo hi c : ascii) : bool :=
  (nat_of_ascii lo <=? nat_of_ascii c)%nat && (nat_of_ascii c <=? nat_of_ascii hi)%nat.

Definition is_upper (c : ascii) : bool := between "A" "Z" c.
Definition is_lower (c : ascii) : bool := between "a" "z" c.
Definition is_digit (c : ascii) : bool := between "0" "9" c.

(** [c.isascii() and c.isalpha()] *)
Definition is_ascii_alpha (c : ascii) : bool := is_upper c || is_lower c.

Definition lower_char (c : ascii) : ascii :=
  if is_upper c then ascii_of_nat (nat_of_ascii c + 32) else c.

(** [s.lower()] *)
Fixpoint lower (s : string) : string :=
  match s with
  | EmptyString => EmptyString
  | String c t => String (lower_char c) (lower t)
  end.

(** [s[:2] == "//"] *)
Definition starts_with_2slash (s : string) : bool :=
  String.eqb (take 2 s) "//".

(** [s.startswith(c)] for a single character. *)
Definition starts_with (c : ascii) (s : string) : bool :=
  match s with
  | String d _ => Ascii.eqb d c
  | EmptyString => false
  end.

(** [s.rpartition(c)[2]]: the text after the last [c], all of [s] when
    there is none. *)
Definition after_last (c : ascii) (s : string) : string :=
  from (rfind c s + 1) s.

(** [s.split(c)]: the pieces between occurrences of [c]. *)
Fixpoint split (c : ascii) (s : string) : list string :=
  match s with
  | EmptyString => [EmptyString]
  | String d t =>
      if Ascii.eqb d c then EmptyString :: split c t
      else match split c t with
           | [] => [String d EmptyString]
           | p :: ps => String d p :: ps
           end
  end.

End PyStr.

(** ** Exceptions

    An exception is kept as its class and a short label of what it
    reports. *)

Inductive exn :=
| AssertionError (msg : string)
| KeyError (key : string)
| TypeError (what : string)
| ValueError (what : string)
| IndexError (what : string)
| RuntimeError (msg : string)
| RequestException (what : string)
| OSError (what : string).

Inductive outcome (A : Type) :=
| Ok (a : A)
| Raise (e : exn).
Arguments Ok {A} a.
Arguments Raise {A} e.

(** ** [urllib.parse]: the components of a URL *)

Module UrlParse.
Import PyStr.

Record ParseResult := {
  scheme : string;
  netloc : string;
  path : string;
  params : string;
  query : string;
  fragment : string
}.

Definition uses_params : list string :=
  [""; "ftp"; "hdl"; "prospero"; "http"; "imap";
   "https"; "shttp"; "rtsp"; "rtspu"; "sip"; "sips";
   "mms"; "sftp"; "tel"].

Definition scheme_char (c : ascii) : bool :=
  is_lower c || is_upper c || is_digit c
  || Ascii.eqb c "+" || Ascii.eqb c "-" || Ascii.eqb c ".".

(** The characters 0x00 .. 0x20 *)
Definition c0_control_or_space (c : ascii) : bool :=
  (nat_of_ascii c <=? 32)%nat.

(** [for b in ['\t', '\r', '\n']: url = url.replace(b, "")] *)
Definition remove_unsafe (url : string) : string :=
  remove "010" (remove "013" (remove "009" url)).

(** The scheme test of [urlsplit]: returns [(scheme, rest)]. *)
Definition split_scheme (url : string) : string * string :=
  let i := find ":" url in
  if (0 <? i)
     && match url with String c _ => is_ascii_alpha c | EmptyString => false end
     && all scheme_char (upto i url)
  then (lower (upto i url), from (i + 1) url)
  else ("", url).

Definition _splitnetloc (url : string) (start : Z) : string * string :=
  let step (delim : Z) (c : ascii) :=
    let wdelim := find_from c url start in
    if 0 <=? wdelim then Z.min delim wdelim else delim in
  let delim := fold_left step ["/"; "?"; "#"]%char (len url) in
  (from start (upto delim url), from delim url).

(** [url.split(c, 1)] guarded by [c in url]: the text before the first
    [c] and the text after it. *)
Definition split_once (c : ascii) (url : string) : string * string :=
  if contains c url
  then (upto (find c url) url, from (find c url + 1) url)
  else (url, "").

(** What [ipaddress.ip_address] makes of a text: it raises [ValueError],
    or returns an [IPv4Address] or an [IPv6Address]. *)
Inductive ip_address := NotAnAddress | IPv4Address | IPv6Address.

Definition is_hex_digit (c : ascii) : bool :=
  is_digit c || between "a" "f" c || between "A" "F" c.

Fixpoint after_hex_digits (s : string) : string :=
  match s with
  | EmptyString => EmptyString
  | String c t => if is_hex_digit c then after_hex_digits t else s
  end.

(** [re.match(r"\Av[a-fA-F0-9]+\..+\Z", hostname)]: a [v], hexadecimal
    digits, a dot, and at least one more character, none a line feed. *)
Definition ipvfuture (hostname : string) : bool :=
  match hostname with
  | String "v" (String c t) =>
      is_hex_digit c
      && match after_hex_digits t with
         | String "." (String d rest) => negb (contains "010" (String d rest))
         | _ => false
         end
  | _ => false
  end.

(** [_check_bracketed_host(hostname)], with [ipaddress.ip_address] as
    [ip]: what it raises, if anything. *)
Definition _check_bracketed_host (ip : string -> ip_address) (hostname : string)
  : option exn :=
  if starts_with "v" hostname then
    if ipvfuture hostname then None
    else Some (ValueError "IPvFuture address is invalid")
  else
    match ip hostname with
    | NotAnAddress => Some (ValueError "does not appear to be an IPv4 or IPv6 address")
    | IPv4Address => Some (ValueError "An IPv4 address cannot be in brackets")
    | IPv6Address => None
    end.

Definition _check_bracketed_netloc (ip : string -> ip_address) (netloc : string)
  : option exn :=
  let hostname_and_port := after_last "@" netloc in
  if contains "[" hostname_and_port then
    let before_bracket := upto (find "[" hostname_and_port) hostname_and_port in
    let bracketed := from (find "[" hostname_and_port + 1) hostname_and_port in
    if negb (String.eqb before_bracket "") then Some (ValueError "Invalid IPv6 URL")
    else
      let '(hostname, port) := split_once "]" bracketed in
      if negb (String.eqb port "") && negb (starts_with ":" port)
      then Some (ValueError "Invalid IPv6 URL")
      else _check_bracketed_host ip hostname
  else
    let '(hostname, _) := split_once ":" hostname_and_port in
    _check_bracketed_host ip hostname.

(** The checks [urlsplit] makes on the network location it has split
    off: what they raise, if anything.  The last check, [_checknetloc],
    looks for a character whose NFKC form holds one of [/?#@:]; such
    characters lie beyond U+00FF (U+2100, U+FF0F, ...), so on the texts
    of this model it never raises. *)
Definition netloc_error (ip : string -> ip_address) (netloc : string) : option exn :=
  if (contains "[" netloc && negb (contains "]" netloc))
     || (contains "]" netloc && negb (contains "[" netloc))
  then Some (ValueError "Invalid IPv6 URL")
  else if contains "[" netloc && contains "]" netloc
       then _check_bracketed_netloc ip netloc
       else None.

(** [urlsplit(url)] with the default [scheme=''] and
    [allow_fragments=True]: the components it returns when the checks of
    the network location pass. *)
Definition urlsplit (url : string) : ParseResult :=
  let url := lstrip c0_control_or_space url in
  let url := remove_unsafe url in
  let '(sch, url) := split_scheme url in
  let '(loc, url) :=
    if starts_with_2slash url then _splitnetloc url 2 else ("", url) in
  let '(url, frag) := split_once "#" url in
  let '(url, qry) := split_once "?" url in
  {| scheme := sch; netloc := loc; path := url; params := "";
     query := qry; fragment := frag |}.

Definition _splitparams (url : string) : string * string :=
  if contains "/" url then
    let i := find_from ";" url (rfind "/" url) in
    if i <? 0 then (url, "")
    else (upto i url, from (i + 1) url)
  else
    let i := find ";" url in
    (upto i url, from (i + 1) url).

Definition urlparse (url : string) : ParseResult :=
  let r := urlsplit url in
  if existsb (String.eqb (scheme r)) uses_params && contains ";" (path r)
  then let '(p, ps) := _splitparams (path r) in
       {| scheme := scheme r; netloc := netloc r; path := p; params := ps;
          query := query r; fragment := fragment r |}
  else r.

(** [urlsplit(url)], and so [urlparse(url)], raises instead of returning
    when the network location it has split off fails its checks (a URL
    without [//] has an empty network location, which passes). *)
Definition urlsplit_error (ip : string -> ip_address) (url : string) : option exn :=
  netloc_error ip (netloc (urlsplit url)).

End UrlParse.

(** ** [os.path.basename] (posixpath) *)

Module PosixPath.
Import PyStr.

(** [i = p.rfind(sep) + 1; return p[i:]] *)
Definition basename (p : string) : string :=
  let i := rfind "/" p + 1 in
  from i p.

End PosixPath.

(** ** The entry name of a URL ([run], lines 132-136)

    [entry_name] is the name the lines compute from what [urlparse]
    returns; [entry_namer] is the lines as a whole, with the
    [ValueError] of [urlparse]. *)

Definition entry_name (url : string) : string :=
  let u := UrlParse.urlparse url in
  let basename := PosixPath.basename (UrlParse.path u) in
  if String.eqb basename "" then "index.html" else basename.

Definition entry_namer (ip : string -> UrlParse.ip_address) (url : string)
  : outcome string :=
  match UrlParse.urlsplit_error ip url with
  | Some e => Raise e
  | None => Ok (entry_name url)
  end.

(** The words of the specification: the segments of a path are the pieces
    between its slashes, and the last of them is its final segment. *)
Definition path_segments (p : string) : list string := PyStr.split "/" p.
Definition final_segment (p : string) : string := last (path_segments p) "".

(** ** Values read from the configuration file

    [json.load] yields Python values; the script indexes, tests and
    iterates them without checking their type, so the model keeps them
    dynamically typed.  JSON numbers are modelled by integers; a [JObj]
    lists the items of a [dict], each key once. *)

#[local] Set Warnings "-register-all".

Inductive json :=
| JNull
| JBool (b : bool)
| JInt (z : Z)
| JStr (s : string)
| JList (l : list json)
| JObj (kvs : list (string * json)).

Module Py.

(** Truth value of an object, as [assert x] and [if x] test it. *)
Definition truthy (v : json) : bool :=
  match v with
  | JNull => false
  | JBool b => b
  | JInt z => negb (z =? 0)
  | JStr s => negb (String.eqb s "")
  | JList l => match l with [] => false | _ => true end
  | JObj kvs => match kvs with [] => false | _ => true end
  end.

Fixpoint lookup (key : string) (kvs : list (string * json)) : option json :=
  match kvs with
  | [] => None
  | (k, v) :: t => if String.eqb k key then Some v else lookup key t
  end.

(** [v[key]] for a string key. *)
Definition getitem (v : json) (key : string) : outcome json :=
  match v with
  | JObj kvs =>
      match lookup key kvs with
      | Some x => Ok x
      | None => Raise (KeyError key)
      end
  | _ => Raise (TypeError "subscript")
  end.

(** [len(v)] *)
Definition len (v : json) : outcome Z :=
  match v with
  | JStr s => Ok (PyStr.len s)
  | JList l => Ok (Z.of_nat (List.length l))
  | JObj kvs => Ok (Z.of_nat (List.length kvs))
  | _ => Raise (TypeError "len")
  end.

Fixpoint chars (s : string) : list json :=
  match s with
  | EmptyString => []
  | String c t => JStr (String c EmptyString) :: chars t
  end.

(** The items a [for] loop over [v] visits. *)
Definition iter (v : json) : outcome (list json) :=
  match v with
  | JList l => Ok l
  | JStr s => Ok (chars s)
  | JObj kvs => Ok (map (fun kv => JStr (fst kv)) kvs)
  | _ => Raise (TypeError "iter")
  end.

End Py.

(** ** [requests.Response] *)

Record Response := {
  status_code : Z;
  reason : string;
  text : string
}.

(** [Response.ok]: [raise_for_status()] does not raise, that is the
    status is neither a client error (4xx) nor a server error (5xx). *)
Definition ok (r : Response) : bool :=
  negb ((400 <=? status_code r) && (status_code r <? 600)).

(** The 2xx class of status codes. *)
Definition is_2xx (r : Response) : bool :=
  (200 <=? status_code r) && (status_code r <? 300).

Inductive get_result :=
| Returns (r : Response)
| Raises (e : exn).

(** ** What the process does to the world *)

Inductive level := DEBUG | INFO | WARNING | ERROR.

Inductive logarg :=
| LInt (z : Z)
| LStr (s : string)
| LVal (v : json).

Inductive fs_op := Resolve | IsDir | Exists.

Inductive event :=
| EvSetupLogging (log_file : option string) (verbose no_color : bool)
| EvLog (lvl : level) (fmt : string) (args : list logarg)
| EvFs (op : fs_op) (p : string)
| EvClock (fmt : string)
| EvLoadJson (p : string)
| EvSleep (seconds : Z)
| EvGet (url : json) (headers : json)
| EvOpen (p : string)
| EvWriteStr (name data : string)
| EvWarn (fmt : string) (arg : string)
| EvClose.

(** [Closed] is an archive that [close] has finished: its directory is
    written and it can be read.  [Unfinished] is what a failed [close]
    leaves: the file is closed, but it has no directory. *)
Inductive zip_status := NotOpened | Opened | Closed | Unfinished.

(** The [zipfile.ZipFile] object [zf] and the file behind it.  The
    entries are kept in the order they were written; a name written twice
    is kept twice. *)
Record zip_archive := {
  zstatus : zip_status;
  zentries : list (string * string)
}.

Record state := {
  trace : list event;
  zip : zip_archive
}.

Definition init : state :=
  {| trace := []; zip := {| zstatus := NotOpened; zentries := [] |} |}.

(** The part of the world the process does not control.  Requests, draws
    of the random generator and archive writes are numbered by the
    position of the URL they belong to; whether the archive can be
    finished depends on the entries written to it.  The last field is
    [ipaddress.ip_address], which the model takes as given. *)
Record env := {
  env_script_dir : string;
  env_strftime : string -> string;
  env_resolve : string -> string;
  env_is_dir : string -> bool;
  env_exists : string -> bool;
  env_load_json : string -> outcome json;
  env_open_log : string -> option exn;
  env_open_zip : string -> option exn;
  env_writestr : nat -> string -> string -> option exn;
  env_close : list (string * string) -> option exn;
  env_draw : nat -> Z;
  env_get : nat -> string -> json -> get_result;
  env_ip_address : string -> UrlParse.ip_address
}.

(** ** The monad of the script: reader of the world, state, exceptions.
    A raised exception keeps the state reached so far. *)

Definition M (A : Type) : Type := env -> state -> outcome A * state.

Definition ret {A} (a : A) : M A := fun _ st => (Ok a, st).

Definition bind {A B} (c : M A) (k : A -> M B) : M B :=
  fun w st =>
    match c w st with
    | (Ok a, st') => k a w st'
    | (Raise e, st') => (Raise e, st')
    end.

Definition raise {A} (e : exn) : M A := fun _ st => (Raise e, st).

Definition lift {A} (o : outcome A) : M A := fun _ st => (o, st).

Definition ask {A} (f : env -> A) : M A := fun w st => (Ok (f w), st).

Definition emit (e : event) : M unit :=
  fun _ st => (Ok tt, {| trace := trace st ++ [e]; zip := zip st |}).

Declare Scope py_scope.
Delimit Scope py_scope with py.
Notation "x <- c ;; k" := (bind c (fun x => k))
  (at level 61, c at next level, right associativity) : py_scope.
Notation "c ;; k" := (bind c (fun _ => k))
  (at level 61, right associativity) : py_scope.
Local Open Scope py_scope.

(** [assert cond, msg] *)
Definition assert (cond : bool) (msg : string) : M unit :=
  if cond then ret tt else raise (AssertionError msg).

(** [logging.debug], [logging.info], [logging.error]: the call is recorded
    with its format and arguments, whatever level the handler shows. *)
Definition log (lvl : level) (fmt : string) (args : list logarg) : M unit :=
  emit (EvLog lvl fmt args).

(** ** [pathlib.Path]

    A path is kept as the text it was built from; the normalisation
    pathlib applies to that text does not change which file is meant.
    The file system of the model answers every query: a path text that
    pathlib refuses (one with a NUL character, a loop of symbolic links)
    is outside it. *)
Module Path.

Definition is_absolute (p : string) : bool :=
  match p with String "/" _ => true | _ => false end.

Definition joinpath (p q : string) : string :=
  if is_absolute q then q else p ++ "/" ++ q.

Definition resolve (p : string) : M string :=
  emit (EvFs Resolve p) ;; ask (fun w => env_resolve w p).

Definition is_dir (p : string) : M bool :=
  emit (EvFs IsDir p) ;; ask (fun w => env_is_dir w p).

Definition exists_ (p : string) : M bool :=
  emit (EvFs Exists p) ;; ask (fun w => env_exists w p).

(** [Path(v)] *)
Definition of_value (v : json) : M string :=
  match v with
  | JStr s => ret s
  | _ => raise (TypeError "Path")
  end.

End Path.

(** ** [zipfile.ZipFile] *)
Module ZipFile.

Definition set_zip (z : zip_archive) : M unit :=
  fun _ st => (Ok tt, {| trace := trace st; zip := z |}).

Definition get_zip : M zip_archive := fun _ st => (Ok (zip st), st).

(** [ZipFile(p, "w", ZIP_DEFLATED)]: creates or truncates the file. *)
Definition open (p : string) : M unit :=
  emit (EvOpen p) ;;
  failure <- ask (fun w => env_open_zip w p) ;;
  match failure with
  | Some e => raise e
  | None => set_zip {| zstatus := Opened; zentries := [] |}
  end.

(** [zf.close()]: writes the directory of the archive and closes the
    file.  When the directory cannot be written the file is closed all
    the same and the error is raised. *)
Definition close : M unit :=
  emit EvClose ;;
  z <- get_zip ;;
  failure <- ask (fun w => env_close w (zentries z)) ;;
  match failure with
  | Some e => set_zip {| zstatus := Unfinished; zentries := zentries z |} ;; raise e
  | None => set_zip {| zstatus := Closed; zentries := zentries z |}
  end.

(** [zf.namelist()] *)
Definition namelist (entries : list (string * string)) : list string :=
  map fst entries.

(** [ZipInfo(filename)]: the name of an entry ends at its first NUL
    character. *)
Definition arcname (filename : string) : string :=
  let null_byte := PyStr.find "000" filename in
  if 0 <=? null_byte then PyStr.upto null_byte filename else filename.

(** [zf.writestr(name, data)], the write that belongs to URL number [i].
    The entry is made first: its name is cut at a NUL, and [filename[-1]]
    raises on a name that is then empty.  A name that is already in the
    archive is written again: zipfile reports the duplicate through the
    [warnings] module and goes on. *)
Definition writestr (i : nat) (name data : string) : M unit :=
  emit (EvWriteStr name data) ;;
  let filename := arcname name in
  if String.eqb filename "" then raise (IndexError "string index out of range")
  else
    z <- get_zip ;;
    match zstatus z with
    | Opened =>
        (if existsb (String.eqb filename) (namelist (zentries z))
         then emit (EvWarn "Duplicate name: %r" filename)
         else ret tt) ;;
        failure <- ask (fun w => env_writestr w i name data) ;;
        match failure with
        | Some e => raise e
        | None => set_zip {| zstatus := Opened;
                             zentries := zentries z ++ [(filename, data)] |}
        end
    | _ => raise (ValueError "Attempt to write to ZIP archive that was already closed")
    end.

(** [with ZipFile(p, "w", ZIP_DEFLATED) as zf: body]: [__exit__] closes
    the archive however the body ends; an error of the closing is raised
    in place of what the body did. *)
Definition with_ {A} (p : string) (body : M A) : M A :=
  open p ;;
  fun w st =>
    let (r, st') := body w st in
    match close w st' with
    | (Ok _, st'') => (r, st'')
    | (Raise e, st'') => (Raise e, st'')
    end.

(** [zf.read(name)] on the finished archive: the name index maps a name
    to the entry written last under it. *)
Fixpoint read (name : string) (entries : list (string * string)) : option string :=
  match entries with
  | [] => None
  | (n, d) :: t =>
      match read name t with
      | Some d' => Some d'
      | None => if String.eqb n name then Some d else None
      end
  end.

End ZipFile.

(** ** [random.randint] and [time.sleep] *)

(** [randint(a, b)] is [a + randbelow(b - a + 1)]; the generator's draw
    below [n] for URL number [i] is the world's raw draw reduced into
    [0 .. n-1]. *)
Definition randint_of (a b raw : Z) : Z := a + raw mod (b - a + 1).

Definition randint (i : nat) (a b : Z) : M Z :=
  ask (fun w => randint_of a b (env_draw w i)).

Definition sleep (seconds : Z) : M unit := emit (EvSleep seconds).

(** ** [requests.get]

    A URL that is not a string has no usable scheme, and the client
    raises before sending anything. *)
Definition requests_get (i : nat) (url headers : json) : M Response :=
  emit (EvGet url headers) ;;
  match url with
  | JStr s =>
      res <- ask (fun w => env_get w i s headers) ;;
      match res with
      | Returns r => ret r
      | Raises e => raise e
      end
  | _ => raise (RequestException "MissingSchema")
  end.

(** [urllib.parse.urlparse(url)], as the script calls it: the
    [ValueError] of the network-location checks, or the components. *)
Definition urlparse (url : string) : M UrlParse.ParseResult :=
  ip <- ask env_ip_address ;;
  match UrlParse.urlsplit_error ip url with
  | Some e => raise e
  | None => ret (UrlParse.urlparse url)
  end.

(** ** The functions of [downloader.py] *)

Definition __get_check_zipfilename (datadir : string) : M string :=
  now <- (emit (EvClock "%Y-%m-%d_%H%M%S") ;;
          ask (fun w => env_strftime w "%Y-%m-%d_%H%M%S")) ;;
  let filepath := Path.joinpath datadir (now ++ ".zip") in
  resolved <- Path.resolve filepath ;;
  log INFO "filepath: %s" [LStr resolved] ;;
  present <- Path.exists_ filepath ;;
  assert (negb present) "target ZIP must not exist already!" ;;
  ret filepath.

Definition __get_check_datadir (config : json) : M string :=
  v <- lift (Py.getitem config "datadir") ;;
  datadir <- Path.of_value v ;;
  datadir <- (if negb (Path.is_absolute datadir)
              then script_dir <- ask env_script_dir ;;
                   ret (Path.joinpath script_dir datadir)
              else ret datadir) ;;
  resolved <- Path.resolve datadir ;;
  log DEBUG "datadir: %s" [LStr resolved] ;;
  isdir <- Path.is_dir datadir ;;
  assert isdir "datadir must be an existing directory!" ;;
  ret datadir.

Definition __check_config (config : json) : M unit :=
  v <- lift (Py.getitem config "datadir") ;;
  assert (Py.truthy v) "invalid configuration!" ;;
  v <- lift (Py.getitem config "headers") ;;
  assert (Py.truthy v) "invalid configuration!" ;;
  v <- lift (Py.getitem config "urls") ;;
  assert (Py.truthy v) "invalid configuration!" ;;
  v <- lift (Py.getitem config "urls") ;;
  n <- lift (Py.len v) ;;
  assert (0 <? n) "invalid configuration!".

Definition __setup_logging (log_file : option string) (verbose no_color : bool) : M unit :=
  match log_file with
  | None => ret tt
  | Some f =>
      failure <- ask (fun w => env_open_log w f) ;;
      match failure with
      | Some e => raise e
      | None => ret tt
      end
  end ;;
  emit (EvSetupLogging log_file verbose no_color).

(** The body of the [for] loop of [run] for the URL at position [i]. *)
Definition fetch_one (config : json) (no_sleep : bool) (i : nat) (url : json) : M unit :=
  (if negb no_sleep then
     sleep_time_seconds <- randint i 35 621 ;;
     log INFO "random sleep for %d seconds ..." [LInt sleep_time_seconds] ;;
     sleep sleep_time_seconds
   else ret tt) ;;
  log INFO "HTTP GET '%s' ..." [LVal url] ;;
  headers <- lift (Py.getitem config "headers") ;;
  r <- requests_get i url headers ;;
  log DEBUG "response status:%d" [LInt (status_code r)] ;;
  if ok r then
    match url with
    | JStr s =>
        u <- urlparse s ;;
        let basename := PosixPath.basename (UrlParse.path u) in
        log DEBUG "basename: %s" [LStr basename] ;;
        let basename := if String.eqb basename "" then "index.html" else basename in
        log DEBUG "writing %s bytes to ZIP ..." [LInt (PyStr.len (text r))] ;;
        ZipFile.writestr i basename (text r)
    | _ => raise (TypeError "urlparse")
    end
  else
    log ERROR (reason r) [].

Fixpoint for_urls (config : json) (no_sleep : bool) (i : nat) (urls : list json) : M unit :=
  match urls with
  | [] => ret tt
  | url :: rest =>
      fetch_one config no_sleep i url ;;
      for_urls config no_sleep (S i) rest
  end.

Definition run (config : json) (no_sleep : bool) : M unit :=
  __check_config config ;;
  datadir <- __get_check_datadir config ;;
  zipfilename <- __get_check_zipfilename datadir ;;
  urls <- lift (Py.getitem config "urls") ;;
  n <- lift (Py.len urls) ;;
  log INFO "#URLs: %d" [LInt n] ;;
  ZipFile.with_ zipfilename
    (items <- lift (Py.iter urls) ;;
     for_urls config no_sleep 0 items).

Record arguments := {
  arg_logfile : option string;
  arg_nocolor : bool;
  arg_verbose : bool;
  arg_config : string;
  arg_nosleep : bool
}.

Definition version_string : string := "WebPagesDownloadToZip 1.1.0 (2022-10-06)".

(** [main()], from the arguments [docopt] has parsed. *)
Definition main (a : arguments) : M unit :=
  __setup_logging (arg_logfile a) (arg_verbose a) (arg_nocolor a) ;;
  log INFO version_string [] ;;
  let config_file := arg_config a in
  present <- Path.exists_ config_file ;;
  config_file <- (if negb present
                  then script_dir <- ask env_script_dir ;;
                       ret (Path.joinpath script_dir (arg_config a))
                  else ret config_file) ;;
  present <- Path.exists_ config_file ;;
  (if negb present
   then resolved <- Path.resolve config_file ;;
        raise (RuntimeError ("No such config file: " ++ resolved))
   else ret tt) ;;
  resolved <- Path.resolve config_file ;;
  log INFO "loading config file '%s' ..." [LStr resolved] ;;
  config <- (emit (EvLoadJson config_file) ;;
             load <- ask (fun w => env_load_json w config_file) ;;
             lift load) ;;
  run config (arg_nosleep a).

(** [sys.exit(main())]: [main] returns [None], which exits with status 0;
    an exception that nobody catches ends the interpreter with status 1. *)
Definition exit_status (r : outcome unit) : Z :=
  match r with
  | Ok _ => 0
  | Raise _ => 1
  end.

Definition script (a : arguments) (w : env) : Z * state :=
  let (r, st) := main a w init in (exit_status r, st).

(** The names the specification gives to the failures of the set-up. *)
Definition InvalidConfigError : exn := AssertionError "invalid configuration!".
Definition DirectoryNotFoundError : exn :=
  AssertionError "datadir must be an existing directory!".
Definition ArchiveAlreadyExistsError : exn :=
  AssertionError "target ZIP must not exist already!".

(** * Definitions used to state and prove the properties *)

Local Open Scope list_scope.

(** ** Cutting a string at a delimiter *)

Module Cut.
Import PyStr.

(** The text before the first [c] (all of it when [c] is absent) and
    the text after it. *)
Fixpoint before (c : ascii) (s : string) : string :=
  match s with
  | EmptyString => EmptyString
  | String d t => if Ascii.eqb d c then EmptyString else String d (before c t)
  end.

Fixpoint after (c : ascii) (s : string) : string :=
  match s with
  | EmptyString => EmptyString
  | String d t => if Ascii.eqb d c then t else after c t
  end.

(** The same with a set of delimiters; [from_any] keeps the delimiter. *)
Fixpoint before_any (p : ascii -> bool) (s : string) : string :=
  match s with
  | EmptyString => EmptyString
  | String d t => if p d then EmptyString else String d (before_any p t)
  end.

Fixpoint from_any (p : ascii -> bool) (s : string) : string :=
  match s with
  | EmptyString => EmptyString
  | String d t => if p d then s else from_any p t
  end.

Definition host_end (c : ascii) : bool :=
  Ascii.eqb c "/" || Ascii.eqb c "?" || Ascii.eqb c "#".

Definition query_or_fragment (c : ascii) : bool :=
  Ascii.eqb c "?" || Ascii.eqb c "#".

(** The index of the first [c], or the length when there is none. *)
Definition pos_or_len (c : ascii) (t : string) : Z :=
  if find c t <? 0 then len t else find c t.

(** What is left of the URL once the network location is split off. *)
Definition after_netloc (url : string) : string :=
  if starts_with_2slash url then snd (UrlParse._splitnetloc url 2) else url.

Definition sanitize (url : string) : string :=
  UrlParse.remove_unsafe (lstrip UrlParse.c0_control_or_space url).

(** A string that begins with [?] or [#]. *)
Definition headed (x : string) : Prop :=
  match x with
  | String q _ => query_or_fragment q = true
  | EmptyString => False
  end.

Definition clean (u : string) : Prop :=
  contains "?" u = false /\ contains "#" u = false.

End Cut.

(** A URL without its query and fragment: the text before the first [?]
    or [#]. *)
Definition without_query_fragment (url : string) : string :=
  Cut.before_any Cut.query_or_fragment url.

(** ** The stages of [run] and [main] *)

(** The state [st] after the events [evs]. *)
Definition extend (st : state) (evs : list event) : state :=
  {| trace := trace st ++ evs; zip := zip st |}.

(** Lines 109-114 of [run]: everything before the archive is opened. *)
Definition setup (config : json) : M (string * json) :=
  __check_config config ;;
  datadir <- __get_check_datadir config ;;
  zipfilename <- __get_check_zipfilename datadir ;;
  urls <- lift (Py.getitem config "urls") ;;
  n <- lift (Py.len urls) ;;
  log INFO "#URLs: %d" [LInt n] ;;
  ret (zipfilename, urls).

(** Lines 116-143 of [run]: the archive and the loop inside it. *)
Definition fetch_archive (config : json) (no_sleep : bool) (zipfilename : string)
    (urls : json) : M unit :=
  ZipFile.with_ zipfilename
    (items <- lift (Py.iter urls) ;;
     for_urls config no_sleep 0 items).

(** Lines 160-171 of [main]: everything before [run] is called. *)
Definition load_config (a : arguments) : M json :=
  __setup_logging (arg_logfile a) (arg_verbose a) (arg_nocolor a) ;;
  log INFO version_string [] ;;
  let config_file := arg_config a in
  present <- Path.exists_ config_file ;;
  config_file <- (if negb present
                  then script_dir <- ask env_script_dir ;;
                       ret (Path.joinpath script_dir (arg_config a))
                  else ret config_file) ;;
  present <- Path.exists_ config_file ;;
  (if negb present
   then resolved <- Path.resolve config_file ;;
        raise (RuntimeError ("No such config file: " ++ resolved))
   else ret tt) ;;
  resolved <- Path.resolve config_file ;;
  log INFO "loading config file '%s' ..." [LStr resolved] ;;
  emit (EvLoadJson config_file) ;;
  load <- ask (fun w => env_load_json w config_file) ;;
  lift load.

(** The events of one iteration, by its stage. *)
Definition pacing_events (no_sleep : bool) (w : env) (i : nat) : list event :=
  if no_sleep then []
  else let n := randint_of 35 621 (env_draw w i) in
       [EvLog INFO "random sleep for %d seconds ..." [LInt n]; EvSleep n].

Definition request_events (no_sleep : bool) (w : env) (i : nat) (url h : json) : list event :=
  (pacing_events no_sleep w i
   ++ [EvLog INFO "HTTP GET '%s' ..." [LVal url]; EvGet url h])%list.

Definition status_event (r : Response) : event :=
  EvLog DEBUG "response status:%d" [LInt (status_code r)].

(** From the response to the call of [writestr]. *)
Definition write_events (s : string) (r : Response) : list event :=
  [status_event r;
   EvLog DEBUG "basename: %s" [LStr (PosixPath.basename (UrlParse.path (UrlParse.urlparse s)))];
   EvLog DEBUG "writing %s bytes to ZIP ..." [LInt (PyStr.len (text r))];
   EvWriteStr (entry_name s) (text r)].

Definition skip_events (r : Response) : list event :=
  [status_event r; EvLog ERROR (reason r) []].

(** The name under which the archive stores the entry of a URL. *)
Definition archive_name (s : string) : string := ZipFile.arcname (entry_name s).

(** The warning of a write under a name the archive already has. *)
Definition duplicate_warning (names : list string) (name : string) : list event :=
  if existsb (String.eqb name) names then [EvWarn "Duplicate name: %r" name] else [].

(** The outcome of [with]: what the body did, unless the closing fails. *)
Definition close_result {A} (w : env) (entries : list (string * string))
    (r : outcome A) : outcome A :=
  match env_close w entries with
  | None => r
  | Some e => Raise e
  end.

(** The archive after [with]. *)
Definition closed_archive (w : env) (entries : list (string * string)) : zip_archive :=
  {| zstatus := match env_close w entries with None => Closed | Some _ => Unfinished end;
     zentries := entries |}.

(** ** What a run is expected to leave in the archive *)

(** [urlparse] accepts the URL. *)
Definition parses (w : env) (s : string) : bool :=
  match UrlParse.urlsplit_error (env_ip_address w) s with
  | None => true
  | Some _ => false
  end.

(** The URL gives an entry a name: [urlparse] accepts it, and the name
    is not empty once it is cut at a NUL. *)
Definition named (w : env) (s : string) : bool :=
  parses w s && negb (String.eqb (archive_name s) "").

(** The entries the URLs [urls], numbered from [i], put in the archive
    when nothing raises: one per URL whose response is ok, in order. *)
Fixpoint expected_entries (w : env) (h : json) (i : nat) (urls : list string)
  : list (string * string) :=
  match urls with
  | [] => []
  | s :: rest =>
      match env_get w i s h with
      | Returns r => if ok r then [(archive_name s, text r)] else []
      | Raises _ => []
      end ++ expected_entries w h (S i) rest
  end.

(** Every URL whose response is ok gives its entry a name. *)
Fixpoint names_ok (w : env) (h : json) (i : nat) (urls : list string) : bool :=
  match urls with
  | [] => true
  | s :: rest =>
      match env_get w i s h with
      | Returns r => if ok r then named w s else true
      | Raises _ => true
      end
      && names_ok w h (S i) rest
  end.

(** The warnings of writing [entries] to an archive that holds the names
    [seen]: one for each entry whose name is there already. *)
Fixpoint duplicates (seen : list string) (entries : list (string * string))
  : list event :=
  match entries with
  | [] => []
  | (n, _) :: rest => duplicate_warning seen n ++ duplicates (seen ++ [n]) rest
  end.

(** Every GET returns a response. *)
Fixpoint all_respond (w : env) (h : json) (i : nat) (urls : list string) : bool :=
  match urls with
  | [] => true
  | s :: rest =>
      match env_get w i s h with Returns _ => true | Raises _ => false end
      && all_respond w h (S i) rest
  end.

(** Every GET returns a response that is ok. *)
Fixpoint all_ok (w : env) (h : json) (i : nat) (urls : list string) : bool :=
  match urls with
  | [] => true
  | s :: rest =>
      match env_get w i s h with Returns r => ok r | Raises _ => false end
      && all_ok w h (S i) rest
  end.

(** Every GET returns a response with a 2xx status. *)
Fixpoint all_2xx (w : env) (h : json) (i : nat) (urls : list string) : bool :=
  match urls with
  | [] => true
  | s :: rest =>
      match env_get w i s h with Returns r => is_2xx r | Raises _ => false end
      && all_2xx w h (S i) rest
  end.

(** No archive write that the run attempts fails. *)
Fixpoint writes_succeed (w : env) (h : json) (i : nat) (urls : list string) : bool :=
  match urls with
  | [] => true
  | s :: rest =>
      match env_get w i s h with
      | Returns r =>
          if ok r
          then match env_writestr w i (entry_name s) (text r) with
               | None => true
               | Some _ => false
               end
          else true
      | Raises _ => true
      end
      && writes_succeed w h (S i) rest
  end.

(** The body of the last URL whose response was ok and whose entry is
    stored under [name]. *)
Fixpoint last_body (w : env) (h : json) (i : nat) (urls : list string) (name : string)
  : option string :=
  match urls with
  | [] => None
  | s :: rest =>
      match last_body w h (S i) rest name with
      | Some b => Some b
      | None =>
          match env_get w i s h with
          | Returns r =>
              if ok r && String.eqb (archive_name s) name then Some (text r) else None
          | Raises _ => None
          end
      end
  end.

(** ** Pacing: the events of a run, read in order *)

Definition sleep_ok (n : Z) : bool := (35 <=? n) && (n <=? 621).

Definition is_sleep (e : event) : bool :=
  match e with EvSleep _ => true | _ => false end.

Definition is_get (e : event) : bool :=
  match e with EvGet _ _ => true | _ => false end.

(** The sleeps and the GETs are the events that pace a run. *)
Definition pacing (e : event) : bool := is_sleep e || is_get e.

(** The sleeps and GETs of the URLs [items], numbered from [i]: for each
    URL in turn, unless sleeping is off, one sleep of the duration that
    [randint(35, 621)] makes of the draw of that URL, and then the GET of
    the URL. *)
Fixpoint paced_requests (no_sleep : bool) (w : env) (h : json) (i : nat)
    (items : list json) : list event :=
  match items with
  | [] => []
  | url :: rest =>
      (if no_sleep then [] else [EvSleep (randint_of 35 621 (env_draw w i))])
      ++ EvGet url h :: paced_requests no_sleep w h (S i) rest
  end.

(** The generator's draws below 587 that [randint(35, 621)] turns into
    the duration [k]. *)
Definition draws_giving (k : Z) : list Z :=
  filter (fun d => randint_of 35 621 d =? k) (map Z.of_nat (seq 0 587)).

(** The error records of the URLs [items], numbered from [i]: the reason
    of each response that is not ok. *)
Fixpoint error_records (w : env) (h : json) (i : nat) (items : list json)
  : list event :=
  match items with
  | [] => []
  | url :: rest =>
      match url with
      | JStr s =>
          match env_get w i s h with
          | Returns r => if ok r then [] else [EvLog ERROR (reason r) []]
          | Raises _ => []
          end
      | _ => []
      end ++ error_records w h (S i) rest
  end.

(** Events of the set-up: logging, file-system queries, the clock. *)
Definition quiet (e : event) : bool :=
  match e with
  | EvLog _ _ _ | EvFs _ _ | EvClock _ => true
  | _ => false
  end.

(** Events of the loop body. *)
Definition loop_event (e : event) : bool :=
  match e with
  | EvLog _ _ _ | EvSleep _ | EvGet _ _ | EvWriteStr _ _ | EvWarn _ _ => true
  | _ => false
  end.

Definition is_warning (e : event) : bool :=
  match e with EvWarn _ _ => true | _ => false end.

(** ** A small world to run the script in *)

Definition demo_headers : json := JObj [("User-Agent", JStr "x")].

Definition demo_config (urls : list string) : json :=
  JObj [("datadir", JStr "."); ("headers", demo_headers);
        ("urls", JList (map JStr urls))].

Definition demo_world (config : json) (get : nat -> string -> json -> get_result)
    (writestr : nat -> string -> string -> option exn) : env :=
  {| env_script_dir := "/opt/app";
     env_strftime := fun _ => "2022-10-06_120000";
     env_resolve := fun p => p;
     env_is_dir := fun p => String.eqb p "/opt/app/.";
     env_exists := fun p => String.eqb p "config.json";
     env_load_json := fun _ => Ok config;
     env_open_log := fun _ => None;
     env_open_zip := fun _ => None;
     env_writestr := writestr;
     env_close := fun _ => None;
     env_draw := fun i => 1000 + Z.of_nat i;
     env_get := get;
     env_ip_address := fun _ => UrlParse.NotAnAddress |}.

(** The world [w] with another answer to the closing of the archive. *)
Definition closing (w : env) (close : list (string * string) -> option exn) : env :=
  {| env_script_dir := env_script_dir w;
     env_strftime := env_strftime w;
     env_resolve := env_resolve w;
     env_is_dir := env_is_dir w;
     env_exists := env_exists w;
     env_load_json := env_load_json w;
     env_open_log := env_open_log w;
     env_open_zip := env_open_zip w;
     env_writestr := env_writestr w;
     env_close := close;
     env_draw := env_draw w;
     env_get := env_get w;
     env_ip_address := env_ip_address w |}.

Definition demo_args : arguments :=
  {| arg_logfile := None; arg_nocolor := false; arg_verbose := false;
     arg_config := "config.json"; arg_nosleep := true |}.

Definition demo_args_sleeping : arguments :=
  {| arg_logfile := None; arg_nocolor := false; arg_verbose := false;
     arg_config := "config.json"; arg_nosleep := false |}.

Definition demo_zip : string := "/opt/app/./2022-10-06_120000.zip".

Definition page (body : string) : get_result :=
  Returns {| status_code := 200; reason := "OK"; text := body |}.
Definition not_found : get_result :=
  Returns {| status_code := 404; reason := "Not Found"; text := "" |}.
Definition not_modified : get_result :=
  Returns {| status_code := 304; reason := "Not Modified"; text := "" |}.
Definition connection_error : get_result :=
  Raises (RequestException "ConnectionError").

Definition disk_ok (i : nat) (name data : string) : option exn := None.
Definition disk_full (i : nat) (name data : string) : option exn :=
  Some (OSError "No space left on device").

Definition two_urls : list string := ["https://a.test/page1.html"; "https://a.test/"].

(** Both pages are served. *)
Definition world_two_pages : env :=
  demo_world (demo_config two_urls)
    (fun i _ _ => if Nat.eqb i 0 then page "<html>1</html>" else page "<html>home</html>")
    disk_ok.

(** The first request fails in transport, the second would be answered. *)
Definition world_first_unreachable : env :=
  demo_world (demo_config two_urls)
    (fun i _ _ => if Nat.eqb i 0 then connection_error else page "<html>home</html>")
    disk_ok.

(** The first page is served, the second request fails in transport. *)
Definition world_second_unreachable : env :=
  demo_world (demo_config two_urls)
    (fun i _ _ => if Nat.eqb i 0 then page "<html>1</html>" else connection_error)
    disk_ok.

(** The first page is served, the second is missing. *)
Definition world_second_missing : env :=
  demo_world (demo_config two_urls)
    (fun i _ _ => if Nat.eqb i 0 then page "<html>1</html>" else not_found)
    disk_ok.

(** The server answers 304 Not Modified. *)
Definition world_not_modified : env :=
  demo_world (demo_config ["https://a.test/page1.html"])
    (fun _ _ _ => not_modified) disk_ok.

(** Two sites, both fetched at their root. *)
Definition two_roots : list string := ["https://a.test/"; "https://b.test/"].
Definition world_two_roots : env :=
  demo_world (demo_config two_roots)
    (fun i _ _ => if Nat.eqb i 0 then page "<html>a</html>" else page "<html>b</html>")
    disk_ok.

(** The pages are served; there is no room for a page, but the archive
    can still be finished. *)
Definition world_no_room : env :=
  demo_world (demo_config two_urls) (fun _ _ _ => page "<html>1</html>") disk_full.

(** The pages are served, the disk is full: neither a page nor the
    directory of the archive can be written. *)
Definition world_disk_full : env :=
  closing world_no_room (fun _ => Some (OSError "No space left on device")).

(** A URL with an unbalanced bracket in its network location, which the
    server answers. *)
Definition bracket_url : string := "http://user[@a.test/x".
Definition world_bracket : env :=
  demo_world (demo_config [bracket_url; "https://a.test/"])
    (fun _ _ _ => page "<html>1</html>") disk_ok.

(** ** Kinds of events, entries and configurations *)

Definition is_error_log (e : event) : bool :=
  match e with EvLog ERROR _ _ => true | _ => false end.

Definition is_write (e : event) : bool :=
  match e with EvWriteStr _ _ => true | _ => false end.

Definition is_open (e : event) : bool :=
  match e with EvOpen _ => true | _ => false end.

Definition required_keys : list string := ["datadir"; "headers"; "urls"].

(** [key] is missing from the configuration, or its value is empty. *)
Definition missing_or_empty (kvs : list (string * json)) (key : string) : Prop :=
  Py.lookup key kvs = None
  \/ exists v, Py.lookup key kvs = Some v /\ Py.truthy v = false.

(** A configuration whose [urls] list is empty. *)
Definition config_without_urls : list (string * json) :=
  [("datadir", JStr "."); ("headers", demo_headers); ("urls", JList [])].

(** A configuration without the [datadir] key. *)
Definition config_without_datadir : list (string * json) :=
  [("headers", demo_headers); ("urls", JList [JStr "https://a.test/"])].

(** A world in which the archive of this second is already there. *)
Definition world_archive_exists : env :=
  {| env_script_dir := "/opt/app";
     env_strftime := fun _ => "2022-10-06_120000";
     env_resolve := fun p => p;
     env_is_dir := fun p => String.eqb p "/opt/app/.";
     env_exists := fun p => String.eqb p demo_zip;
     env_load_json := fun _ => Ok (demo_config two_urls);
     env_open_log := fun _ => None;
     env_open_zip := fun _ => None;
     env_writestr := disk_ok;
     env_close := fun _ => None;
     env_draw := fun i => 1000 + Z.of_nat i;
     env_get := fun _ _ _ => page "<html>1</html>";
     env_ip_address := fun _ => UrlParse.NotAnAddress |}.

(** The name is the one the archive gives to the entry of some URL. *)
Definition named_after_url (entry : string * string) : Prop :=
  exists s, fst entry = archive_name s.

(** The keys the validator has passed when it looks at [key]. *)
Definition keys_before (key : string) : list string :=
  if String.eqb key "datadir" then []
  else if String.eqb key "headers" then ["datadir"]
  else ["datadir"; "headers"].


(** ** More ways to read a run *)

(** The data directory [__get_check_datadir] settles on when the
    configuration gives the text [d], and the archive path
    [__get_check_zipfilename] derives from it. *)
Definition datadir_of (w : env) (d : string) : string :=
  if Path.is_absolute d then d else Path.joinpath (env_script_dir w) d.

Definition archive_path_of (w : env) (d : string) : string :=
  Path.joinpath (datadir_of w d) (env_strftime w "%Y-%m-%d_%H%M%S" ++ ".zip")%string.



(** The seconds slept in a sequence of events. *)
Definition total_sleep (evs : list event) : Z :=
  fold_right (fun e acc => match e with EvSleep n => n + acc | _ => acc end) 0 evs.


Definition is_info_log (e : event) : bool :=
  match e with EvLog INFO _ _ => true | _ => false end.

(** Log records are at debug, info or error level; nothing else is a
    surprise in a run. *)
Definition plain (e : event) : bool :=
  match e with
  | EvLog WARNING _ _ | EvSetupLogging _ _ _ | EvLoadJson _ => false
  | _ => true
  end.


(** Events of the set-up whose log records are below error level. *)
Definition setup_event (e : event) : bool :=
  match e with
  | EvLog DEBUG _ _ | EvLog INFO _ _ | EvFs _ _ | EvClock _ => true
  | _ => false
  end.

(** The numeric value of a logging level. *)
Definition level_no (l : level) : Z :=
  match l with
  | DEBUG => 10
  | INFO => 20
  | WARNING => 30
  | ERROR => 40
  end.

(** The level of the root logger after [__setup_logging] (lines 103-105):
    [basicConfig] sets WARNING, or DEBUG when the [DEBUG] flag of line 67
    is on; [--verbose] then sets INFO. *)
Definition root_level (debug verbose : bool) : level :=
  if verbose then INFO
  else if debug then DEBUG else WARNING.

(** A log record passes the root logger when its level is not below the
    logger's. *)
Definition shown (root : level) (e : event) : bool :=
  match e with
  | EvLog lvl _ _ => level_no root <=? level_no lvl
  | _ => false
  end.

(** The archive cannot be created. *)
Definition world_no_permission : env :=
  {| env_script_dir := "/opt/app";
     env_strftime := fun _ => "2022-10-06_120000";
     env_resolve := fun p => p;
     env_is_dir := fun p => String.eqb p "/opt/app/.";
     env_exists := fun p => String.eqb p "config.json";
     env_load_json := fun _ => Ok (demo_config two_urls);
     env_open_log := fun _ => None;
     env_open_zip := fun _ => Some (OSError "Permission denied");
     env_writestr := disk_ok;
     env_close := fun _ => None;
     env_draw := fun i => 1000 + Z.of_nat i;
     env_get := fun _ _ _ => page "<html>1</html>";
     env_ip_address := fun _ => UrlParse.NotAnAddress |}.



(** An archive entry is the body of an ok response to one of [items],
    stored under the name the archive gives it. *)
Definition sound_entry (w : env) (h : json) (items : list json)
    (entry : string * string) : Prop :=
  exists k s r,
    nth_error items k = Some (JStr s) /\ env_get w k s h = Returns r
    /\ ok r = true /\ entry = (archive_name s, text r).

(** The shape of a URL, piece by piece.  [plain_text] has no tab, line
    feed or carriage return, which [urlsplit] would remove; a host has
    none of the characters that end or bracket a network location; a
    segment has none of those that end a path or its last segment. *)
Definition unsafe_char (c : ascii) : bool :=
  Ascii.eqb c "009" || Ascii.eqb c "010" || Ascii.eqb c "013".

Definition plain_text (s : string) : bool := PyStr.all (fun c => negb (unsafe_char c)) s.

Definition host_text (s : string) : bool :=
  plain_text s
  && PyStr.all (fun c => negb (Cut.host_end c || Ascii.eqb c "[" || Ascii.eqb c "]")) s.

Definition directory_text (s : string) : bool :=
  plain_text s
  && PyStr.all (fun c => negb (Cut.query_or_fragment c)) s
  && match s with String c _ => Ascii.eqb c "/" | EmptyString => true end.

Definition segment_text (s : string) : bool :=
  plain_text s
  && PyStr.all (fun c => negb (Cut.host_end c || Ascii.eqb c ";")) s.

(** Nothing, or parameters with their semicolon. *)
Definition params_text (s : string) : bool :=
  match s with
  | EmptyString => true
  | String c t =>
      Ascii.eqb c ";" && plain_text t && PyStr.all (fun c => negb (Cut.host_end c)) t
  end.

(** Nothing, or a query or fragment with its mark. *)
Definition tail_text (s : string) : bool :=
  match s with
  | EmptyString => true
  | String c _ => Cut.query_or_fragment c
  end.

(** A string that is empty or begins with a character of the set. *)
Definition opens_with (p : ascii -> bool) (b : string) : Prop :=
  match b with
  | EmptyString => True
  | String c _ => p c = true
  end.

(** [http] or [https], in any letter case. *)
Definition web_scheme (s : string) : bool :=
  String.eqb (PyStr.lower s) "http" || String.eqb (PyStr.lower s) "https".

(** * Properties *)

Example entry_name_page : entry_name "https://a.test/page1.html" = "page1.html".
Proof. reflexivity. Qed.
Example entry_name_root_slash : entry_name "https://a.test/" = "index.html".
Proof. reflexivity. Qed.
Example entry_name_root_bare : entry_name "https://a.test" = "index.html".
Proof. reflexivity. Qed.
Example entry_name_query : entry_name "https://h/a/b.html?x=1#f" = "b.html".
Proof. reflexivity. Qed.
Example entry_name_params : entry_name "https://h/a/b.html;v=1" = "b.html".
Proof. reflexivity. Qed.
Example entry_name_percent : entry_name "https://h/a%20b.html" = "a%20b.html".
Proof. reflexivity. Qed.
Example entry_name_noscheme : entry_name "HTTP://h/x/y" = "y".
Proof. reflexivity. Qed.

(** Two pages, both served: two entries, exit status 0. *)
Example scenario_two_pages :
  fst (script demo_args world_two_pages) = 0
  /\ zip (snd (script demo_args world_two_pages))
     = {| zstatus := Closed;
          zentries := [("page1.html", "<html>1</html>");
                       ("index.html", "<html>home</html>")] |}.
Proof. split; reflexivity. Qed.

(** The second page is missing: one entry, the reason logged, exit status 0. *)
Example scenario_second_missing :
  fst (script demo_args world_second_missing) = 0
  /\ zentries (zip (snd (script demo_args world_second_missing)))
     = [("page1.html", "<html>1</html>")]
  /\ filter is_error_log (trace (snd (script demo_args world_second_missing)))
     = [EvLog ERROR "Not Found" []].
Proof. repeat split; reflexivity. Qed.

(** Without [--no-sleep] the run sleeps once before each of the two GETs. *)
Example scenario_sleeping :
  filter (fun e => is_sleep e || is_get e)
    (trace (snd (script demo_args_sleeping world_two_pages)))
  = [EvSleep 448; EvGet (JStr "https://a.test/page1.html") demo_headers;
     EvSleep 449; EvGet (JStr "https://a.test/") demo_headers].
Proof. reflexivity. Qed.

(** ** Facts about the string primitives *)

Section StringFacts.
Import PyStr.
Variable c : ascii.

Lemma take_drop (n : nat) (s : string) : (take n s ++ drop n s)%string = s.
Proof.
  revert s; induction n as [|n IH]; intros [|d t]; simpl; try reflexivity.
  now rewrite IH.
Qed.

Lemma rfind_absent (s : string) : contains c s = false -> rfind c s = -1.
Proof.
  induction s as [|d t IH]; simpl; [reflexivity|].
  intros H; apply orb_false_iff in H as [Hd Ht].
  rewrite (IH Ht), Hd; reflexivity.
Qed.

Lemma rfind_present (s : string) : contains c s = true -> 0 <= rfind c s.
Proof.
  induction s as [|d t IH]; simpl; [discriminate|].
  intros H.
  destruct (0 <=? rfind c t) eqn:E.
  - apply Z.leb_le in E; lia.
  - destruct (Ascii.eqb d c) eqn:Hd; [lia|].
    simpl in H. apply IH in H. apply Z.leb_gt in E. lia.
Qed.

Lemma split_absent (s : string) : contains c s = false -> split c s = [s].
Proof.
  induction s as [|d t IH]; simpl; [reflexivity|].
  intros H; apply orb_false_iff in H as [Hd Ht].
  now rewrite Hd, (IH Ht).
Qed.

Lemma split_present (s : string) :
  contains c s = true -> exists a b l, split c s = a :: b :: l.
Proof.
  induction s as [|d t IH]; simpl; [discriminate|].
  destruct (Ascii.eqb d c) eqn:Hd; simpl; intros H.
  - destruct (contains c t) eqn:Ht.
    + destruct (IH eq_refl) as (a & b & l & ->). now exists EmptyString, a, (b :: l).
    + rewrite (split_absent t Ht). now exists EmptyString, t, [].
  - destruct (IH H) as (a & b & l & ->). now exists (String d a), b, l.
Qed.

Lemma split_pieces_clean (s : string) :
  Forall (fun piece => contains c piece = false) (split c s).
Proof.
  induction s as [|d t IH]; simpl.
  - constructor; [reflexivity | constructor].
  - destruct (Ascii.eqb d c) eqn:Hd.
    + constructor; [reflexivity | exact IH].
    + destruct (split c t) as [|p ps].
      * constructor; [simpl; now rewrite Hd | constructor].
      * inversion IH; subst. constructor; [simpl; now rewrite Hd | assumption].
Qed.

(** The text after the last [c] is the last piece of the split. *)
Lemma from_rfind_last (s : string) :
  from (rfind c s + 1) s = last (split c s) EmptyString.
Proof.
  unfold from.
  induction s as [|d t IH]; [reflexivity|].
  destruct (contains c t) eqn:Ht.
  - pose proof (rfind_present t Ht) as Hk.
    destruct (split_present t Ht) as (a & b & l & Hs).
    cbn [rfind split].
    replace (0 <=? rfind c t) with true by (symmetry; now apply Z.leb_le).
    replace (Z.to_nat (rfind c t + 1 + 1)) with (S (Z.to_nat (rfind c t + 1))) by lia.
    cbn [drop]. rewrite IH, Hs.
    destruct (Ascii.eqb d c); reflexivity.
  - cbn [rfind split].
    rewrite (rfind_absent t Ht), (split_absent t Ht).
    destruct (Ascii.eqb d c); reflexivity.
Qed.

Lemma last_Forall {A} (P : A -> Prop) (l : list A) (d : A) :
  P d -> Forall P l -> P (last l d).
Proof.
  intros Hd H; induction H as [|x l Hx Hl IH]; [exact Hd|].
  destruct l; [exact Hx | exact IH].
Qed.

Lemma contains_app (a b : string) :
  contains c (a ++ b) = contains c a || contains c b.
Proof.
  induction a as [|d t IH]; simpl; [reflexivity|].
  now rewrite IH, orb_assoc.
Qed.

Lemma ends_with_cons (d : ascii) (t : string) :
  (exists q, String d t = (q ++ String c "")%string) <->
  (t = "" /\ d = c) \/ exists q, t = (q ++ String c "")%string.
Proof.
  split.
  - intros [[|e q] H]; simpl in H; injection H as -> ->; [left | right]; eauto.
  - intros [[-> ->] | [q ->]]; [now exists "" | now exists (String d q)].
Qed.

(** The last piece of the split is empty exactly for the empty string
    and for a string that ends in [c]. *)
Lemma last_split_empty (s : string) :
  last (split c s) "" = "" <-> s = "" \/ exists q, s = (q ++ String c "")%string.
Proof.
  induction s as [|d t IH]; [simpl; tauto|].
  rewrite ends_with_cons.
  destruct (contains c t) eqn:Ht.
  - destruct (split_present t Ht) as (a & b & l & Hs).
    assert (last (split c (String d t)) "" = last (split c t) "") as ->.
    { simpl. rewrite Hs. destruct (Ascii.eqb d c); reflexivity. }
    rewrite IH. split.
    + intros [-> | H]; [discriminate Ht | now right; right].
    + intros [H | [[-> _] | H]]; [discriminate H | now left | now right].
  - simpl. rewrite (split_absent t Ht).
    destruct (Ascii.eqb d c) eqn:Hd.
    + apply Ascii.eqb_eq in Hd. subst d. simpl. split.
      * intros ->. now right; left.
      * intros [H | [[-> _] | [q ->]]]; [discriminate H | reflexivity |].
        rewrite contains_app in Ht. simpl in Ht.
        rewrite Ascii.eqb_refl, orb_true_r in Ht. discriminate Ht.
    + simpl. split; [discriminate|].
      intros [H | [[_ ->] | [q ->]]]; [discriminate H | |].
      * rewrite Ascii.eqb_refl in Hd. discriminate Hd.
      * rewrite contains_app in Ht. simpl in Ht.
        rewrite Ascii.eqb_refl, orb_true_r in Ht. discriminate Ht.
Qed.

End StringFacts.

Lemma basename_final_segment (p : string) :
  PosixPath.basename p = final_segment p.
Proof. apply from_rfind_last. Qed.

Lemma final_segment_no_slash (p : string) :
  PyStr.contains "/" (final_segment p) = false.
Proof.
  unfold final_segment, path_segments.
  apply (last_Forall (fun piece => PyStr.contains "/" piece = false));
    [reflexivity | apply split_pieces_clean].
Qed.

Lemma basename_suffix (p : string) :
  exists pre, p = (pre ++ PosixPath.basename p)%string.
Proof.
  unfold PosixPath.basename, PyStr.from.
  eexists. symmetry. apply take_drop.
Qed.

(** ** The path component does not depend on the query and the fragment *)

Section CutFacts.
Import PyStr Cut.

Lemma length_app a b :
  String.length (a ++ b) = (String.length a + String.length b)%nat.
Proof. induction a as [|d t IH]; simpl; [reflexivity | now rewrite IH]. Qed.

Lemma app_assoc_s a b d : ((a ++ b) ++ d)%string = (a ++ (b ++ d))%string.
Proof. induction a as [|e t IH]; simpl; [reflexivity | now rewrite IH]. Qed.

Lemma app_empty_r a : (a ++ "")%string = a.
Proof. induction a as [|e t IH]; simpl; [reflexivity | now rewrite IH]. Qed.

Lemma find_lower_bound c s : -1 <= find c s.
Proof.
  induction s as [|d t IH]; simpl; [lia|].
  destruct (Ascii.eqb d c); [lia|].
  destruct (find c t <? 0); lia.
Qed.

Lemma find_before c s :
  find c s = if contains c s then len (before c s) else -1.
Proof.
  unfold len.
  induction s as [|d t IH]; simpl; [reflexivity|].
  destruct (Ascii.eqb d c); simpl; [reflexivity|].
  rewrite IH. destruct (contains c t); [|reflexivity].
  destruct (Z.ltb_spec (Z.of_nat (String.length (before c t))) 0); lia.
Qed.

Lemma before_after c s :
  contains c s = true -> s = (before c s ++ String c (after c s))%string.
Proof.
  induction s as [|d t IH]; simpl; [discriminate|].
  destruct (Ascii.eqb d c) eqn:E; simpl.
  - apply Ascii.eqb_eq in E. now subst.
  - intros H. now rewrite <- IH.
Qed.

Lemma before_absent c s : contains c s = false -> before c s = s.
Proof.
  induction s as [|d t IH]; simpl; [reflexivity|].
  intros H; apply orb_false_iff in H as [-> Ht]. now rewrite IH.
Qed.

Lemma take_length_app a b : take (String.length a) (a ++ b) = a.
Proof. induction a as [|d t IH]; simpl; [now destruct b | now rewrite IH]. Qed.

Lemma drop_length_app a b : drop (String.length a) (a ++ b) = b.
Proof. induction a as [|d t IH]; simpl; [now destruct b | exact IH]. Qed.

Lemma upto_find c s : contains c s = true -> upto (find c s) s = before c s.
Proof.
  intros H. rewrite find_before, H. unfold upto, len. rewrite Nat2Z.id.
  rewrite (before_after c s H) at 2. apply take_length_app.
Qed.

Lemma from_find c s : contains c s = true -> from (find c s + 1) s = after c s.
Proof.
  intros H. rewrite find_before, H. unfold from, len.
  replace (Z.to_nat (Z.of_nat (String.length (before c s)) + 1))
    with (String.length (before c s ++ String c "")).
  2:{ rewrite length_app. simpl. lia. }
  rewrite (before_after c s H) at 2.
  replace (before c s ++ String c (after c s))%string
    with ((before c s ++ String c "") ++ after c s)%string.
  - apply drop_length_app.
  - now rewrite app_assoc_s.
Qed.

Lemma split_once_eq c s :
  UrlParse.split_once c s = (before c s, if contains c s then after c s else "").
Proof.
  unfold UrlParse.split_once. destruct (contains c s) eqn:H.
  - now rewrite upto_find, from_find.
  - now rewrite before_absent.
Qed.

Lemma split_scheme_eq url :
  UrlParse.split_scheme url =
    if contains ":" url
       && negb (String.eqb (before ":" url) "")
       && match url with String c _ => is_ascii_alpha c | EmptyString => false end
       && all UrlParse.scheme_char (before ":" url)
    then (lower (before ":" url), after ":" url)
    else ("", url).
Proof.
  unfold UrlParse.split_scheme.
  destruct (contains ":" url) eqn:H.
  - rewrite upto_find, from_find by assumption.
    rewrite find_before, H. unfold len.
    destruct (before ":" url) eqn:E; reflexivity.
  - rewrite find_before, H. reflexivity.
Qed.

Lemma pos_or_len_cons c d t :
  pos_or_len c (String d t) = if Ascii.eqb d c then 0 else pos_or_len c t + 1.
Proof.
  unfold pos_or_len, len. cbn [find String.length].
  pose proof (find_lower_bound c t).
  destruct (Ascii.eqb d c); [reflexivity|].
  destruct (Z.ltb_spec (find c t) 0).
  - change (-1 <? 0) with true. cbv iota. lia.
  - destruct (Z.ltb_spec (find c t + 1) 0); lia.
Qed.

Lemma netloc_step c t delim :
  delim <= 2 + len t ->
  (let wdelim := (let k := find c t in if k <? 0 then -1 else 2 + k) in
   if 0 <=? wdelim then Z.min delim wdelim else delim)
  = Z.min delim (2 + pos_or_len c t).
Proof.
  cbv zeta. unfold pos_or_len. intros H.
  pose proof (find_lower_bound c t).
  destruct (Z.ltb_spec (find c t) 0).
  - destruct (Z.leb_spec 0 (-1)); lia.
  - destruct (Z.leb_spec 0 (2 + find c t)); lia.
Qed.

Lemma first_host_end t :
  Z.min (Z.min (Z.min (len t) (pos_or_len "/" t)) (pos_or_len "?" t)) (pos_or_len "#" t)
  = len (before_any host_end t).
Proof.
  induction t as [|d t IH]; [reflexivity|].
  rewrite !pos_or_len_cons. cbn [before_any]. unfold host_end at 1.
  unfold len in *. cbn [String.length].
  destruct (Ascii.eqb d "/"), (Ascii.eqb d "?"), (Ascii.eqb d "#");
    cbn [orb String.length]; lia.
Qed.

(** The delimiter position [_splitnetloc] computes, counted from the
    start of the host. *)
Lemma host_end_position t :
  let step (delim : Z) (c : ascii) :=
    let wdelim := (let k := find c t in if k <? 0 then -1 else 2 + k) in
    if 0 <=? wdelim then Z.min delim wdelim else delim in
  fold_left step ["/"; "?"; "#"]%char (2 + len t) = 2 + len (before_any host_end t).
Proof.
  intros step. cbn [fold_left]. subst step. cbv beta.
  rewrite (netloc_step "/" t) by lia.
  rewrite (netloc_step "?" t) by lia.
  rewrite (netloc_step "#" t) by lia.
  rewrite <- first_host_end. lia.
Qed.

Lemma before_any_from_any p t :
  t = (before_any p t ++ from_any p t)%string.
Proof.
  induction t as [|d t IH]; [reflexivity|]. simpl.
  destruct (p d); [reflexivity|]. simpl. now rewrite <- IH.
Qed.

Lemma splitnetloc_eq a b t :
  UrlParse._splitnetloc (String a (String b t)) 2
  = (before_any host_end t, from_any host_end t).
Proof.
  unfold UrlParse._splitnetloc, find_from.
  change (from 2 (String a (String b t))) with t.
  replace (len (String a (String b t))) with (2 + len t)
    by (unfold len; cbn [String.length]; lia).
  rewrite host_end_position.
  unfold from, upto, len.
  replace (Z.to_nat (2 + Z.of_nat (String.length (before_any host_end t))))
    with (S (S (String.length (before_any host_end t)))) by lia.
  change (Z.to_nat 2) with 2%nat. cbn [take drop].
  rewrite (before_any_from_any host_end t) at 2 4.
  now rewrite take_length_app, drop_length_app.
Qed.

Lemma urlsplit_scheme url :
  UrlParse.scheme (UrlParse.urlsplit url) = fst (UrlParse.split_scheme (sanitize url)).
Proof.
  unfold UrlParse.urlsplit. fold (sanitize url).
  destruct (UrlParse.split_scheme (sanitize url)) as [sch r].
  destruct (if starts_with_2slash r then _ else _) as [loc r2].
  rewrite !split_once_eq. reflexivity.
Qed.

Lemma urlsplit_path url :
  UrlParse.path (UrlParse.urlsplit url)
  = before "?" (before "#" (after_netloc (snd (UrlParse.split_scheme (sanitize url))))).
Proof.
  unfold UrlParse.urlsplit, after_netloc. fold (sanitize url).
  destruct (UrlParse.split_scheme (sanitize url)) as [sch r]. cbn [snd].
  destruct (starts_with_2slash r).
  - destruct (UrlParse._splitnetloc r 2) as [loc r2]. cbn [snd].
    rewrite !split_once_eq. reflexivity.
  - rewrite !split_once_eq. reflexivity.
Qed.

Lemma urlparse_path url :
  UrlParse.path (UrlParse.urlparse url)
  = let r := UrlParse.urlsplit url in
    if existsb (String.eqb (UrlParse.scheme r)) UrlParse.uses_params
       && contains ";" (UrlParse.path r)
    then fst (UrlParse._splitparams (UrlParse.path r))
    else UrlParse.path r.
Proof.
  unfold UrlParse.urlparse. cbv zeta.
  destruct (existsb _ _ && contains ";" _); [|reflexivity].
  now destruct (UrlParse._splitparams _).
Qed.

Lemma headed_inv x :
  headed x -> exists q s, x = String q s /\ (q = "?" \/ q = "#")%char.
Proof.
  destruct x as [|q s]; [contradiction|]. unfold headed, query_or_fragment.
  intros H. exists q, s. split; [reflexivity|].
  apply orb_true_iff in H as [H|H]; apply Ascii.eqb_eq in H; auto.
Qed.

Lemma without_query_fragment_split url :
  url = (without_query_fragment url ++ from_any query_or_fragment url)%string
  /\ clean (without_query_fragment url)
  /\ (from_any query_or_fragment url = "" \/ headed (from_any query_or_fragment url)).
Proof.
  split; [apply before_any_from_any|]. unfold without_query_fragment, clean.
  induction url as [|d t (IH1 & IH2)]; [simpl; auto|]. cbn [before_any from_any].
  destruct (query_or_fragment d) eqn:E; [simpl; auto|].
  split; [|exact IH2]. cbn [contains].
  unfold query_or_fragment in E. apply orb_false_iff in E as [-> ->].
  exact IH1.
Qed.

Section Preserved.
Variable c : ascii.

Lemma contains_lstrip p u : contains c u = false -> contains c (lstrip p u) = false.
Proof.
  induction u as [|d t IH]; simpl; [reflexivity|]. intros H.
  destruct (p d); [|exact H]. apply orb_false_iff in H as [_ H]. auto.
Qed.

Lemma contains_remove d u : contains c u = false -> contains c (remove d u) = false.
Proof.
  induction u as [|e t IH]; simpl; [reflexivity|]. intros H.
  apply orb_false_iff in H as [He Ht].
  destruct (Ascii.eqb e d); simpl; [auto | now rewrite He, IH].
Qed.

Lemma contains_after d u : contains c u = false -> contains c (after d u) = false.
Proof.
  induction u as [|e t IH]; simpl; [reflexivity|]. intros H.
  apply orb_false_iff in H as [He Ht].
  destruct (Ascii.eqb e d); auto.
Qed.

Lemma contains_from_any p u : contains c u = false -> contains c (from_any p u) = false.
Proof.
  induction u as [|e t IH]; simpl; [reflexivity|]. intros H.
  destruct (p e); [exact H|]. apply orb_false_iff in H as [_ H]. auto.
Qed.

Lemma before_app_absent a b :
  contains c a = false -> before c (a ++ b) = (a ++ before c b)%string.
Proof.
  induction a as [|e t IH]; simpl; [reflexivity|]. intros H.
  apply orb_false_iff in H as [-> Ht]. now rewrite IH.
Qed.

Lemma before_app_present a b :
  contains c a = true -> before c (a ++ b) = before c a.
Proof.
  induction a as [|e t IH]; simpl; [discriminate|].
  destruct (Ascii.eqb e c); simpl; [reflexivity|]. intros H. now rewrite IH.
Qed.

Lemma after_app_present a b :
  contains c a = true -> after c (a ++ b) = (after c a ++ b)%string.
Proof.
  induction a as [|e t IH]; simpl; [discriminate|].
  destruct (Ascii.eqb e c); simpl; [reflexivity|]. exact IH.
Qed.

End Preserved.

End CutFacts.

Section QueryFragment.
Import PyStr Cut.

Variables (u x : string).
Hypothesis u_clean : clean u.
Hypothesis x_headed : headed x.

Lemma lstrip_keeps_tail :
  lstrip UrlParse.c0_control_or_space (u ++ x)
  = (lstrip UrlParse.c0_control_or_space u ++ x)%string.
Proof.
  destruct (headed_inv x x_headed) as (q & s & -> & Hq).
  clear u_clean x_headed.
  induction u as [|d t IH]; simpl.
  - destruct Hq; subst q; reflexivity.
  - destruct (UrlParse.c0_control_or_space d); [exact IH | reflexivity].
Qed.

Lemma remove_app d a b : remove d (a ++ b) = (remove d a ++ remove d b)%string.
Proof.
  induction a as [|e t IH]; simpl; [reflexivity|].
  destruct (Ascii.eqb e d); simpl; now rewrite IH.
Qed.

Lemma remove_unsafe_headed : headed (UrlParse.remove_unsafe x).
Proof.
  destruct (headed_inv x x_headed) as (q & s & -> & [-> | ->]); reflexivity.
Qed.

Lemma sanitize_keeps_tail :
  sanitize (u ++ x) = (sanitize u ++ UrlParse.remove_unsafe x)%string.
Proof.
  unfold sanitize. rewrite lstrip_keeps_tail.
  unfold UrlParse.remove_unsafe. now rewrite !remove_app.
Qed.

Lemma sanitize_clean : clean (sanitize u).
Proof.
  destruct u_clean as [H1 H2].
  unfold sanitize, UrlParse.remove_unsafe.
  split; repeat apply contains_remove; now apply contains_lstrip.
Qed.

End QueryFragment.

Section SchemeAndNetloc.
Import PyStr Cut.

Variables (u x : string).
Hypothesis u_clean : clean u.
Hypothesis x_headed : headed x.

Lemma all_app p a b : all p (a ++ b) = all p a && all p b.
Proof.
  induction a as [|e t IH]; simpl; [reflexivity|].
  now rewrite IH, andb_assoc.
Qed.

Lemma split_scheme_keeps_tail :
  UrlParse.split_scheme (u ++ x)
  = (fst (UrlParse.split_scheme u), (snd (UrlParse.split_scheme u) ++ x)%string).
Proof.
  destruct (headed_inv x x_headed) as (q & s & -> & Hq).
  rewrite !split_scheme_eq, contains_app.
  destruct (contains ":" u) eqn:Hc.
  - rewrite before_app_present, after_app_present by assumption.
    assert (match (u ++ String q s)%string with
            | String c _ => is_ascii_alpha c | EmptyString => false end
            = match u with String c _ => is_ascii_alpha c | EmptyString => false end) as ->.
    { destruct u; [discriminate Hc | reflexivity]. }
    cbn [orb]. destruct (_ && _ && _ && _); reflexivity.
  - rewrite before_app_absent by assumption.
    assert (all UrlParse.scheme_char (u ++ before ":" (String q s)) = false) as ->.
    { rewrite all_app. destruct Hq; subst q; cbn; apply andb_false_r. }
    rewrite !andb_false_r. reflexivity.
Qed.

Lemma split_scheme_clean : clean (snd (UrlParse.split_scheme u)).
Proof.
  destruct u_clean as [H1 H2]. rewrite split_scheme_eq.
  destruct (_ && _ && _ && _); cbn [snd]; split; auto using contains_after.
Qed.

Lemma from_any_keeps_tail p t :
  match x with String q _ => p q = true | EmptyString => False end ->
  from_any p (t ++ x) = (from_any p t ++ x)%string.
Proof.
  intros Hp. induction t as [|e t IH]; simpl.
  - destruct x as [|q s]; [contradiction|]. simpl. now rewrite Hp.
  - destruct (p e); [reflexivity | exact IH].
Qed.

Lemma after_netloc_keeps_tail :
  after_netloc (u ++ x) = (after_netloc u ++ x)%string.
Proof.
  destruct (headed_inv x x_headed) as (q & s & Hx & Hq).
  unfold after_netloc.
  destruct u as [|a [|b t]].
  - subst x. destruct Hq; subst q; reflexivity.
  - subst x. cbn [append]. unfold starts_with_2slash. cbn [take].
    destruct Hq; subst q; cbn;
      destruct (Ascii.eqb a "/"); reflexivity.
  - cbn [append]. unfold starts_with_2slash. cbn [take].
    destruct (String.eqb _ _); [|reflexivity].
    rewrite !splitnetloc_eq. cbn [snd].
    apply from_any_keeps_tail. subst x.
    destruct Hq; subst q; reflexivity.
Qed.

Lemma after_netloc_clean : clean (after_netloc u).
Proof.
  destruct u_clean as [H1 H2]. unfold after_netloc.
  destruct (starts_with_2slash u) eqn:E; [|split; assumption].
  revert H1 H2 E. clear u_clean.
  destruct u as [|a [|b t]]; intros H1 H2 E; try discriminate E.
  { unfold starts_with_2slash in E. cbn in E.
    destruct (Ascii.eqb a "/"); discriminate E. }
  rewrite splitnetloc_eq. cbn [snd].
  cbn [contains] in H1, H2.
  apply orb_false_iff in H1 as [_ H1]. apply orb_false_iff in H1 as [_ H1].
  apply orb_false_iff in H2 as [_ H2]. apply orb_false_iff in H2 as [_ H2].
  split; now apply contains_from_any.
Qed.

Lemma path_cut_keeps_head :
  before "?" (before "#" (u ++ x)) = u
  /\ before "?" (before "#" u) = u.
Proof.
  destruct u_clean as [H1 H2].
  destruct (headed_inv x x_headed) as (q & s & -> & Hq).
  split.
  - rewrite before_app_absent by assumption.
    destruct Hq; subst q; cbn [before Ascii.eqb Bool.eqb].
    + rewrite before_app_absent by assumption. cbn. apply app_empty_r.
    + rewrite app_empty_r. now apply before_absent.
  - rewrite (before_absent "#" u H2). now apply before_absent.
Qed.

End SchemeAndNetloc.

Section PathOnly.
Import PyStr Cut.

Lemma urlsplit_ignores_query_fragment (url : string) :
  UrlParse.scheme (UrlParse.urlsplit url)
  = UrlParse.scheme (UrlParse.urlsplit (without_query_fragment url))
  /\ UrlParse.path (UrlParse.urlsplit url)
     = UrlParse.path (UrlParse.urlsplit (without_query_fragment url)).
Proof.
  destruct (without_query_fragment_split url) as (Hsplit & Hclean & Htail).
  set (u := without_query_fragment url) in *.
  set (x := Cut.from_any Cut.query_or_fragment url) in *.
  destruct Htail as [Hnil | Hhead].
  - rewrite Hsplit, Hnil, app_empty_r. split; reflexivity.
  - rewrite !urlsplit_scheme, !urlsplit_path. rewrite Hsplit.
    rewrite (sanitize_keeps_tail u x) by assumption.
    assert (clean (sanitize u)) as Hc1 by now apply sanitize_clean.
    assert (headed (UrlParse.remove_unsafe x)) as Hh1 by now apply remove_unsafe_headed.
    rewrite (split_scheme_keeps_tail (sanitize u) (UrlParse.remove_unsafe x))
      by assumption.
    cbn [fst snd]. split; [reflexivity|].
    assert (clean (snd (UrlParse.split_scheme (sanitize u)))) as Hc2
      by now apply split_scheme_clean.
    rewrite (after_netloc_keeps_tail _ (UrlParse.remove_unsafe x)) by assumption.
    assert (clean (after_netloc (snd (UrlParse.split_scheme (sanitize u))))) as Hc3
      by now apply after_netloc_clean.
    destruct (path_cut_keeps_head _ (UrlParse.remove_unsafe x) Hc3 Hh1) as [-> ->].
    reflexivity.
Qed.

Lemma entry_name_ignores_query_fragment (url : string) :
  entry_name url = entry_name (without_query_fragment url).
Proof.
  unfold entry_name. rewrite !urlparse_path. cbv zeta.
  destruct (urlsplit_ignores_query_fragment url) as [-> ->]. reflexivity.
Qed.

End PathOnly.

Lemma entry_name_no_slash (url : string) :
  PyStr.contains "/" (entry_name url) = false.
Proof.
  unfold entry_name. rewrite basename_final_segment.
  destruct (String.eqb _ _); [reflexivity | apply final_segment_no_slash].
Qed.

(** ** The entry name of a URL, piece by piece *)

Section Shape.
Import PyStr Cut.

Lemma lower_letter (c : ascii) :
  is_lower (lower_char c) = true ->
  UrlParse.scheme_char c = true /\ is_ascii_alpha c = true
  /\ Ascii.eqb c ":" = false /\ unsafe_char c = false
  /\ UrlParse.c0_control_or_space c = false.
Proof.
  destruct c as [[] [] [] [] [] [] [] []]; cbn; intros H; try discriminate H;
    repeat split; reflexivity.
Qed.

Lemma all_impl (f g : ascii -> bool) (s : string) :
  (forall c, f c = true -> g c = true) -> all f s = true -> all g s = true.
Proof.
  intros Hfg. induction s as [|c t IH]; cbn; [reflexivity|]. intros H.
  apply andb_true_iff in H as [Hc Ht]. now rewrite (Hfg c Hc), IH.
Qed.

Lemma all_absent (f : ascii -> bool) (c : ascii) (s : string) :
  f c = false -> all f s = true -> contains c s = false.
Proof.
  intros Hc. induction s as [|d t IH]; cbn; [reflexivity|]. intros H.
  apply andb_true_iff in H as [Hd Ht]. rewrite (IH Ht), orb_false_r.
  destruct (Ascii.eqb_spec d c) as [->|]; [congruence | reflexivity].
Qed.

(** A scheme that is [http] or [https] in some letter case. *)
Lemma web_scheme_facts (s : string) :
  web_scheme s = true ->
  (exists c t, s = String c t /\ is_ascii_alpha c = true
               /\ UrlParse.c0_control_or_space c = false)
  /\ all UrlParse.scheme_char s = true
  /\ contains ":" s = false
  /\ plain_text s = true
  /\ existsb (String.eqb (lower s)) UrlParse.uses_params = true.
Proof.
  intros H.
  assert (forall x, all is_lower (lower x) = true ->
            all UrlParse.scheme_char x = true /\ contains ":" x = false
            /\ plain_text x = true
            /\ match x with
               | String c _ => is_ascii_alpha c = true
                               /\ UrlParse.c0_control_or_space c = false
               | EmptyString => True
               end) as Hletters.
  { induction x as [|c t IH]; cbn; [auto|]. intros Hx.
    apply andb_true_iff in Hx as [Hc Ht].
    destruct (lower_letter c Hc) as (H1 & H2 & H3 & H4 & H5).
    destruct (IH Ht) as (I1 & I2 & I3 & _).
    unfold plain_text in *. cbn. rewrite H1, H3, H4, I1, I2, I3. auto. }
  assert (all is_lower (lower s) = true /\ s <> ""
          /\ existsb (String.eqb (lower s)) UrlParse.uses_params = true)
    as (Hl & Hne & Hu).
  { unfold web_scheme in H. apply orb_true_iff in H as [H|H];
      apply String.eqb_eq in H; rewrite H;
      (split; [reflexivity|]); (split; [|reflexivity]);
      intros ->; discriminate H. }
  destruct (Hletters s Hl) as (H1 & H2 & H3 & H4).
  split; [|auto].
  destruct s as [|c t]; [contradiction|]. exists c, t. tauto.
Qed.

Lemma remove_unsafe_app (a b : string) :
  UrlParse.remove_unsafe (a ++ b)
  = (UrlParse.remove_unsafe a ++ UrlParse.remove_unsafe b)%string.
Proof. unfold UrlParse.remove_unsafe. now rewrite !remove_app. Qed.

Lemma remove_unsafe_plain (s : string) :
  plain_text s = true -> UrlParse.remove_unsafe s = s.
Proof.
  unfold plain_text, UrlParse.remove_unsafe, unsafe_char.
  induction s as [|c t IH]; cbn; [reflexivity|]. intros H.
  apply andb_true_iff in H as [Hc Ht].
  apply negb_true_iff, orb_false_iff in Hc as [Hc H13].
  apply orb_false_iff in Hc as [H9 H10].
  rewrite H9. cbn. rewrite H13. cbn. rewrite H10. now rewrite IH.
Qed.

Lemma after_app_absent (c : ascii) (a b : string) :
  contains c a = false -> after c (a ++ b) = after c b.
Proof.
  induction a as [|e t IH]; cbn; [reflexivity|]. intros H.
  apply orb_false_iff in H as [-> Ht]. now apply IH.
Qed.

Lemma cut_at (p : ascii -> bool) (a b : string) :
  all (fun c => negb (p c)) a = true -> opens_with p b ->
  before_any p (a ++ b) = a /\ from_any p (a ++ b) = b.
Proof.
  intros Ha Hb. induction a as [|c t IH]; cbn.
  - destruct b as [|d b]; [auto|]. cbn in Hb. cbn. now rewrite Hb.
  - cbn in Ha. apply andb_true_iff in Ha as [Hc Ht].
    apply negb_true_iff in Hc. rewrite Hc.
    destruct (IH Ht) as [-> ->]. auto.
Qed.

Lemma rfind_app_last (c : ascii) (a b : string) :
  contains c b = false -> rfind c (a ++ String c b) = len a.
Proof.
  intros Hb. unfold len. induction a as [|d t IH].
  - cbn. rewrite (rfind_absent c b Hb), Ascii.eqb_refl. reflexivity.
  - cbn [append rfind String.length]. rewrite IH.
    destruct (Z.leb_spec 0 (Z.of_nat (String.length t))); lia.
Qed.

Lemma find_app_first (c : ascii) (a b : string) :
  contains c a = false -> find c (a ++ String c b) = len a.
Proof.
  intros Ha. rewrite find_before, contains_app. cbn [contains].
  rewrite Ascii.eqb_refl, orb_true_r.
  rewrite before_app_absent by assumption. cbn [before].
  rewrite Ascii.eqb_refl, app_empty_r. reflexivity.
Qed.

Lemma find_absent (c : ascii) (s : string) : contains c s = false -> find c s = -1.
Proof. intros H. now rewrite find_before, H. Qed.

Lemma upto_len_app (a b : string) : upto (len a) (a ++ b) = a.
Proof. unfold upto, len. rewrite Nat2Z.id. apply take_length_app. Qed.

Lemma from_len_app (a b : string) : from (len a) (a ++ b) = b.
Proof. unfold from, len. rewrite Nat2Z.id. apply drop_length_app. Qed.

Lemma urlsplit_netloc (url : string) :
  UrlParse.netloc (UrlParse.urlsplit url)
  = let r := snd (UrlParse.split_scheme (sanitize url)) in
    if starts_with_2slash r then fst (UrlParse._splitnetloc r 2) else "".
Proof.
  unfold UrlParse.urlsplit. fold (sanitize url). cbv zeta.
  destruct (UrlParse.split_scheme (sanitize url)) as [sch r]. cbn [snd].
  destruct (starts_with_2slash r).
  - destruct (UrlParse._splitnetloc r 2) as [loc r2]. cbn [fst].
    rewrite !split_once_eq. reflexivity.
  - rewrite !split_once_eq. reflexivity.
Qed.

Lemma tail_cases (x : string) :
  tail_text x = true -> x = "" \/ headed x.
Proof. destruct x as [|c t]; [auto|]. cbn. auto. Qed.

Lemma tail_unsafe (x : string) :
  tail_text x = true -> tail_text (UrlParse.remove_unsafe x) = true.
Proof.
  intros H. destruct (tail_cases x H) as [->|Hh]; [reflexivity|].
  destruct (headed_inv x Hh) as (q & s & -> & [-> | ->]); reflexivity.
Qed.

Lemma path_cut (u x : string) :
  clean u -> tail_text x = true -> before "?" (before "#" (u ++ x)) = u.
Proof.
  intros Hu Hx. destruct (tail_cases x Hx) as [->|Hh].
  - rewrite app_empty_r. now destruct (path_cut_keeps_head u "?" Hu eq_refl) as [_ ->].
  - now destruct (path_cut_keeps_head u x Hu Hh) as [-> _].
Qed.


(** The scheme and what follows it. *)
Lemma split_scheme_web (sch rest : string) :
  web_scheme sch = true ->
  sanitize (sch ++ String ":" rest) = (sch ++ String ":" (UrlParse.remove_unsafe rest))%string
  /\ UrlParse.split_scheme (sch ++ String ":" (UrlParse.remove_unsafe rest))
     = (lower sch, UrlParse.remove_unsafe rest).
Proof.
  intros Hs.
  destruct (web_scheme_facts sch Hs) as ((c & t & -> & Ha & H0) & Hall & Hcolon & Hplain & _).
  split.
  - unfold sanitize. cbn [append lstrip]. rewrite H0.
    change (String c (t ++ String ":" rest)) with (String c t ++ String ":" rest)%string.
    rewrite remove_unsafe_app, (remove_unsafe_plain _ Hplain).
    reflexivity.
  - rewrite split_scheme_eq, contains_app. cbn [contains].
    rewrite Ascii.eqb_refl, orb_true_r.
    rewrite before_app_absent by assumption. cbn [before].
    rewrite Ascii.eqb_refl, app_empty_r.
    rewrite after_app_absent by assumption. cbn [after]. rewrite Ascii.eqb_refl.
    cbn [append String.eqb negb andb]. 
    replace (String.eqb (String c t) "") with false by reflexivity.
    cbn [negb andb]. rewrite Ha, Hall. reflexivity.
Qed.


(** The components of a URL that is put together from a scheme, a host,
    a path and a tail. *)
Lemma url_parts (sch host p tail : string) :
  web_scheme sch = true -> host_text host = true ->
  plain_text p = true -> clean p -> opens_with host_end p ->
  tail_text tail = true ->
  let r := UrlParse.urlsplit (sch ++ "://" ++ host ++ p ++ tail) in
  UrlParse.scheme r = lower sch /\ UrlParse.netloc r = host /\ UrlParse.path r = p.
Proof.
  intros Hs Hh Hp Hc Ho Ht r. subst r.
  rewrite urlsplit_scheme, urlsplit_netloc, urlsplit_path. cbv zeta.
  change (sch ++ "://" ++ host ++ p ++ tail)%string
    with (sch ++ String ":" ("//" ++ host ++ p ++ tail))%string.
  destruct (split_scheme_web sch ("//" ++ host ++ p ++ tail) Hs) as [-> ->].
  cbn [fst snd].
  unfold host_text in Hh. apply andb_true_iff in Hh as [Hh1 Hh2].
  assert (UrlParse.remove_unsafe ("//" ++ host ++ p ++ tail)
          = String "/" (String "/" (host ++ p ++ UrlParse.remove_unsafe tail))) as ->.
  { change ("//" ++ host ++ p ++ tail)%string
      with (String "/" (String "/" (host ++ p ++ tail))).
    change (String "/" (String "/" (host ++ p ++ tail)))
      with ("//" ++ (host ++ p ++ tail))%string.
    rewrite !remove_unsafe_app, (remove_unsafe_plain host Hh1), (remove_unsafe_plain p Hp).
    reflexivity. }
  unfold after_netloc.
  replace (starts_with_2slash
             (String "/" (String "/" (host ++ p ++ UrlParse.remove_unsafe tail))))
    with true by reflexivity.
  rewrite splitnetloc_eq. cbn [fst snd].
  destruct (cut_at host_end host (p ++ UrlParse.remove_unsafe tail)) as [-> ->].
  { revert Hh2. apply all_impl. intros c Hc'. apply negb_true_iff in Hc'.
    apply orb_false_iff in Hc' as [Hc' _]. apply orb_false_iff in Hc' as [Hc' _].
    now rewrite Hc'. }
  { destruct p as [|c t]; [|exact Ho]. cbn [append].
    pose proof (tail_unsafe tail Ht) as Ht'.
    destruct (UrlParse.remove_unsafe tail) as [|q s]; [exact I|].
    cbn in Ht'. cbn. unfold host_end. unfold query_or_fragment in Ht'.
    apply orb_true_iff in Ht' as [->| ->]; destruct (Ascii.eqb q "/"); cbn;
      rewrite ?orb_true_r; reflexivity. }
  split; [reflexivity|]. split; [reflexivity|].
  apply path_cut; [assumption | now apply tail_unsafe].
Qed.

Lemma host_text_passes (ip : string -> UrlParse.ip_address) (host : string) :
  host_text host = true -> UrlParse.netloc_error ip host = None.
Proof.
  unfold host_text. intros H. apply andb_true_iff in H as [_ H].
  assert (contains "[" host = false) as H1 by (revert H; now apply all_absent).
  assert (contains "]" host = false) as H2 by (revert H; now apply all_absent).
  unfold UrlParse.netloc_error. rewrite H1, H2. reflexivity.
Qed.


Lemma len_app (a b : string) : len (a ++ b) = len a + len b.
Proof. unfold len. rewrite length_app. lia. Qed.

Lemma len_nonneg (a : string) : 0 <= len a.
Proof. unfold len. lia. Qed.

Lemma segment_facts (name : string) :
  segment_text name = true ->
  plain_text name = true /\ contains "/" name = false /\ contains "?" name = false
  /\ contains "#" name = false /\ contains ";" name = false.
Proof.
  unfold segment_text. intros H. apply andb_true_iff in H as [H1 H2].
  split; [assumption|].
  repeat split; revert H2; now apply all_absent.
Qed.

Lemma params_facts (params : string) :
  params_text params = true ->
  plain_text params = true /\ contains "/" params = false
  /\ contains "?" params = false /\ contains "#" params = false
  /\ (params = "" \/ exists t, params = String ";" t).
Proof.
  destruct params as [|c t]; [cbn; auto 6|]. cbn [params_text]. intros H.
  apply andb_true_iff in H as [H H2]. apply andb_true_iff in H as [Hc H1].
  apply Ascii.eqb_eq in Hc. subst c.
  assert (forall d, host_end d = true -> contains d t = false) as Hno.
  { intros d Hd. revert H2. apply all_absent. now rewrite Hd. }
  unfold plain_text in *. cbn. rewrite H1, !Hno by reflexivity.
  repeat split; eauto.
Qed.

Lemma directory_facts (dir : string) :
  directory_text dir = true ->
  plain_text dir = true /\ contains "?" dir = false /\ contains "#" dir = false
  /\ (dir = "" \/ exists t, dir = String "/" t).
Proof.
  unfold directory_text. intros H.
  apply andb_true_iff in H as [H H3]. apply andb_true_iff in H as [H1 H2].
  split; [assumption|].
  split; [revert H2; now apply all_absent|].
  split; [revert H2; now apply all_absent|].
  destruct dir as [|c t]; [now left|]. apply Ascii.eqb_eq in H3. subst c. eauto.
Qed.

(** The path [dir/name] with parameters after it: what [urlparse] keeps
    of it, and its basename. *)
Lemma last_segment (dir name params : string) :
  directory_text dir = true -> segment_text name = true -> params_text params = true ->
  let p := (dir ++ "/" ++ name ++ params)%string in
  plain_text p = true /\ clean p /\ opens_with host_end p
  /\ (if contains ";" p then fst (UrlParse._splitparams p) else p)
     = (dir ++ "/" ++ name)%string
  /\ PosixPath.basename (dir ++ "/" ++ name) = name.
Proof.
  intros Hd Hn Hp p.
  destruct (directory_facts dir Hd) as (D1 & D2 & D3 & D4).
  destruct (segment_facts name Hn) as (N1 & N2 & N3 & N4 & N5).
  destruct (params_facts params Hp) as (P1 & P2 & P3 & P4 & P5).
  assert (contains "/" (name ++ params) = false) as Hslash
      by (rewrite contains_app, N2, P2; reflexivity).
  split; [|split; [|split; [|split]]].
  - subst p. unfold plain_text in *. rewrite !all_app, D1, N1, P1. reflexivity.
  - subst p. split; rewrite !contains_app; cbn [contains];
      rewrite ?D2, ?D3, ?N3, ?N4, ?P3, ?P4; reflexivity.
  - subst p. destruct D4 as [-> | (t & ->)]; reflexivity.
  - assert (UrlParse._splitparams p
            = if find_from ";" p (len dir) <? 0 then (p, "")
              else (upto (find_from ";" p (len dir)) p,
                    from (find_from ";" p (len dir) + 1) p)) as Hsp.
    { unfold UrlParse._splitparams. subst p.
      change (dir ++ "/" ++ name ++ params)%string
        with (dir ++ String "/" (name ++ params))%string.
      rewrite contains_app. cbn [contains]. rewrite Ascii.eqb_refl, orb_true_r.
      rewrite (rfind_app_last "/" dir (name ++ params) Hslash). reflexivity. }
    assert (find_from ";" p (len dir)
            = if contains ";" (name ++ params)
              then len dir + (len (before ";" (name ++ params)) + 1) else -1) as Hf.
    { unfold find_from. subst p.
      change (dir ++ "/" ++ name ++ params)%string
        with (dir ++ String "/" (name ++ params))%string.
      rewrite from_len_app. cbn [find]. replace (Ascii.eqb "/" ";") with false by reflexivity.
      rewrite find_before.
      destruct (contains ";" (name ++ params)); [|reflexivity].
      pose proof (len_nonneg (before ";" (name ++ params))).
      destruct (Z.ltb_spec (len (before ";" (name ++ params))) 0); [lia|].
      destruct (Z.ltb_spec (len (before ";" (name ++ params)) + 1) 0); [lia|].
      reflexivity. }
    rewrite Hsp, Hf. clear Hsp Hf.
    destruct P5 as [-> | (t & ->)].
    + rewrite app_empty_r in *. rewrite N5.
      change (-1 <? 0) with true. cbn [fst]. subst p. rewrite app_empty_r.
      destruct (contains ";" (dir ++ "/" ++ name)); reflexivity.
    + rewrite contains_app. cbn [contains]. rewrite Ascii.eqb_refl, orb_true_r.
      rewrite before_app_absent by assumption. cbn [before].
      rewrite Ascii.eqb_refl, app_empty_r.
      pose proof (len_nonneg dir). pose proof (len_nonneg name).
      destruct (Z.ltb_spec (len dir + (len name + 1)) 0); [lia|]. cbn [fst].
      assert (contains ";" p = true) as ->.
      { subst p. rewrite !contains_app. cbn [contains].
        rewrite Ascii.eqb_refl, !orb_true_r. reflexivity. }
      subst p.
      replace (dir ++ "/" ++ name ++ String ";" t)%string
        with ((dir ++ "/" ++ name) ++ String ";" t)%string
        by (rewrite !app_assoc_s; reflexivity).
      replace (len dir + (len name + 1)) with (len (dir ++ "/" ++ name))
        by (rewrite !len_app; unfold len; cbn [String.length]; lia).
      apply upto_len_app.
  - unfold PosixPath.basename.
    change (dir ++ "/" ++ name)%string with (dir ++ String "/" name)%string.
    rewrite (rfind_app_last "/" dir name N2).
    replace (dir ++ String "/" name)%string with ((dir ++ "/") ++ name)%string
      by (rewrite app_assoc_s; reflexivity).
    replace (len dir + 1) with (len (dir ++ "/"))
      by (rewrite len_app; unfold len; cbn [String.length]; lia).
    apply from_len_app.
Qed.


(** The entry name of a URL put together from its pieces. *)
Lemma namer_of_parts (ip : string -> UrlParse.ip_address)
    (sch host p tail name : string) :
  web_scheme sch = true -> host_text host = true ->
  plain_text p = true -> clean p -> opens_with host_end p ->
  tail_text tail = true ->
  PosixPath.basename
    (if contains ";" p then fst (UrlParse._splitparams p) else p) = name ->
  entry_namer ip (sch ++ "://" ++ host ++ p ++ tail)
  = Ok (if String.eqb name "" then "index.html" else name).
Proof.
  intros Hs Hh Hp Hc Ho Ht Hname.
  destruct (url_parts sch host p tail Hs Hh Hp Hc Ho Ht) as (Hsch & Hloc & Hpath).
  destruct (web_scheme_facts sch Hs) as (_ & _ & _ & _ & Huses).
  unfold entry_namer, UrlParse.urlsplit_error. rewrite Hloc, (host_text_passes ip host Hh).
  unfold entry_name. rewrite urlparse_path. cbv zeta. rewrite Hsch, Hpath, Huses.
  cbn [andb]. rewrite Hname. reflexivity.
Qed.

Lemma namer_segment (ip : string -> UrlParse.ip_address)
    (sch host dir name params tail : string) :
  web_scheme sch = true -> host_text host = true -> directory_text dir = true ->
  segment_text name = true -> params_text params = true -> tail_text tail = true ->
  entry_namer ip (sch ++ "://" ++ host ++ dir ++ "/" ++ name ++ params ++ tail)
  = Ok (if String.eqb name "" then "index.html" else name).
Proof.
  intros Hs Hh Hd Hn Hp Ht.
  destruct (last_segment dir name params Hd Hn Hp) as (H1 & H2 & H3 & H4 & H5).
  cbv zeta in *.
  replace (sch ++ "://" ++ host ++ dir ++ "/" ++ name ++ params ++ tail)%string
    with (sch ++ "://" ++ host ++ (dir ++ "/" ++ name ++ params) ++ tail)%string
    by (rewrite !app_assoc_s; reflexivity).
  apply namer_of_parts; try assumption. rewrite H4. exact H5.
Qed.

Lemma namer_bare_host (ip : string -> UrlParse.ip_address) (sch host tail : string) :
  web_scheme sch = true -> host_text host = true -> tail_text tail = true ->
  entry_namer ip (sch ++ "://" ++ host ++ tail) = Ok "index.html".
Proof.
  intros Hs Hh Ht.
  apply (namer_of_parts ip sch host "" tail ""); try assumption; try reflexivity.
  split; reflexivity.
Qed.

End Shape.

(** C6, as the code has it: the entry namer returns a name for the URLs
    that [urlparse] accepts, and raises the [ValueError] of [urlparse]
    for the others (a URL whose network location has an unbalanced or
    ill-formed bracket, such as [http://user[@a.test/x]).  When it
    returns, the name is [index.html] if the path component has an empty
    final segment (the path is empty or ends in a slash), and otherwise
    the final segment of the path, copied as it stands (a suffix of the
    path, no percent-decoding).  For a URL put together from [http] or
    [https], a host, a path [dir/name], parameters and a query or
    fragment, the name is [name], or [index.html] when [name] is empty;
    for such a URL without any path it is [index.html]. *)
Theorem entry_name_is_final_segment (ip : string -> UrlParse.ip_address) :
  (forall url name,
      entry_namer ip url = Ok name ->
      let p := UrlParse.path (UrlParse.urlparse url) in
      name = (if String.eqb (final_segment p) "" then "index.html" else final_segment p)
      /\ (final_segment p = "" <-> p = "" \/ exists q, p = (q ++ "/")%string)
      /\ (final_segment p <> "" -> exists pre, p = (pre ++ name)%string))
  /\ (forall url e, UrlParse.urlsplit_error ip url = Some e -> entry_namer ip url = Raise e)
  /\ (forall url, UrlParse.urlsplit_error ip url = None ->
        exists name, entry_namer ip url = Ok name)
  /\ (forall sch host dir name params tail,
        web_scheme sch = true -> host_text host = true -> directory_text dir = true ->
        segment_text name = true -> params_text params = true -> tail_text tail = true ->
        entry_namer ip (sch ++ "://" ++ host ++ dir ++ "/" ++ name ++ params ++ tail)
        = Ok (if String.eqb name "" then "index.html" else name))
  /\ (forall sch host tail,
        web_scheme sch = true -> host_text host = true -> tail_text tail = true ->
        entry_namer ip (sch ++ "://" ++ host ++ tail) = Ok "index.html")
  /\ entry_namer ip "https://host/" = Ok "index.html"
  /\ entry_namer ip "https://host" = Ok "index.html"
  /\ entry_namer ip "https://host/a%20b/c%2Fd.html" = Ok "c%2Fd.html"
  /\ entry_namer ip "http://user[@a.test/x" = Raise (ValueError "Invalid IPv6 URL").
Proof.
  split; [|split; [|split; [|split; [|split; [|repeat split; reflexivity]]]]].
  - intros url name Hname p. unfold entry_namer in Hname.
    destruct (UrlParse.urlsplit_error ip url); [discriminate Hname|].
    injection Hname as <-. unfold entry_name. fold p.
    rewrite basename_final_segment.
    split; [reflexivity|]. split.
    + apply last_split_empty.
    + intros H. destruct (String.eqb (final_segment p) "") eqn:E.
      * apply String.eqb_eq in E. contradiction.
      * rewrite <- basename_final_segment. apply basename_suffix.
  - intros url e H. unfold entry_namer. now rewrite H.
  - intros url H. unfold entry_namer. rewrite H. eauto.
  - apply namer_segment.
  - apply namer_bare_host.
Qed.

(** C6 fails as stated: the path component of this URL is [/x], whose
    final segment is [x], and the server answers the URL; yet the entry
    namer returns no name for it, it raises, and so does the run. *)
Lemma entry_name_is_final_segment_counterexample :
  final_segment (UrlParse.path (UrlParse.urlparse bracket_url)) = "x"
  /\ env_get world_bracket 0 bracket_url demo_headers = page "<html>1</html>"
  /\ entry_namer (env_ip_address world_bracket) bracket_url
     = Raise (ValueError "Invalid IPv6 URL")
  /\ fst (run (demo_config [bracket_url; "https://a.test/"]) true world_bracket init)
     = Raise (ValueError "Invalid IPv6 URL")
  /\ zentries (zip (snd (run (demo_config [bracket_url; "https://a.test/"]) true
                           world_bracket init))) = [].
Proof. repeat split; reflexivity. Qed.

(** ** Reading the model: set-up, one iteration, the whole loop *)

Ltac unfold_monad :=
  unfold requests_get, randint, sleep, log, assert, extend,
    ZipFile.writestr, ZipFile.open, ZipFile.close, ZipFile.get_zip, ZipFile.set_zip,
    Path.resolve, Path.is_dir, Path.exists_, Path.of_value in *;
  unfold bind, ret, raise, lift, ask, emit in *.

Ltac tidy_trace :=
  cbv beta iota zeta;
  cbn [trace zip zstatus zentries fst snd app];
  rewrite <- ?app_assoc; cbn [app].

Lemma run_eq (config : json) (no_sleep : bool) (w : env) (st : state) :
  run config no_sleep w st =
    match setup config w st with
    | (Ok (zipfilename, urls), st1) => fetch_archive config no_sleep zipfilename urls w st1
    | (Raise e, st1) => (Raise e, st1)
    end.
Proof.
  unfold run, setup, fetch_archive, bind.
  destruct (__check_config config w st) as [[[]|e] st0]; [|reflexivity].
  destruct (__get_check_datadir config w st0) as [[datadir|e] st1]; [|reflexivity].
  destruct (__get_check_zipfilename datadir w st1) as [[zf|e] st2]; [|reflexivity].
  destruct (lift (Py.getitem config "urls") w st2) as [[urls|e] st3]; [|reflexivity].
  destruct (lift (Py.len urls) w st3) as [[n|e] st4]; [|reflexivity].
  destruct (log INFO "#URLs: %d" [LInt n] w st4) as [[[]|e] st5]; reflexivity.
Qed.

Lemma main_eq (a : arguments) (w : env) (st : state) :
  main a w st =
    match load_config a w st with
    | (Ok config, st0) => run config (arg_nosleep a) w st0
    | (Raise e, st0) => (Raise e, st0)
    end.
Proof.
  unfold main, load_config, bind.
  repeat match goal with
         | |- context [match ?c w ?s with _ => _ end] =>
             lazymatch c with
             | run _ _ => fail
             | _ => destruct (c w s) as [[?|?] ?]
             end
         end; reflexivity.
Qed.

(** One iteration of the loop, case by case. *)
Lemma fetch_one_eq (config : json) (no_sleep : bool) (i : nat) (url : json)
    (w : env) (st : state) :
  fetch_one config no_sleep i url w st =
    match Py.getitem config "headers" with
    | Raise e =>
        (Raise e, extend st (pacing_events no_sleep w i
                             ++ [EvLog INFO "HTTP GET '%s' ..." [LVal url]]))
    | Ok h =>
        let req := request_events no_sleep w i url h in
        match url with
        | JStr s =>
            match env_get w i s h with
            | Raises e => (Raise e, extend st req)
            | Returns r =>
                if ok r then
                  match UrlParse.urlsplit_error (env_ip_address w) s with
                  | Some e => (Raise e, extend st (req ++ [status_event r]))
                  | None =>
                      let evs := (req ++ write_events s r)%list in
                      if String.eqb (archive_name s) ""
                      then (Raise (IndexError "string index out of range"), extend st evs)
                      else
                        match zstatus (zip st) with
                        | Opened =>
                            let evs' :=
                              (evs ++ duplicate_warning
                                        (ZipFile.namelist (zentries (zip st)))
                                        (archive_name s))%list in
                            match env_writestr w i (entry_name s) (text r) with
                            | Some e => (Raise e, extend st evs')
                            | None =>
                                (Ok tt,
                                 {| trace := trace st ++ evs';
                                    zip := {| zstatus := Opened;
                                              zentries := zentries (zip st)
                                                          ++ [(archive_name s, text r)] |} |})
                            end
                        | _ =>
                            (Raise (ValueError "Attempt to write to ZIP archive that was already closed"),
                             extend st evs)
                        end
                  end
                else (Ok tt, extend st (req ++ skip_events r))
            end
        | _ => (Raise (RequestException "MissingSchema"), extend st req)
        end
    end.
Proof.
  unfold fetch_one, urlparse, request_events, pacing_events, write_events, skip_events,
    status_event, duplicate_warning, archive_name, entry_name.
  unfold_monad.
  destruct no_sleep; cbn [negb];
    (destruct (Py.getitem config "headers") as [h|e]; [|tidy_trace; reflexivity]);
    (destruct url; tidy_trace; try reflexivity);
    tidy_trace;
    (destruct (env_get w i s h) as [r|e]; [|tidy_trace; reflexivity]);
    (destruct (ok r); [|tidy_trace; reflexivity]);
    tidy_trace;
    (destruct (UrlParse.urlsplit_error (env_ip_address w) s); [tidy_trace; reflexivity|]);
    tidy_trace;
    (destruct (String.eqb (ZipFile.arcname _) ""); [tidy_trace; reflexivity|]);
    tidy_trace;
    (destruct (zstatus (zip st)); tidy_trace; try reflexivity);
    (destruct (existsb _ _); tidy_trace);
    (destruct (env_writestr w i _ (text r)); tidy_trace; reflexivity).
Qed.

(** ** The loop while nothing fails *)

Lemma loop_body_eq (config : json) (no_sleep : bool) (urls : json) (items : list json) :
  Py.iter urls = Ok items ->
  (items0 <- lift (Py.iter urls) ;; for_urls config no_sleep 0 items0)
  = for_urls config no_sleep 0 items.
Proof. intros ->. reflexivity. Qed.

Lemma pacing_events_loop (no_sleep : bool) (w : env) (i : nat) :
  forallb loop_event (pacing_events no_sleep w i) = true
  /\ filter is_warning (pacing_events no_sleep w i) = [].
Proof. destruct no_sleep; split; reflexivity. Qed.

Lemma duplicate_warning_loop (names : list string) (name : string) :
  forallb loop_event (duplicate_warning names name) = true
  /\ filter is_warning (duplicate_warning names name) = duplicate_warning names name.
Proof. unfold duplicate_warning. destruct (existsb _ _); split; reflexivity. Qed.

Section Loop.
Variables (config : json) (no_sleep : bool) (w : env) (h : json).
Hypothesis headers : Py.getitem config "headers" = Ok h.

(** While every GET returns, every ok response has a name for its entry
    and every write succeeds, the loop goes from URL to URL and appends
    the expected entries; it warns of each name it writes again. *)
Lemma for_urls_prefix (pre : list string) :
  forall (i : nat) (st : state),
    zstatus (zip st) = Opened ->
    all_respond w h i pre = true ->
    names_ok w h i pre = true ->
    writes_succeed w h i pre = true ->
    exists evs,
      forallb loop_event evs = true
      /\ filter is_warning evs
         = duplicates (ZipFile.namelist (zentries (zip st))) (expected_entries w h i pre)
      /\ forall rest,
           for_urls config no_sleep i (map JStr pre ++ rest) w st =
           for_urls config no_sleep (i + List.length pre) rest w
             {| trace := trace st ++ evs;
                zip := {| zstatus := Opened;
                          zentries := zentries (zip st) ++ expected_entries w h i pre |} |}.
Proof.
  induction pre as [|p pre IH]; intros i st Hopen Hresp Hname Hwr.
  - exists []. split; [reflexivity|]. split; [reflexivity|]. intros rest.
    cbn [map app List.length expected_entries]. rewrite Nat.add_0_r, !app_nil_r.
    destruct st as [tr [zs ze]]. cbn in Hopen. subst zs. reflexivity.
  - cbn [all_respond names_ok writes_succeed expected_entries List.length] in *.
    replace (i + S (List.length pre))%nat with (S i + List.length pre)%nat by lia.
    destruct (pacing_events_loop no_sleep w i) as [Hp1 Hp2].
    destruct (env_get w i p h) as [r|e'] eqn:Hget; [|discriminate Hresp].
    cbn [andb] in Hresp.
    destruct (ok r) eqn:Hok.
    + apply andb_true_iff in Hname as [Hnamed Hname].
      unfold named, parses in Hnamed. apply andb_true_iff in Hnamed as [Hparse Hnonempty].
      destruct (UrlParse.urlsplit_error (env_ip_address w) p) eqn:Herr;
        [discriminate Hparse|].
      apply negb_true_iff in Hnonempty.
      destruct (env_writestr w i (entry_name p) (text r)) eqn:Hw; [discriminate Hwr|].
      cbn [andb] in Hwr.
      destruct (duplicate_warning_loop (ZipFile.namelist (zentries (zip st)))
                  (archive_name p)) as [Hd1 Hd2].
      destruct (IH (S i)
                  {| trace := trace st ++ (request_events no_sleep w i (JStr p) h
                                           ++ write_events p r)
                              ++ duplicate_warning (ZipFile.namelist (zentries (zip st)))
                                   (archive_name p);
                     zip := {| zstatus := Opened;
                               zentries := zentries (zip st) ++ [(archive_name p, text r)] |} |})
        as (evs & Hl & Hw2 & Hrest); [reflexivity | exact Hresp | exact Hname | exact Hwr |].
      cbn [trace zip zentries zstatus] in Hw2, Hrest.
      exists ((request_events no_sleep w i (JStr p) h ++ write_events p r)
              ++ duplicate_warning (ZipFile.namelist (zentries (zip st))) (archive_name p)
              ++ evs).
      split; [|split].
      * unfold request_events. rewrite !forallb_app, Hp1, Hd1, Hl. reflexivity.
      * unfold request_events. rewrite !filter_app, Hp2, Hd2, Hw2.
        cbn [filter is_warning write_events status_event app duplicates].
        unfold ZipFile.namelist. rewrite map_app. reflexivity.
      * intros rest. cbn [map app for_urls]. unfold bind.
        rewrite fetch_one_eq, headers. cbv zeta. rewrite Hget, Hok, Herr, Hnonempty, Hopen, Hw.
        rewrite Hrest. rewrite <- !app_assoc. reflexivity.
    + cbn [andb] in Hname, Hwr.
      destruct (IH (S i)
                  (extend st (request_events no_sleep w i (JStr p) h ++ skip_events r)))
        as (evs & Hl & Hw2 & Hrest); [exact Hopen | exact Hresp | exact Hname | exact Hwr |].
      cbn [extend trace zip zentries zstatus] in Hw2, Hrest.
      exists ((request_events no_sleep w i (JStr p) h ++ skip_events r) ++ evs).
      split; [|split].
      * unfold request_events. rewrite !forallb_app, Hp1, Hl. reflexivity.
      * unfold request_events. rewrite !filter_app, Hp2, Hw2. reflexivity.
      * intros rest. cbn [map app for_urls]. unfold bind.
        rewrite fetch_one_eq, headers. cbv zeta. rewrite Hget, Hok.
        rewrite Hrest. cbn [app]. rewrite <- !app_assoc. reflexivity.
Qed.

End Loop.

(** The archive block: open, run the body, close whatever the body did. *)
Lemma with_eq {A} (zf : string) (body : M A) (w : env) (st : state) :
  env_open_zip w zf = None ->
  ZipFile.with_ zf body w st =
    let (r, st') := body w {| trace := trace st ++ [EvOpen zf];
                              zip := {| zstatus := Opened; zentries := [] |} |} in
    (close_result w (zentries (zip st')) r,
     {| trace := trace st' ++ [EvClose];
        zip := closed_archive w (zentries (zip st')) |}).
Proof.
  intros Hopen. unfold ZipFile.with_, close_result, closed_archive.
  unfold_monad. tidy_trace.
  rewrite Hopen. tidy_trace.
  destruct (body w _) as [r st']. tidy_trace.
  destruct (env_close w (zentries (zip st'))); reflexivity.
Qed.

Lemma with_open_fails {A} (zf : string) (body : M A) (w : env) (st : state) (e : exn) :
  env_open_zip w zf = Some e ->
  ZipFile.with_ zf body w st = (Raise e, extend st [EvOpen zf]).
Proof.
  intros Hopen. unfold ZipFile.with_. unfold_monad. tidy_trace.
  rewrite Hopen. reflexivity.
Qed.

(** A run whose set-up succeeds and whose archive opens: the loop, then
    the closing. *)
Lemma run_ready (config : json) (no_sleep : bool) (w : env) (st st1 : state)
    (zf : string) (urls : json) (items : list json) :
  setup config w st = (Ok (zf, urls), st1) ->
  env_open_zip w zf = None ->
  Py.iter urls = Ok items ->
  run config no_sleep w st =
    let (r, st') :=
      for_urls config no_sleep 0 items w
        {| trace := trace st1 ++ [EvOpen zf];
           zip := {| zstatus := Opened; zentries := [] |} |} in
    (close_result w (zentries (zip st')) r,
     {| trace := trace st' ++ [EvClose];
        zip := closed_archive w (zentries (zip st')) |}).
Proof.
  intros Hsetup Hopen Hiter.
  rewrite run_eq, Hsetup. unfold fetch_archive.
  rewrite with_eq by assumption.
  rewrite (loop_body_eq config no_sleep urls items Hiter). reflexivity.
Qed.

Lemma close_result_raise (w : env) (entries : list (string * string)) (e : exn) :
  exit_status (close_result w entries (Raise e)) = 1.
Proof. unfold close_result. destruct (env_close w entries); reflexivity. Qed.

Lemma randint_of_range (raw : Z) : sleep_ok (randint_of 35 621 raw) = true.
Proof.
  unfold sleep_ok, randint_of.
  pose proof (Z.mod_pos_bound raw (621 - 35 + 1) ltac:(lia)).
  apply andb_true_iff. split; apply Z.leb_le; lia.
Qed.

(** What the set-up adds to the trace: quiet events only. *)
Lemma setup_trace (config : json) (w : env) (st : state) :
  exists evs,
    snd (setup config w st) = extend st evs /\ forallb quiet evs = true.
Proof.
  unfold setup, __check_config, __get_check_datadir, __get_check_zipfilename.
  unfold_monad.
  repeat (tidy_trace;
          match goal with
          | |- context [match ?x with _ => _ end] =>
              lazymatch x with
              | context [match _ with _ => _ end] => fail
              | _ => destruct x
              end
          | |- context [if ?x then _ else _] =>
              lazymatch x with
              | context [if _ then _ else _] => fail
              | _ => destruct x
              end
          end);
    tidy_trace;
    first [ exists []; split; [destruct st; cbn; now rewrite app_nil_r | reflexivity]
          | eexists; split; reflexivity ].
Qed.

Lemma is_2xx_ok (r : Response) : is_2xx r = true -> ok r = true.
Proof.
  unfold is_2xx, ok. intros H. apply andb_true_iff in H as [H1 H2].
  apply Z.leb_le in H1. apply Z.ltb_lt in H2.
  destruct (Z.leb_spec 400 (status_code r)); [lia | reflexivity].
Qed.

Lemma ok_iff_status (r : Response) :
  ok r = true <-> ~ (400 <= status_code r < 600).
Proof.
  unfold ok. rewrite negb_true_iff, andb_false_iff, Z.leb_gt, Z.ltb_ge. lia.
Qed.

Section Expected.
Variables (w : env) (h : json).

Lemma all_2xx_all_ok (urls : list string) :
  forall i, all_2xx w h i urls = true -> all_ok w h i urls = true.
Proof.
  induction urls as [|s rest IH]; intros i; [reflexivity|]. cbn.
  destruct (env_get w i s h) as [r|e]; [|discriminate].
  intros H. apply andb_true_iff in H as [H1 H2].
  rewrite (is_2xx_ok r H1). now apply IH.
Qed.

(** All responses ok: one entry per URL, named after it, in order. *)
Lemma expected_entries_all_ok (urls : list string) :
  forall i, all_ok w h i urls = true ->
    ZipFile.namelist (expected_entries w h i urls) = map archive_name urls.
Proof.
  unfold ZipFile.namelist.
  induction urls as [|s rest IH]; intros i; [reflexivity|]. cbn.
  destruct (env_get w i s h) as [r|e]; [|discriminate].
  intros H. apply andb_true_iff in H as [-> H2]. cbn. now rewrite IH.
Qed.

(** The expected entries are those of the URLs whose response is ok. *)
Lemma in_expected_entries (urls : list string) (name data : string) :
  forall i,
    In (name, data) (expected_entries w h i urls) <->
    exists k s r,
      nth_error urls k = Some s /\ env_get w (i + k) s h = Returns r
      /\ ok r = true /\ name = archive_name s /\ data = text r.
Proof.
  induction urls as [|s rest IH]; intros i.
  - cbn. split; [contradiction|]. intros (k & s & r & Hk & _). now destruct k.
  - cbn [expected_entries]. rewrite in_app_iff, IH. split.
    + intros [Hin | (k & s' & r & Hk & Hg & Hok & Hn & Hd)].
      * destruct (env_get w i s h) as [r|e] eqn:Hg; [|contradiction].
        destruct (ok r) eqn:Hok; [|contradiction].
        destruct Hin as [Heq|[]]. injection Heq as <- <-.
        exists 0%nat, s, r. rewrite Nat.add_0_r. auto.
      * exists (S k), s', r. replace (i + S k)%nat with (S i + k)%nat by lia. auto.
    + intros ([|k] & s' & r & Hk & Hg & Hok & Hn & Hd).
      * left. cbn in Hk. injection Hk as <-. rewrite Nat.add_0_r in Hg.
        rewrite Hg, Hok. left. now subst.
      * right. exists k, s', r. replace (S i + k)%nat with (i + S k)%nat by lia. auto.
Qed.

Lemma read_app (name : string) (a b : list (string * string)) :
  ZipFile.read name (a ++ b) =
    match ZipFile.read name b with
    | Some d => Some d
    | None => ZipFile.read name a
    end.
Proof.
  induction a as [|[n d] a IH]; cbn.
  - now destruct (ZipFile.read name b).
  - rewrite IH. now destruct (ZipFile.read name b).
Qed.

(** Reading a name from the expected entries gives the body written last
    under that name. *)
Lemma read_expected (urls : list string) (name : string) :
  forall i, ZipFile.read name (expected_entries w h i urls) = last_body w h i urls name.
Proof.
  induction urls as [|s rest IH]; intros i; [reflexivity|].
  cbn [expected_entries last_body]. rewrite read_app, IH.
  destruct (last_body w h (S i) rest name); [reflexivity|].
  destruct (env_get w i s h) as [r|e]; [|reflexivity].
  destruct (ok r); [|reflexivity]. cbn.
  now destruct (String.eqb (archive_name s) name).
Qed.

End Expected.

Section ReadyRun.
Variables (config : json) (no_sleep : bool) (w : env) (st st1 : state).
Variables (zipfilename : string) (h : json).
Hypothesis headers : Py.getitem config "headers" = Ok h.
Hypothesis opens : env_open_zip w zipfilename = None.

(** The URLs [pre] go through: the run is then at the URL that follows
    them, with their entries in the open archive. *)
Lemma run_prefix (pre : list string) (rest : list json) :
  setup config w st = (Ok (zipfilename, JList (map JStr pre ++ rest)), st1) ->
  all_respond w h 0 pre = true ->
  names_ok w h 0 pre = true ->
  writes_succeed w h 0 pre = true ->
  exists evs,
    forallb loop_event evs = true
    /\ filter is_warning evs = duplicates [] (expected_entries w h 0 pre)
    /\ run config no_sleep w st =
       let (r, st') :=
         for_urls config no_sleep (List.length pre) rest w
           {| trace := trace st1 ++ [EvOpen zipfilename] ++ evs;
              zip := {| zstatus := Opened;
                        zentries := expected_entries w h 0 pre |} |} in
       (close_result w (zentries (zip st')) r,
        {| trace := trace st' ++ [EvClose];
           zip := closed_archive w (zentries (zip st')) |}).
Proof.
  intros Hsetup Hresp Hname Hwr.
  destruct (for_urls_prefix config no_sleep w h headers pre 0
              {| trace := trace st1 ++ [EvOpen zipfilename];
                 zip := {| zstatus := Opened; zentries := [] |} |}
              eq_refl Hresp Hname Hwr) as (evs & Hl & Hw & Hrest).
  exists evs. split; [exact Hl|]. split; [exact Hw|].
  rewrite (run_ready config no_sleep w st st1 zipfilename _ _ Hsetup opens eq_refl).
  rewrite Hrest. cbn [trace zip zentries app Nat.add].
  rewrite <- !app_assoc. reflexivity.
Qed.

End ReadyRun.

(** ** The claims about the loop *)

(** C1, as the code has it: a GET that raises is not caught.  When the
    GET of a URL is the first thing to raise, the run ends there (exit
    status 1): after the failing GET nothing happens but the closing of
    the archive, so no entry is written for that URL, the loop logs
    nothing about the failure, and no later URL is requested.  The run
    raises the exception of the GET and leaves the entries of the
    earlier URLs in the closed archive; if the closing fails as well, it
    raises the error of the closing and the archive is left unfinished. *)
Theorem transport_failure_aborts_run
    (config : json) (no_sleep : bool) (w : env) (st st1 : state)
    (zipfilename : string) (h : json)
    (pre : list string) (s : string) (rest : list json) (e : exn) :
  Py.getitem config "headers" = Ok h ->
  setup config w st = (Ok (zipfilename, JList (map JStr pre ++ JStr s :: rest)), st1) ->
  env_open_zip w zipfilename = None ->
  all_respond w h 0 pre = true ->
  names_ok w h 0 pre = true ->
  writes_succeed w h 0 pre = true ->
  env_get w (List.length pre) s h = Raises e ->
  let entries := expected_entries w h 0 pre in
  exit_status (fst (run config no_sleep w st)) = 1
  /\ fst (run config no_sleep w st)
     = match env_close w entries with
       | None => Raise e
       | Some e' => Raise e'
       end
  /\ zip (snd (run config no_sleep w st))
     = {| zstatus := match env_close w entries with
                     | None => Closed
                     | Some _ => Unfinished
                     end;
          zentries := entries |}
  /\ exists evs,
       trace (snd (run config no_sleep w st))
       = trace st1 ++ [EvOpen zipfilename] ++ evs ++ [EvGet (JStr s) h; EvClose]
       /\ forallb loop_event evs = true.
Proof.
  intros Hh Hsetup Hopen Hresp Hname Hwr Hraise entries. subst entries.
  destruct (run_prefix config no_sleep w st st1 zipfilename h Hh Hopen
              pre (JStr s :: rest) Hsetup Hresp Hname Hwr) as (evs & Hl & _ & ->).
  cbn [for_urls]. unfold bind. rewrite fetch_one_eq, Hh. cbv zeta. rewrite Hraise.
  cbn [fst snd extend trace zip zentries].
  split; [apply close_result_raise|]. split; [reflexivity|]. split; [reflexivity|].
  exists (evs ++ pacing_events no_sleep w (List.length pre)
          ++ [EvLog INFO "HTTP GET '%s' ..." [LVal (JStr s)]]).
  split.
  - unfold request_events. rewrite <- !app_assoc. cbn [app]. reflexivity.
  - destruct (pacing_events_loop no_sleep w (List.length pre)) as [Hp _].
    rewrite !forallb_app, Hl, Hp. reflexivity.
Qed.

Lemma transport_failure_witness :
  fst (run (demo_config two_urls) true world_second_unreachable init)
  = Raise (RequestException "ConnectionError")
  /\ zip (snd (run (demo_config two_urls) true world_second_unreachable init))
     = {| zstatus := Closed; zentries := [("page1.html", "<html>1</html>")] |}.
Proof.
  destruct (transport_failure_aborts_run (demo_config two_urls) true
              world_second_unreachable init
              (snd (setup (demo_config two_urls) world_second_unreachable init))
              demo_zip demo_headers ["https://a.test/page1.html"] "https://a.test/" []
              (RequestException "ConnectionError"))
    as (_ & Hr & Hz & _); try reflexivity.
  split; [exact Hr | exact Hz].
Defined.

(** C1 fails as stated: with two URLs of which the first cannot be
    reached, the run raises, logs no error, and never requests the second
    URL. *)
Lemma transport_failure_counterexample :
  env_get world_first_unreachable 0 "https://a.test/page1.html" demo_headers
  = Raises (RequestException "ConnectionError")
  /\ fst (run (demo_config two_urls) true world_first_unreachable init)
     = Raise (RequestException "ConnectionError")
  /\ existsb is_error_log
       (trace (snd (run (demo_config two_urls) true world_first_unreachable init)))
     = false
  /\ filter is_get
       (trace (snd (run (demo_config two_urls) true world_first_unreachable init)))
     = [EvGet (JStr "https://a.test/page1.html") demo_headers].
Proof. repeat split; reflexivity. Qed.

(** C2, as the code has it: the loop branches on the response's [ok]
    flag, which holds exactly when the status is not a 4xx or 5xx code
    (so for every 2xx status, and also for 1xx and 3xx ones).  For a URL
    whose GET returns a response, [writestr] is called, with the entry
    name of the URL and the response text, if and only if the response is
    ok and [urlparse] accepts the URL; an entry is added to the open
    archive if and only if moreover the name is not empty once cut at a
    NUL and the write succeeds, and it is then the response text under
    that name.  When the response is not ok the archive is left as it
    was, the last thing the iteration does is log the reason at error
    level, and the loop goes on with the next URL.  When it is ok but
    [urlparse] raises, the loop ends with that exception right after the
    status is logged.  When it is ok, the URL has a name and the write
    succeeds, the loop goes on with the next URL. *)
Theorem entry_written_iff_ok
    (config : json) (no_sleep : bool) (w : env) (i : nat) (s : string)
    (rest : list json) (st : state) (h : json) (r : Response) :
  Py.getitem config "headers" = Ok h ->
  env_get w i s h = Returns r ->
  let req := request_events no_sleep w i (JStr s) h in
  (ok r = true <-> ~ (400 <= status_code r < 600))
  /\ (is_2xx r = true -> ok r = true)
  /\ (exists evs,
        trace (snd (fetch_one config no_sleep i (JStr s) w st)) = trace st ++ evs
        /\ existsb is_write evs = ok r && parses w s
        /\ (ok r && parses w s = true -> In (EvWriteStr (entry_name s) (text r)) evs))
  /\ (zstatus (zip st) = Opened ->
      zentries (zip (snd (fetch_one config no_sleep i (JStr s) w st)))
      = zentries (zip st)
        ++ (if ok r && named w s
               && match env_writestr w i (entry_name s) (text r) with
                  | None => true
                  | Some _ => false
                  end
            then [(archive_name s, text r)]
            else []))
  /\ (ok r = false ->
      for_urls config no_sleep i (JStr s :: rest) w st =
        for_urls config no_sleep (S i) rest w
          {| trace := trace st ++ req
                      ++ [EvLog DEBUG "response status:%d" [LInt (status_code r)];
                          EvLog ERROR (reason r) []];
             zip := zip st |})
  /\ (ok r = true ->
      forall e, UrlParse.urlsplit_error (env_ip_address w) s = Some e ->
      for_urls config no_sleep i (JStr s :: rest) w st =
        (Raise e,
         {| trace := trace st ++ req
                     ++ [EvLog DEBUG "response status:%d" [LInt (status_code r)]];
            zip := zip st |}))
  /\ (ok r = true -> named w s = true -> zstatus (zip st) = Opened ->
      env_writestr w i (entry_name s) (text r) = None ->
      for_urls config no_sleep i (JStr s :: rest) w st =
        for_urls config no_sleep (S i) rest w
          {| trace := trace st ++ req ++ write_events s r
                      ++ duplicate_warning (ZipFile.namelist (zentries (zip st)))
                           (archive_name s);
             zip := {| zstatus := Opened;
                       zentries := zentries (zip st) ++ [(archive_name s, text r)] |} |}).
Proof.
  intros Hh Hget req. subst req.
  split; [apply ok_iff_status|]. split; [apply is_2xx_ok|].
  cbn [for_urls]. unfold bind. rewrite fetch_one_eq, Hh. cbv zeta. rewrite Hget.
  unfold named, parses.
  split; [|split; [|split; [|split]]].
  - unfold request_events, pacing_events, write_events, skip_events, duplicate_warning,
      extend.
    destruct (ok r);
      [destruct (UrlParse.urlsplit_error (env_ip_address w) s);
       [|destruct (String.eqb (archive_name s) "");
         [|destruct (zstatus (zip st));
           [| destruct (existsb _ _);
              destruct (env_writestr w i (entry_name s) (text r)) | |]]]|];
      cbn [snd trace]; eexists; (split; [reflexivity|]);
      destruct no_sleep; cbn [app existsb is_write orb andb status_event];
      rewrite ?existsb_app; cbn [app existsb is_write orb andb];
      (split; [reflexivity|]); intros Hok; try discriminate Hok;
      rewrite ?in_app_iff; cbn [In]; tauto.
  - intros Hopen. rewrite Hopen.
    destruct (ok r); cbn [andb];
      [|cbn [snd extend zip]; now rewrite app_nil_r].
    destruct (UrlParse.urlsplit_error (env_ip_address w) s); cbn [andb];
      [cbn [snd extend zip]; now rewrite app_nil_r|].
    destruct (String.eqb (archive_name s) ""); cbn [andb negb];
      [cbn [snd extend zip]; now rewrite app_nil_r|].
    destruct (env_writestr w i (entry_name s) (text r));
      cbn [snd extend zip zentries]; [now rewrite app_nil_r | reflexivity].
  - intros ->. unfold extend, skip_events, status_event. rewrite <- ?app_assoc. reflexivity.
  - intros -> e ->. unfold extend, status_event. reflexivity.
  - intros -> Hnamed -> ->. apply andb_true_iff in Hnamed as [Hparse Hnonempty].
    destruct (UrlParse.urlsplit_error (env_ip_address w) s); [discriminate Hparse|].
    apply negb_true_iff in Hnonempty. rewrite Hnonempty.
    rewrite <- ?app_assoc. reflexivity.
Qed.

Lemma entry_written_iff_ok_witness :
  for_urls (demo_config two_urls) true 1 [JStr "https://a.test/"]
    world_second_missing init
  = (Ok tt,
     {| trace := [EvLog INFO "HTTP GET '%s' ..." [LVal (JStr "https://a.test/")];
                  EvGet (JStr "https://a.test/") demo_headers;
                  EvLog DEBUG "response status:%d" [LInt 404];
                  EvLog ERROR "Not Found" []];
        zip := zip init |}).
Proof.
  destruct (entry_written_iff_ok (demo_config two_urls) true world_second_missing
              1 "https://a.test/" [] init demo_headers
              {| status_code := 404; reason := "Not Found"; text := "" |}
              eq_refl eq_refl) as (_ & _ & _ & _ & Hskip & _).
  rewrite (Hskip eq_refl). reflexivity.
Defined.

(** C2 fails as stated: a response with status 304, which is not in the
    2xx class, gets an archive entry. *)
Lemma entry_written_iff_ok_counterexample :
  env_get world_not_modified 0 "https://a.test/page1.html" demo_headers = not_modified
  /\ is_2xx {| status_code := 304; reason := "Not Modified"; text := "" |} = false
  /\ zentries (zip (snd (run (demo_config ["https://a.test/page1.html"]) true
                           world_not_modified init)))
     = [("page1.html", "")].
Proof. repeat split; reflexivity. Qed.

(** C3, as the code has it: when the configuration is loaded, the set-up
    succeeds, the archive can be opened and finished, every GET returns a
    response, every URL whose response is ok has a name for its entry
    and every archive write succeeds, the process exits with status 0 and
    leaves a closed archive whose entries are exactly those of the URLs
    whose response is ok, in the order of the URLs, a name that occurs
    twice being kept twice; if every response has a 2xx status there are
    as many entries as URLs.  (A GET that raises ends the run with a
    non-zero status instead.) *)
Theorem archive_holds_ok_responses
    (a : arguments) (w : env) (config : json) (st0 st1 : state)
    (zipfilename : string) (h : json) (urls : list string) :
  load_config a w init = (Ok config, st0) ->
  Py.getitem config "headers" = Ok h ->
  setup config w st0 = (Ok (zipfilename, JList (map JStr urls)), st1) ->
  env_open_zip w zipfilename = None ->
  all_respond w h 0 urls = true ->
  names_ok w h 0 urls = true ->
  writes_succeed w h 0 urls = true ->
  env_close w (expected_entries w h 0 urls) = None ->
  let entries := zentries (zip (snd (script a w))) in
  fst (script a w) = 0
  /\ zstatus (zip (snd (script a w))) = Closed
  /\ entries = expected_entries w h 0 urls
  /\ (forall name data,
        In (name, data) entries <->
        exists k s r,
          nth_error urls k = Some s /\ env_get w k s h = Returns r
          /\ ok r = true /\ name = archive_name s /\ data = text r)
  /\ (all_2xx w h 0 urls = true ->
      List.length entries = List.length urls
      /\ ZipFile.namelist entries = map archive_name urls).
Proof.
  intros Hload Hh Hsetup Hopen Hresp Hname Hwr Hclose entries. subst entries.
  unfold script. rewrite main_eq, Hload.
  rewrite <- (app_nil_r (map JStr urls)) in Hsetup.
  destruct (run_prefix config (arg_nosleep a) w st0 st1 zipfilename h Hh Hopen
              urls [] Hsetup Hresp Hname Hwr) as (evs & _ & _ & ->).
  cbn [for_urls ret fst snd zip zentries]. unfold close_result, closed_archive.
  rewrite Hclose. cbn [fst snd exit_status zip zstatus zentries].
  split; [reflexivity|]. split; [reflexivity|]. split; [reflexivity|]. split.
  - intros name data. apply (in_expected_entries w h urls name data 0).
  - intros H2. apply all_2xx_all_ok, expected_entries_all_ok in H2.
    split; [|exact H2]. unfold ZipFile.namelist in H2.
    rewrite <- (length_map fst), H2. apply length_map.
Qed.

Lemma archive_holds_ok_responses_witness :
  fst (script demo_args world_second_missing) = 0
  /\ zstatus (zip (snd (script demo_args world_second_missing))) = Closed
  /\ zentries (zip (snd (script demo_args world_second_missing)))
     = [("page1.html", "<html>1</html>")].
Proof.
  destruct (archive_holds_ok_responses demo_args world_second_missing
              (demo_config two_urls)
              (snd (load_config demo_args world_second_missing init))
              (snd (setup (demo_config two_urls) world_second_missing
                      (snd (load_config demo_args world_second_missing init))))
              demo_zip demo_headers two_urls)
    as (H0 & Hc & He & _); try reflexivity.
  split; [exact H0|]. split; [exact Hc|]. rewrite He. reflexivity.
Defined.

(** C3 fails as stated: the first of two URLs cannot be reached and the
    second would be served with status 200, yet the process exits with
    status 1 and the archive has no entry. *)
Lemma archive_holds_ok_responses_counterexample :
  env_get world_first_unreachable 1 "https://a.test/" demo_headers
  = page "<html>home</html>"
  /\ fst (script demo_args world_first_unreachable) = 1
  /\ zentries (zip (snd (script demo_args world_first_unreachable))) = [].
Proof. repeat split; reflexivity. Qed.

(** C9, as the code has it: in a run that completes (the set-up
    succeeds, every GET returns, every ok response has a name for its
    entry, every write succeeds, the archive can be finished) nothing is
    raised and no name is altered to tell two entries apart: every name
    in the archive is the one the archive gives to the entry of one of
    the URLs.  A later write under a name does not replace the earlier
    entry: the archive keeps every entry written, in order, and each
    write under a name that is already there is reported by a warning.
    Reading a name from the finished archive yields the body of the last
    URL, in the order of the list, whose response was ok and whose entry
    is stored under that name. *)
Theorem last_write_wins
    (config : json) (no_sleep : bool) (w : env) (st st1 : state)
    (zipfilename : string) (h : json) (urls : list string) :
  Py.getitem config "headers" = Ok h ->
  setup config w st = (Ok (zipfilename, JList (map JStr urls)), st1) ->
  env_open_zip w zipfilename = None ->
  all_respond w h 0 urls = true ->
  names_ok w h 0 urls = true ->
  writes_succeed w h 0 urls = true ->
  env_close w (expected_entries w h 0 urls) = None ->
  let final := snd (run config no_sleep w st) in
  let entries := zentries (zip final) in
  fst (run config no_sleep w st) = Ok tt
  /\ zstatus (zip final) = Closed
  /\ entries = expected_entries w h 0 urls
  /\ (forall name, ZipFile.read name entries = last_body w h 0 urls name)
  /\ (forall name, In name (ZipFile.namelist entries) ->
        exists s, In s urls /\ name = archive_name s)
  /\ exists evs,
       trace final = trace st1 ++ evs
       /\ filter is_warning evs = duplicates [] entries.
Proof.
  intros Hh Hsetup Hopen Hresp Hname Hwr Hclose final entries. subst entries final.
  rewrite <- (app_nil_r (map JStr urls)) in Hsetup.
  destruct (run_prefix config no_sleep w st st1 zipfilename h Hh Hopen
              urls [] Hsetup Hresp Hname Hwr) as (evs & _ & Hw & ->).
  cbn [for_urls ret fst snd zip zentries]. unfold close_result, closed_archive.
  rewrite Hclose. cbn [fst snd zip zstatus zentries trace].
  split; [reflexivity|]. split; [reflexivity|]. split; [reflexivity|].
  split; [|split].
  - intros name. apply read_expected.
  - intros name Hin. unfold ZipFile.namelist in Hin.
    apply in_map_iff in Hin as ([n d] & <- & Hin).
    apply in_expected_entries in Hin as (k & s & r & Hk & _ & _ & -> & _).
    exists s. split; [now apply nth_error_In in Hk | reflexivity].
  - exists ([EvOpen zipfilename] ++ evs ++ [EvClose]).
    split; [rewrite <- !app_assoc; reflexivity|].
    cbn [app filter is_warning]. rewrite filter_app, Hw. cbn. apply app_nil_r.
Qed.

Lemma last_write_wins_witness :
  fst (run (demo_config two_roots) true world_two_roots init) = Ok tt
  /\ ZipFile.read "index.html"
       (zentries (zip (snd (run (demo_config two_roots) true world_two_roots init))))
     = Some "<html>b</html>".
Proof.
  destruct (last_write_wins (demo_config two_roots) true world_two_roots init
              (snd (setup (demo_config two_roots) world_two_roots init))
              demo_zip demo_headers two_roots)
    as (Hok & _ & _ & Hread & _); try reflexivity.
  split; [exact Hok|]. rewrite Hread. reflexivity.
Defined.

(** C9 fails as stated: the two sites are both fetched at their root, so
    both entries are named [index.html]; the second write does not
    replace the first, the archive lists the name twice, and the write is
    not silent, it is reported by a warning. *)
Lemma last_write_wins_counterexample :
  entry_name "https://a.test/" = entry_name "https://b.test/"
  /\ zentries (zip (snd (run (demo_config two_roots) true world_two_roots init)))
     = [("index.html", "<html>a</html>"); ("index.html", "<html>b</html>")]
  /\ filter is_warning
       (trace (snd (run (demo_config two_roots) true world_two_roots init)))
     = [EvWarn "Duplicate name: %r" "index.html"].
Proof. repeat split; reflexivity. Qed.

(** ** The claims about the set-up *)

Lemma check_config_pure (config : json) (w : env) (st : state) :
  snd (__check_config config w st) = st.
Proof.
  unfold __check_config. unfold_monad.
  repeat (tidy_trace;
          match goal with
          | |- context [match ?x with _ => _ end] =>
              lazymatch x with
              | context [match _ with _ => _ end] => fail
              | _ => destruct x
              end
          | |- context [if ?x then _ else _] =>
              lazymatch x with
              | context [if _ then _ else _] => fail
              | _ => destruct x
              end
          end); reflexivity.
Qed.

Lemma get_check_datadir_trace (config : json) (w : env) (st : state) :
  exists evs,
    snd (__get_check_datadir config w st) = extend st evs
    /\ forallb quiet evs = true.
Proof.
  unfold __get_check_datadir. unfold_monad.
  repeat (tidy_trace;
          match goal with
          | |- context [match ?x with _ => _ end] =>
              lazymatch x with
              | context [match _ with _ => _ end] => fail
              | _ => destruct x
              end
          | |- context [if ?x then _ else _] =>
              lazymatch x with
              | context [if _ then _ else _] => fail
              | _ => destruct x
              end
          end);
    tidy_trace;
    first [ exists []; split; [destruct st; cbn; now rewrite app_nil_r | reflexivity]
          | eexists; split; reflexivity ].
Qed.

(** C4, as the code has it: when one of [datadir], [headers], [urls] is
    missing from the configuration or has an empty value (an empty [urls]
    list included), [run] fails in the validation and leaves the state
    untouched: nothing was logged, resolved, computed or requested.  What
    it raises is decided by the first key, in the order datadir, headers,
    urls, that is missing or empty (every key before it is present with a
    value that is not empty): the [KeyError] of that key when the key is
    missing, the assertion "invalid configuration!" when its value is
    empty.  The validation never changes the state. *)
Theorem invalid_config_fails_first
    (kvs : list (string * json)) (no_sleep : bool) (w : env) (st : state) :
  (exists key, In key required_keys /\ missing_or_empty kvs key) ->
  (exists key,
      In key required_keys
      /\ missing_or_empty kvs key
      /\ (forall k, In k (keys_before key) ->
            exists v, Py.lookup k kvs = Some v /\ Py.truthy v = true)
      /\ run (JObj kvs) no_sleep w st
         = (Raise (match Py.lookup key kvs with
                   | None => KeyError key
                   | Some _ => InvalidConfigError
                   end), st))
  /\ (forall config w' st', snd (__check_config config w' st') = st').
Proof.
  intros (key & Hkey & Hbad).
  split; [|apply check_config_pure].
  assert (forall P : Prop, (forall k, In k required_keys -> ~ missing_or_empty kvs k) -> P)
    as Hgood.
  { intros P H. exfalso. exact (H key Hkey Hbad). }
  clear key Hkey Hbad.
  unfold run, __check_config. unfold bind at 1 2 3. unfold lift at 1. cbn [Py.getitem].
  destruct (Py.lookup "datadir" kvs) as [v1|] eqn:E1.
  2:{ exists "datadir". rewrite E1. split; [cbn; auto|]. split; [now left|].
      split; [intros k []|]. reflexivity. }
  destruct (Py.truthy v1) eqn:T1.
  2:{ exists "datadir". rewrite E1. split; [cbn; auto|]. split; [right; eauto|].
      split; [intros k []|]. reflexivity. }
  assert (forall k, In k ["datadir"] ->
                    exists v, Py.lookup k kvs = Some v /\ Py.truthy v = true) as H1.
  { intros k [<-|[]]. eauto. }
  unfold assert at 1, ret at 1. unfold bind at 1 2 3. unfold lift at 1.
  cbn [Py.getitem].
  destruct (Py.lookup "headers" kvs) as [v2|] eqn:E2.
  2:{ exists "headers". rewrite E2. split; [cbn; auto|]. split; [now left|].
      split; [exact H1|]. reflexivity. }
  destruct (Py.truthy v2) eqn:T2.
  2:{ exists "headers". rewrite E2. split; [cbn; auto|]. split; [right; eauto|].
      split; [exact H1|]. reflexivity. }
  assert (forall k, In k ["datadir"; "headers"] ->
                    exists v, Py.lookup k kvs = Some v /\ Py.truthy v = true) as H2.
  { intros k [<-|[<-|[]]]; eauto. }
  unfold assert at 1, ret at 1. unfold bind at 1 2 3. unfold lift at 1.
  cbn [Py.getitem].
  destruct (Py.lookup "urls" kvs) as [v3|] eqn:E3.
  2:{ exists "urls". rewrite E3. split; [cbn; auto|]. split; [now left|].
      split; [exact H2|]. reflexivity. }
  destruct (Py.truthy v3) eqn:T3.
  2:{ exists "urls". rewrite E3. split; [cbn; auto|]. split; [right; eauto|].
      split; [exact H2|]. reflexivity. }
  apply Hgood. intros k Hk [Hnone | (v & Hv & Ht)];
    cbn in Hk; destruct Hk as [<-|[<-|[<-|[]]]]; congruence.
Qed.

Lemma invalid_config_witness :
  run (JObj config_without_urls) true world_second_missing init
  = (Raise InvalidConfigError, init).
Proof.
  destruct (invalid_config_fails_first config_without_urls true
              world_second_missing init) as [(key & Hkey & Hbad & _ & Hrun) _].
  - exists "urls". split; [cbn; auto|]. right. exists (JList []). split; reflexivity.
  - destruct Hkey as [<-|[<-|[<-|[]]]].
    + destruct Hbad as [H | (v & Hv & Ht)]; [discriminate H|].
      injection Hv as <-. discriminate Ht.
    + destruct Hbad as [H | (v & Hv & Ht)]; [discriminate H|].
      injection Hv as <-. discriminate Ht.
    + exact Hrun.
Defined.

(** C4 fails as stated: without the [datadir] key the run fails with
    [KeyError], which is not the assertion of the validator. *)
Lemma invalid_config_counterexample :
  Py.lookup "datadir" config_without_datadir = None
  /\ run (JObj config_without_datadir) true world_second_missing init
     = (Raise (KeyError "datadir"), init)
  /\ KeyError "datadir" <> InvalidConfigError.
Proof. repeat split; try reflexivity. discriminate. Qed.

(** C5: when the configuration passes validation, the data directory is
    resolved, and the path of the archive (the data directory joined with
    the time-stamped file name) exists, [run] fails with the assertion
    "target ZIP must not exist already!"; up to that point it has only
    logged, queried the file system and read the clock: no request was
    sent and the archive was neither created nor opened. *)
Theorem existing_archive_fails_first
    (config : json) (no_sleep : bool) (w : env) (st st1 : state) (datadir : string) :
  fst (__check_config config w st) = Ok tt ->
  __get_check_datadir config w st = (Ok datadir, st1) ->
  env_exists w (Path.joinpath datadir
                  (env_strftime w "%Y-%m-%d_%H%M%S" ++ ".zip")%string) = true ->
  exists evs,
    run config no_sleep w st = (Raise ArchiveAlreadyExistsError, extend st evs)
    /\ forallb quiet evs = true
    /\ existsb is_get evs = false
    /\ existsb is_open evs = false.
Proof.
  intros Hcheck Hdir Hexists.
  pose proof (check_config_pure config w st) as Hpure.
  destruct (get_check_datadir_trace config w st) as (evs1 & Hst1 & Hq1).
  rewrite Hdir in Hst1. cbn [snd] in Hst1. subst st1.
  unfold run. unfold bind at 1.
  destruct (__check_config config w st) as [[[]|e] st0]; [|discriminate Hcheck].
  cbn [snd] in Hpure. subst st0.
  unfold bind at 1. rewrite Hdir.
  unfold bind at 1. unfold __get_check_zipfilename. unfold_monad. tidy_trace.
  rewrite Hexists. tidy_trace.
  eexists. split; [reflexivity|].
  assert (forallb quiet
            (evs1 ++ [EvClock "%Y-%m-%d_%H%M%S";
                      EvFs Resolve (Path.joinpath datadir
                        (env_strftime w "%Y-%m-%d_%H%M%S" ++ ".zip")%string);
                      EvLog INFO "filepath: %s"
                        [LStr (env_resolve w (Path.joinpath datadir
                           (env_strftime w "%Y-%m-%d_%H%M%S" ++ ".zip")%string))];
                      EvFs Exists (Path.joinpath datadir
                        (env_strftime w "%Y-%m-%d_%H%M%S" ++ ".zip")%string)]) = true)
    as Hq.
  { rewrite forallb_app, Hq1. reflexivity. }
  split; [exact Hq|].
  split; apply not_true_iff_false; intros Hex;
    apply existsb_exists in Hex as (x & Hin & Hx);
    rewrite forallb_forall in Hq; apply Hq in Hin; destruct x; discriminate.
Qed.

Lemma existing_archive_witness :
  fst (run (demo_config two_urls) true world_archive_exists init)
  = Raise ArchiveAlreadyExistsError
  /\ zip (snd (run (demo_config two_urls) true world_archive_exists init)) = zip init.
Proof.
  destruct (existing_archive_fails_first (demo_config two_urls) true
              world_archive_exists init
              (snd (__get_check_datadir (demo_config two_urls) world_archive_exists init))
              "/opt/app/.")
    as (evs & -> & _); try reflexivity.
  split; reflexivity.
Defined.

(** ** Entry names in the archive *)

(** The name of an entry in the archive is the name it is written
    under, up to the first NUL. *)
Lemma arcname_before (n : string) : ZipFile.arcname n = Cut.before "000" n.
Proof.
  unfold ZipFile.arcname. cbv zeta. rewrite find_before.
  destruct (PyStr.contains "000" n) eqn:H.
  - destruct (Z.leb_spec 0 (PyStr.len (Cut.before "000" n))) as [_|Hneg];
      [|unfold PyStr.len in Hneg; lia].
    pose proof (upto_find "000" n H) as Hu. rewrite find_before, H in Hu. exact Hu.
  - cbn. symmetry. now apply before_absent.
Qed.

Lemma contains_before (c d : ascii) (s : string) :
  PyStr.contains c s = false -> PyStr.contains c (Cut.before d s) = false.
Proof.
  induction s as [|e t IH]; cbn; [reflexivity|]. intros H.
  apply orb_false_iff in H as [He Ht].
  destruct (Ascii.eqb e d); cbn; [reflexivity|]. now rewrite He, IH.
Qed.

Lemma archive_name_no_slash (s : string) :
  PyStr.contains "/" (archive_name s) = false.
Proof.
  unfold archive_name. rewrite arcname_before.
  apply contains_before, entry_name_no_slash.
Qed.

Lemma for_urls_entries (config : json) (no_sleep : bool) (w : env) (urls : list json) :
  forall (i : nat) (st : state),
    Forall named_after_url (zentries (zip st)) ->
    Forall named_after_url (zentries (zip (snd (for_urls config no_sleep i urls w st)))).
Proof.
  induction urls as [|url rest IH]; intros i st Hst; [exact Hst|].
  cbn [for_urls]. unfold bind.
  assert (Forall named_after_url
            (zentries (zip (snd (fetch_one config no_sleep i url w st))))) as H1.
  { rewrite fetch_one_eq.
    destruct (Py.getitem config "headers") as [h|e]; [|exact Hst]. cbv zeta.
    destruct url; try exact Hst.
    destruct (env_get w i s h) as [r|e]; [|exact Hst].
    destruct (ok r); [|exact Hst].
    destruct (UrlParse.urlsplit_error (env_ip_address w) s); [exact Hst|].
    destruct (String.eqb (archive_name s) ""); [exact Hst|].
    destruct (zstatus (zip st)); try exact Hst.
    destruct (env_writestr w i (entry_name s) (text r)); [exact Hst|].
    cbn [snd zip zentries]. apply Forall_app. split; [exact Hst|].
    constructor; [now exists s | constructor]. }
  destruct (fetch_one config no_sleep i url w st) as [[[]|e] st1]; cbn [snd] in *.
  - now apply IH.
  - exact H1.
Qed.

Lemma run_entries (config : json) (no_sleep : bool) (w : env) :
  Forall named_after_url (zentries (zip (snd (run config no_sleep w init)))).
Proof.
  rewrite run_eq.
  destruct (setup_trace config w init) as (evs0 & Hst & _).
  destruct (setup config w init) as [[[zf urls]|e] st1]; cbn [snd] in Hst; subst st1;
    [|constructor].
  unfold fetch_archive.
  destruct (env_open_zip w zf) as [e|] eqn:Hopen.
  - rewrite (with_open_fails _ _ _ _ e Hopen). constructor.
  - rewrite with_eq by assumption. unfold bind at 1, lift at 1.
    destruct (Py.iter urls) as [items|e]; [|constructor].
    match goal with
    | |- context [for_urls _ _ _ _ _ ?s] =>
        pose proof (for_urls_entries config no_sleep w items 0 s) as H
    end.
    destruct (for_urls _ _ _ _ _ _) as [r st']. cbn [snd zip zentries closed_archive] in *.
    apply H. constructor.
Qed.

(** C10: the entry name of a URL is computed from the path component
    alone: cutting the URL at its first [?] or [#] leaves the name
    unchanged, and two URLs with the same path component have the same
    name; [https://h/a/b.html?x=1#f] gives [b.html].  An entry name never
    contains a slash, and every entry a run leaves in the archive carries
    the entry name of a URL (up to a NUL character, where the archive
    cuts a name), so every entry sits at the root. *)
Theorem entry_name_from_path_only :
  (forall url, entry_name url = entry_name (without_query_fragment url))
  /\ (forall url1 url2,
        UrlParse.path (UrlParse.urlparse url1) = UrlParse.path (UrlParse.urlparse url2) ->
        entry_name url1 = entry_name url2)
  /\ without_query_fragment "https://h/a/b.html?x=1#f" = "https://h/a/b.html"
  /\ entry_name "https://h/a/b.html?x=1#f" = "b.html"
  /\ (forall url, PyStr.contains "/" (entry_name url) = false)
  /\ (forall config no_sleep w,
        Forall (fun entry => PyStr.contains "/" (fst entry) = false)
          (zentries (zip (snd (run config no_sleep w init))))).
Proof.
  split; [exact entry_name_ignores_query_fragment|].
  split; [intros url1 url2 H; unfold entry_name; now rewrite H|].
  split; [reflexivity|]. split; [reflexivity|].
  split; [exact entry_name_no_slash|].
  intros config no_sleep w.
  eapply Forall_impl; [|apply run_entries].
  intros entry [s ->]. apply archive_name_no_slash.
Qed.

(** ** The validator and the set-up, read backwards *)

(** A value that is true and has a length has a first item. *)
Lemma truthy_sized (u : json) (n : Z) :
  Py.truthy u = true -> Py.len u = Ok n ->
  0 < n /\ exists x rest, Py.iter u = Ok (x :: rest).
Proof.
  destruct u as [| b | z | s | l | kvs]; cbn; try discriminate.
  - destruct s as [|c t]; [discriminate|]. intros _ H. injection H as <-.
    split; [unfold PyStr.len; cbn [String.length]; lia | cbn; eauto].
  - destruct l as [|x l]; [discriminate|]. intros _ H. injection H as <-.
    split; [cbn [List.length]; lia | eauto].
  - destruct kvs as [|x l]; [discriminate|]. intros _ H. injection H as <-.
    split; [cbn [List.length]; lia | cbn; eauto].
Qed.

Lemma check_config_ok_inv (config : json) (w : env) (st : state) :
  fst (__check_config config w st) = Ok tt ->
  exists d h u n,
    Py.getitem config "datadir" = Ok d /\ Py.truthy d = true
    /\ Py.getitem config "headers" = Ok h /\ Py.truthy h = true
    /\ Py.getitem config "urls" = Ok u /\ Py.truthy u = true
    /\ Py.len u = Ok n.
Proof.
  unfold __check_config. unfold_monad.
  destruct (Py.getitem config "datadir") as [d|e]; [|discriminate].
  destruct (Py.truthy d) eqn:Td; [|discriminate].
  destruct (Py.getitem config "headers") as [h|e]; [|discriminate].
  destruct (Py.truthy h) eqn:Th; [|discriminate].
  destruct (Py.getitem config "urls") as [u|e]; [|discriminate].
  destruct (Py.truthy u) eqn:Tu; [|discriminate].
  destruct (Py.len u) as [n|e] eqn:Hn; [|discriminate].
  intros _. exists d, h, u, n. repeat split; assumption.
Qed.

(** X1: [__check_config] accepts a configuration exactly when [datadir],
    [headers] and [urls] are all present with a true value and [urls] has
    a length; for such a value the final assertion on the length adds
    nothing, a true value with a length is never of length zero. *)
Theorem check_config_accepts_iff (config : json) (w : env) (st : state) :
  (fst (__check_config config w st) = Ok tt <->
   exists d h u n,
     Py.getitem config "datadir" = Ok d /\ Py.truthy d = true
     /\ Py.getitem config "headers" = Ok h /\ Py.truthy h = true
     /\ Py.getitem config "urls" = Ok u /\ Py.truthy u = true
     /\ Py.len u = Ok n)
  /\ (forall u n, Py.truthy u = true -> Py.len u = Ok n -> 0 < n).
Proof.
  split; [split|].
  - apply check_config_ok_inv.
  - intros (d & h & u & n & Hd & Td & Hh & Th & Hu & Tu & Hn).
    destruct (truthy_sized u n Tu Hn) as [Hpos _].
    unfold __check_config. unfold_monad.
    rewrite Hd, Td, Hh, Th, Hu, Tu, Hn. cbn [fst].
    destruct (Z.ltb_spec 0 n); [reflexivity | lia].
  - intros u n Tu Hn. now destruct (truthy_sized u n Tu Hn).
Qed.

(** X2: [__check_config] reports the first thing that is wrong, in the
    order datadir, headers, urls: a missing key by the [KeyError] of that
    key, an empty value by the assertion "invalid configuration!"; what
    comes later in the order is not looked at.  A configuration that is
    not a JSON object fails with [TypeError], and so does a [urls] value
    that is true but has no length (a number, [true]). *)
Theorem check_config_reports_first
    (kvs : list (string * json)) (w : env) (st : state) :
  let result := fst (__check_config (JObj kvs) w st) in
  (Py.lookup "datadir" kvs = None -> result = Raise (KeyError "datadir"))
  /\ (forall d, Py.lookup "datadir" kvs = Some d ->
      (Py.truthy d = false -> result = Raise InvalidConfigError)
      /\ (Py.truthy d = true ->
          (Py.lookup "headers" kvs = None -> result = Raise (KeyError "headers"))
          /\ (forall h, Py.lookup "headers" kvs = Some h ->
              (Py.truthy h = false -> result = Raise InvalidConfigError)
              /\ (Py.truthy h = true ->
                  (Py.lookup "urls" kvs = None -> result = Raise (KeyError "urls"))
                  /\ (forall u, Py.lookup "urls" kvs = Some u ->
                      (Py.truthy u = false -> result = Raise InvalidConfigError)
                      /\ (Py.truthy u = true ->
                          forall e, Py.len u = Raise e ->
                                    e = TypeError "len" /\ result = Raise e))))))
  /\ (forall config,
        match config with JObj _ => False | _ => True end ->
        fst (__check_config config w st) = Raise (TypeError "subscript")).
Proof.
  cbv zeta. unfold __check_config. unfold_monad. cbn [Py.getitem].
  split; [intros ->; reflexivity|]. split.
  - intros d ->. split; [intros ->; reflexivity|]. intros ->.
    split; [intros ->; reflexivity|].
    intros h ->. split; [intros ->; reflexivity|]. intros ->.
    split; [intros ->; reflexivity|].
    intros u ->. split; [intros ->; reflexivity|]. intros ->.
    intros e He. rewrite He. split; [|reflexivity].
    destruct u; cbn in He; congruence.
  - intros config Hc. destruct config; try reflexivity. contradiction.
Qed.

(** What holds once the set-up has succeeded. *)
Lemma setup_ok_inv (config : json) (w : env) (st st1 : state)
    (zipfilename : string) (urls : json) :
  setup config w st = (Ok (zipfilename, urls), st1) ->
  exists d h n evs,
    Py.getitem config "datadir" = Ok (JStr d)
    /\ d <> ""%string
    /\ Py.getitem config "headers" = Ok h /\ Py.truthy h = true
    /\ Py.getitem config "urls" = Ok urls /\ Py.truthy urls = true
    /\ Py.len urls = Ok n
    /\ zipfilename = archive_path_of w d
    /\ env_is_dir w (datadir_of w d) = true
    /\ env_exists w zipfilename = false
    /\ st1 = extend st evs /\ forallb setup_event evs = true.
Proof.
  intros H. unfold setup in H. unfold bind at 1 in H.
  pose proof (check_config_pure config w st) as Hpure.
  pose proof (check_config_ok_inv config w st) as Hinv.
  destruct (__check_config config w st) as [[[]|e] s0]; [|discriminate H].
  cbn [snd] in Hpure. subst s0.
  destruct (Hinv eq_refl) as (d0 & h & u & n & Hd & Td & Hh & Th & Hu & Tu & Hn).
  clear Hinv.
  unfold __get_check_datadir, __get_check_zipfilename in H. unfold_monad.
  rewrite Hd, Hu in H.
  destruct d0 as [| b | z | d | l | kvs]; try discriminate H.
  revert H.
  destruct (Path.is_absolute d) eqn:Habs; cbn [negb]; tidy_trace;
    (destruct (env_is_dir w _) eqn:Hdir; tidy_trace; [|discriminate]);
    (destruct (env_exists w _) eqn:Hex; tidy_trace; [discriminate|]);
    cbn [negb]; tidy_trace; rewrite Hn; tidy_trace;
    intros H; injection H as <- <- <-;
    exists d, h, n; eexists;
    unfold archive_path_of, datadir_of; rewrite Habs;
    (split; [assumption|]);
    (split; [intros ->; discriminate Td|]);
    repeat (split; [first [eassumption | reflexivity]|]);
    reflexivity.
Qed.

(** X3: when the set-up succeeds, the archive path it hands to the loop
    is the time-stamped file name inside the data directory, where a
    relative [datadir] is taken relative to the directory of the script
    (not the working directory) and an absolute one as it is; that
    directory exists, nothing exists at the archive path, the URLs handed
    on are the [urls] value of the configuration, and the set-up has only
    logged below error level, queried the file system and read the clock. *)
Theorem setup_hands_over_archive_path
    (config : json) (w : env) (st st1 : state) (zipfilename : string) (urls : json) :
  setup config w st = (Ok (zipfilename, urls), st1) ->
  exists d evs,
    Py.getitem config "datadir" = Ok (JStr d)
    /\ zipfilename
       = Path.joinpath
           (if Path.is_absolute d then d else Path.joinpath (env_script_dir w) d)
           (env_strftime w "%Y-%m-%d_%H%M%S" ++ ".zip")%string
    /\ env_is_dir w
         (if Path.is_absolute d then d else Path.joinpath (env_script_dir w) d) = true
    /\ env_exists w zipfilename = false
    /\ Py.getitem config "urls" = Ok urls
    /\ st1 = extend st evs
    /\ forallb setup_event evs = true.
Proof.
  intros H.
  destruct (setup_ok_inv config w st st1 zipfilename urls H)
    as (d & h & n & evs & Hd & _ & _ & _ & Hu & _ & _ & Hz & Hdir & Hex & Hst & Hev).
  exists d, evs. unfold archive_path_of, datadir_of in *.
  repeat (split; [assumption|]). assumption.
Qed.

Lemma setup_hands_over_archive_path_witness :
  fst (setup (demo_config two_urls) world_two_pages init)
  = Ok ("/opt/app/./2022-10-06_120000.zip", JList (map JStr two_urls))
  /\ env_exists world_two_pages "/opt/app/./2022-10-06_120000.zip" = false.
Proof.
  destruct (setup_hands_over_archive_path (demo_config two_urls) world_two_pages
              init (snd (setup (demo_config two_urls) world_two_pages init))
              "/opt/app/./2022-10-06_120000.zip" (JList (map JStr two_urls)) eq_refl)
    as (d & evs & _ & _ & _ & Hex & _).
  split; [reflexivity | exact Hex].
Defined.



(** ** Finding and loading the configuration *)




(** ** An account of the events of a run *)

Lemma total_sleep_app (a b : list event) :
  total_sleep (a ++ b) = total_sleep a + total_sleep b.
Proof.
  unfold total_sleep. induction a as [|e a IH]; [reflexivity|].
  cbn [app fold_right]. rewrite IH. destruct e; lia.
Qed.

Lemma randint_of_bounds (raw : Z) : 35 <= randint_of 35 621 raw <= 621.
Proof.
  pose proof (randint_of_range raw) as H. unfold sleep_ok in H.
  apply andb_true_iff in H as [H1 H2]. apply Z.leb_le in H1, H2. lia.
Qed.

Lemma setup_event_facts (evs : list event) :
  forallb setup_event evs = true ->
  filter is_get evs = [] /\ total_sleep evs = 0 /\ forallb plain evs = true
  /\ filter is_error_log evs = [] /\ forallb quiet evs = true
  /\ filter pacing evs = [].
Proof.
  induction evs as [|e evs IH]; [repeat split|].
  cbn [forallb]. intros H. apply andb_true_iff in H as [He H].
  destruct (IH H) as (H1 & H2 & H3 & H4 & H5 & H6).
  cbn [filter total_sleep fold_right forallb]. fold (total_sleep evs).
  rewrite H3, H5.
  destruct e as [| [] | | | | | | | | |]; try discriminate He; cbn; auto 7.
Qed.

Lemma paced_requests_cons (no_sleep : bool) (w : env) (h : json) (i : nat)
    (url : json) (rest : list json) :
  paced_requests no_sleep w h i (url :: rest)
  = paced_requests no_sleep w h i [url] ++ paced_requests no_sleep w h (S i) rest.
Proof. cbn [paced_requests]. rewrite <- app_assoc. reflexivity. Qed.

Lemma error_records_cons (w : env) (h : json) (i : nat) (url : json) (rest : list json) :
  error_records w h i (url :: rest)
  = error_records w h i [url] ++ error_records w h (S i) rest.
Proof. cbn [error_records]. rewrite app_nil_r. reflexivity. Qed.

Section Account.
Variables (config : json) (no_sleep : bool) (w : env) (h : json).
Hypothesis headers : Py.getitem config "headers" = Ok h.

(** What one iteration adds to the trace, whatever the world does. *)
Lemma fetch_one_account (i : nat) (url : json) (st : state) :
  exists evs,
    trace (snd (fetch_one config no_sleep i url w st)) = trace st ++ evs
    /\ zstatus (zip (snd (fetch_one config no_sleep i url w st))) = zstatus (zip st)
    /\ filter pacing evs = paced_requests no_sleep w h i [url]
    /\ filter is_get evs = [EvGet url h]
    /\ (no_sleep = false -> 35 <= total_sleep evs <= 621)
    /\ filter is_error_log evs = error_records w h i [url]
    /\ forallb plain evs = true
    /\ forallb loop_event evs = true.
Proof.
  rewrite fetch_one_eq, headers. cbv zeta.
  unfold request_events, pacing_events, write_events, skip_events, status_event,
    duplicate_warning, extend.
  cbn [error_records paced_requests].
  pose proof (randint_of_bounds (env_draw w i)) as Hr.
  destruct url; try destruct (env_get w i s h) as [r|e] eqn:Hg;
    try destruct (ok r) eqn:Hok;
    try destruct (UrlParse.urlsplit_error (env_ip_address w) s);
    try destruct (String.eqb (archive_name s) "");
    try destruct (zstatus (zip st)) eqn:Hz;
    try destruct (existsb _ _);
    try destruct (env_writestr w i (entry_name s) (text r));
    eexists; (split; [cbn [snd trace]; reflexivity|]);
    (split; [cbn [snd zip zstatus]; congruence|]);
    destruct no_sleep;
    cbn [app filter pacing is_sleep is_get is_error_log orb forallb plain loop_event andb];
    (split; [reflexivity|]);
    (split; [reflexivity|]);
    (split; [intros Hns; try discriminate Hns;
             cbn [total_sleep fold_right]; lia|]);
    (split; [reflexivity|]);
    split; reflexivity.
Qed.

(** What the loop adds to the trace: it requests an initial stretch of
    the URLs. *)
Lemma for_urls_account (items : list json) :
  forall (i : nat) (st : state),
  exists evs k,
    trace (snd (for_urls config no_sleep i items w st)) = trace st ++ evs
    /\ zstatus (zip (snd (for_urls config no_sleep i items w st))) = zstatus (zip st)
    /\ filter pacing evs = paced_requests no_sleep w h i (firstn k items)
    /\ filter is_get evs = map (fun u => EvGet u h) (firstn k items)
    /\ (k <= List.length items)%nat
    /\ (items <> [] -> (1 <= k)%nat)
    /\ (fst (for_urls config no_sleep i items w st) = Ok tt -> k = List.length items)
    /\ (no_sleep = false ->
        35 * Z.of_nat k <= total_sleep evs <= 621 * Z.of_nat k)
    /\ filter is_error_log evs = error_records w h i (firstn k items)
    /\ forallb plain evs = true
    /\ forallb loop_event evs = true.
Proof.
  induction items as [|url rest IH]; intros i st.
  - exists [], 0%nat. cbn. rewrite app_nil_r.
    repeat split; try reflexivity; try lia; try congruence.
  - cbn [for_urls]. unfold bind.
    destruct (fetch_one_account i url st)
      as (evs1 & Ht1 & Hz1 & Hc1 & Hg1 & Hs1 & He1 & Hp1 & Hl1).
    destruct (fetch_one config no_sleep i url w st) as [[[]|e] st1];
      cbn [fst snd] in *.
    + destruct (IH (S i) st1)
        as (evs2 & k & Ht2 & Hz2 & Hc2 & Hg2 & Hk2 & _ & Hok2 & Hs2 & He2 & Hp2 & Hl2).
      exists (evs1 ++ evs2), (S k). rewrite Ht2, Ht1, Hz2, Hz1, app_assoc.
      cbn [firstn].
      split; [reflexivity|]. split; [reflexivity|].
      split; [rewrite filter_app, Hc1, Hc2; symmetry; apply paced_requests_cons|].
      split; [rewrite filter_app, Hg1, Hg2; reflexivity|].
      split; [cbn [List.length]; lia|]. split; [intros _; lia|].
      split; [intros Hr; cbn [List.length]; now rewrite (Hok2 Hr)|].
      split; [intros Hns; specialize (Hs1 Hns); specialize (Hs2 Hns);
              rewrite total_sleep_app; lia|].
      split; [rewrite filter_app, He1, He2; symmetry; apply error_records_cons|].
      split; [rewrite forallb_app, Hp1, Hp2; reflexivity|].
      rewrite forallb_app, Hl1, Hl2; reflexivity.
    + exists evs1, 1%nat. cbn [firstn].
      split; [assumption|]. split; [assumption|]. split; [assumption|].
      split; [assumption|].
      split; [cbn [List.length]; lia|]. split; [intros _; lia|].
      split; [discriminate|].
      split; [intros Hns; specialize (Hs1 Hns); lia|].
      split; [assumption|]. now split.
Qed.

(** The archive block: open, loop, close. *)
Lemma fetch_archive_account (zf : string) (urls : json) (items : list json) (st : state) :
  Py.iter urls = Ok items ->
  exists evs k,
    trace (snd (fetch_archive config no_sleep zf urls w st)) = trace st ++ evs
    /\ filter pacing evs = paced_requests no_sleep w h 0 (firstn k items)
    /\ filter is_get evs = map (fun u => EvGet u h) (firstn k items)
    /\ (k <= List.length items)%nat
    /\ (env_open_zip w zf = None -> items <> [] -> (1 <= k)%nat)
    /\ (fst (fetch_archive config no_sleep zf urls w st) = Ok tt -> k = List.length items)
    /\ (no_sleep = false ->
        35 * Z.of_nat k <= total_sleep evs <= 621 * Z.of_nat k)
    /\ filter is_error_log evs = error_records w h 0 (firstn k items)
    /\ forallb plain evs = true.
Proof.
  intros Hiter. unfold fetch_archive.
  destruct (env_open_zip w zf) as [e|] eqn:Hopen.
  - rewrite (with_open_fails _ _ _ _ e Hopen).
    exists [EvOpen zf], 0%nat. cbn [fst snd extend trace firstn map filter is_get].
    repeat split; try reflexivity; try lia; try discriminate.
  - rewrite with_eq by assumption. rewrite (loop_body_eq config no_sleep urls items Hiter).
    match goal with
    | |- context [for_urls _ _ _ _ _ ?s] =>
        destruct (for_urls_account items 0 s)
          as (evs & k & Ht & _ & Hc & Hg & Hk & H1 & Hok & Hs & He & Hp & _)
    end.
    destruct (for_urls _ _ _ _ _ _) as [r st']. cbn [fst snd trace] in *.
    exists ([EvOpen zf] ++ evs ++ [EvClose]), k.
    rewrite Ht, <- !app_assoc. split; [reflexivity|].
    split; [cbn [app filter pacing is_sleep is_get orb]; rewrite filter_app, Hc; cbn;
            now rewrite app_nil_r|].
    split; [cbn [app filter is_get]; rewrite filter_app, Hg; cbn;
            now rewrite app_nil_r|].
    split; [assumption|]. split; [intros _; assumption|].
    split; [intros Hr; apply Hok; unfold close_result in Hr;
            destruct (env_close w (zentries (zip st'))); [discriminate Hr | exact Hr]|].
    split; [intros Hns; specialize (Hs Hns); cbn [app total_sleep fold_right];
            fold (total_sleep (evs ++ [EvClose])); rewrite total_sleep_app;
            cbn [total_sleep fold_right]; lia|].
    split; [cbn [app filter is_error_log]; rewrite filter_app, He; cbn;
            now rewrite app_nil_r|].
    cbn [app forallb plain andb]; rewrite forallb_app, Hp; reflexivity.
Qed.

End Account.

Lemma setup_events_calm (config : json) (w : env) (st : state) :
  exists evs,
    snd (setup config w st) = extend st evs /\ forallb setup_event evs = true.
Proof.
  unfold setup, __check_config, __get_check_datadir, __get_check_zipfilename.
  unfold_monad.
  repeat (tidy_trace;
          match goal with
          | |- context [match ?x with _ => _ end] =>
              lazymatch x with
              | context [match _ with _ => _ end] => fail
              | _ => destruct x
              end
          | |- context [if ?x then _ else _] =>
              lazymatch x with
              | context [if _ then _ else _] => fail
              | _ => destruct x
              end
          end);
    tidy_trace;
    first [ exists []; split; [destruct st; cbn; now rewrite app_nil_r | reflexivity]
          | eexists; split; reflexivity ].
Qed.

(** The requests, the sleeps and the records of a whole run. *)
Lemma run_account (config : json) (no_sleep : bool) (w : env) (st : state)
    (urls h : json) (items : list json) :
  Py.getitem config "urls" = Ok urls ->
  Py.iter urls = Ok items ->
  Py.getitem config "headers" = Ok h ->
  exists evs k,
    trace (snd (run config no_sleep w st)) = trace st ++ evs
    /\ filter pacing evs = paced_requests no_sleep w h 0 (firstn k items)
    /\ filter is_get evs = map (fun u => EvGet u h) (firstn k items)
    /\ (k <= List.length items)%nat
    /\ (fst (run config no_sleep w st) = Ok tt -> k = List.length items)
    /\ (no_sleep = false -> 35 * Z.of_nat k <= total_sleep evs <= 621 * Z.of_nat k)
    /\ (forall zf u st1,
          setup config w st = (Ok (zf, u), st1) -> env_open_zip w zf = None ->
          (1 <= k)%nat)
    /\ filter is_error_log evs = error_records w h 0 (firstn k items)
    /\ forallb plain evs = true.
Proof.
  intros Hu Hiter Hh. rewrite run_eq.
  destruct (setup_events_calm config w st) as (evs0 & Hst & Hcalm).
  destruct (setup_event_facts evs0 Hcalm) as (Hg0 & Hs0 & Hp0 & He0 & _ & Hc0).
  destruct (setup config w st) as [[[zf urls']|e] st1] eqn:Hsetup;
    cbn [snd] in Hst; subst st1.
  - destruct (setup_ok_inv config w st _ zf urls' Hsetup)
      as (d & h' & n & evs' & _ & _ & _ & _ & Hu' & Tu & Hn & _).
    assert (urls' = urls) as -> by congruence.
    destruct (truthy_sized urls n Tu Hn) as (_ & x & rest & Hne).
    destruct (fetch_archive_account config no_sleep w h Hh zf urls items
                (extend st evs0) Hiter)
      as (evs & k & Ht & Hc & Hg & Hk & H1 & Hok & Hs & He & Hp).
    exists (evs0 ++ evs), k. rewrite Ht. cbn [extend trace]. rewrite app_assoc.
    split; [reflexivity|]. split; [rewrite filter_app, Hc0, Hc; reflexivity|].
    split; [rewrite filter_app, Hg0, Hg; reflexivity|].
    split; [assumption|]. split; [assumption|].
    split; [intros Hns; rewrite total_sleep_app, Hs0; specialize (Hs Hns); lia|].
    split.
    + intros zf' u' st1' Heq Hopen. injection Heq as <- _ _.
      apply H1; [assumption|]. rewrite Hne in Hiter. injection Hiter as <-.
      discriminate.
    + split; [rewrite filter_app, He0, He; reflexivity|].
      rewrite forallb_app, Hp0, Hp; reflexivity.
  - exists evs0, 0%nat. split; [reflexivity|]. split; [assumption|].
    split; [assumption|].
    split; [lia|]. split; [discriminate|]. split; [intros _; lia|].
    split; [discriminate|]. now split.
Qed.

(** X6: the requests of a run follow the list of URLs: whatever the world
    does, the GETs that a run issues are those of an initial stretch of
    the configured URLs, in the order of the list, one per URL and each
    with the configured headers; a run that returns normally has
    requested every URL. *)
Theorem gets_follow_the_list
    (config : json) (no_sleep : bool) (w : env) (st : state)
    (urls h : json) (items : list json) :
  Py.getitem config "urls" = Ok urls ->
  Py.iter urls = Ok items ->
  Py.getitem config "headers" = Ok h ->
  exists evs k,
    trace (snd (run config no_sleep w st)) = trace st ++ evs
    /\ filter is_get evs = map (fun u => EvGet u h) (firstn k items)
    /\ (k <= List.length items)%nat
    /\ (fst (run config no_sleep w st) = Ok tt ->
        filter is_get evs = map (fun u => EvGet u h) items).
Proof.
  intros Hu Hiter Hh.
  destruct (run_account config no_sleep w st urls h items Hu Hiter Hh)
    as (evs & k & Ht & _ & Hg & Hk & Hok & _).
  exists evs, k. repeat (split; [assumption|]).
  intros Hr. rewrite Hg, (Hok Hr), firstn_all. reflexivity.
Qed.

Lemma gets_follow_the_list_witness :
  filter is_get (trace (snd (run (demo_config two_urls) true world_second_unreachable init)))
  = [EvGet (JStr "https://a.test/page1.html") demo_headers;
     EvGet (JStr "https://a.test/") demo_headers].
Proof.
  destruct (gets_follow_the_list (demo_config two_urls) true world_second_unreachable
              init (JList (map JStr two_urls)) demo_headers (map JStr two_urls)
              eq_refl eq_refl eq_refl) as (evs & k & Ht & Hg & Hk & _).
  reflexivity.
Defined.

(** X7: once the set-up has succeeded and the archive is open, the first
    URL is requested whatever happens next: the validated configuration
    has a first URL, and the first GET of the run is the GET of that URL. *)
Theorem first_url_is_requested
    (config : json) (no_sleep : bool) (w : env) (st st1 : state)
    (zipfilename : string) (urls : json) :
  setup config w st = (Ok (zipfilename, urls), st1) ->
  env_open_zip w zipfilename = None ->
  exists url rest h evs later,
    Py.iter urls = Ok (url :: rest)
    /\ Py.getitem config "headers" = Ok h
    /\ trace (snd (run config no_sleep w st)) = trace st ++ evs
    /\ filter is_get evs = EvGet url h :: later.
Proof.
  intros Hsetup Hopen.
  destruct (setup_ok_inv config w st st1 zipfilename urls Hsetup)
    as (d & h & n & evs' & _ & _ & Hh & _ & Hu & Tu & Hn & _).
  destruct (truthy_sized urls n Tu Hn) as (_ & url & rest & Hiter).
  destruct (run_account config no_sleep w st urls h (url :: rest) Hu Hiter Hh)
    as (evs & k & Ht & _ & Hg & _ & _ & _ & H1 & _).
  specialize (H1 _ _ _ Hsetup Hopen).
  destruct k as [|k]; [lia|]. cbn [firstn map] in Hg.
  exists url, rest, h, evs. eexists. repeat split; eassumption.
Qed.

Lemma first_url_is_requested_witness :
  exists later,
    filter is_get
      (trace (snd (run (demo_config two_urls) true world_first_unreachable init)))
    = EvGet (JStr "https://a.test/page1.html") demo_headers :: later.
Proof.
  destruct (first_url_is_requested (demo_config two_urls) true world_first_unreachable
              init (snd (setup (demo_config two_urls) world_first_unreachable init))
              demo_zip (JList (map JStr two_urls)) eq_refl eq_refl)
    as (url & rest & h & evs & later & _).
  exists []. reflexivity.
Defined.

(** X8: the time a run spends sleeping: without the no-sleep flag a run
    over N URLs sleeps at most 621 * N seconds in all, whatever the world
    does, and a run that returns normally has slept at least 35 * N
    seconds. *)
Theorem sleep_budget
    (config : json) (w : env) (st : state) (urls h : json) (items : list json) :
  Py.getitem config "urls" = Ok urls ->
  Py.iter urls = Ok items ->
  Py.getitem config "headers" = Ok h ->
  exists evs,
    trace (snd (run config false w st)) = trace st ++ evs
    /\ 0 <= total_sleep evs <= 621 * Z.of_nat (List.length items)
    /\ (fst (run config false w st) = Ok tt ->
        35 * Z.of_nat (List.length items) <= total_sleep evs).
Proof.
  intros Hu Hiter Hh.
  destruct (run_account config false w st urls h items Hu Hiter Hh)
    as (evs & k & Ht & _ & _ & Hk & Hok & Hs & _).
  specialize (Hs eq_refl).
  exists evs. split; [assumption|]. split; [lia|].
  intros Hr. rewrite <- (Hok Hr). lia.
Qed.

Lemma sleep_budget_witness :
  total_sleep (trace (snd (run (demo_config two_urls) false world_two_pages init)))
  = 897.
Proof.
  destruct (sleep_budget (demo_config two_urls) world_two_pages init
              (JList (map JStr two_urls)) demo_headers (map JStr two_urls)
              eq_refl eq_refl eq_refl) as (evs & _).
  reflexivity.
Defined.

Lemma shown_plain (e : event) :
  plain e = true ->
  shown (root_level false false) e = is_error_log e
  /\ forall debug, shown (root_level debug true) e = is_info_log e || is_error_log e.
Proof.
  destruct e as [| [] | | | | | | | | |]; cbn; try discriminate; intros _;
    split; try reflexivity; intros []; reflexivity.
Qed.

(** X9: what the log of a run shows.  The error records of a run are
    exactly the reasons of the responses that were not ok, one for each
    such response among the URLs the run has requested and in their
    order; all its other records are at debug or info level.  So at the
    default level of the root logger (WARNING: neither the DEBUG flag nor
    [--verbose]) the records that pass are exactly those reasons, and
    with [--verbose] (level INFO, also when the DEBUG flag is on) they
    are the info and error records, never a debug record. *)
Theorem default_log_shows_errors_only
    (config : json) (no_sleep : bool) (w : env) (st : state)
    (urls h : json) (items : list json) :
  Py.getitem config "urls" = Ok urls ->
  Py.iter urls = Ok items ->
  Py.getitem config "headers" = Ok h ->
  exists evs k,
    trace (snd (run config no_sleep w st)) = trace st ++ evs
    /\ filter is_get evs = map (fun u => EvGet u h) (firstn k items)
    /\ filter is_error_log evs = error_records w h 0 (firstn k items)
    /\ filter (shown (root_level false false)) evs
       = error_records w h 0 (firstn k items)
    /\ (forall debug,
          filter (shown (root_level debug true)) evs
          = filter (fun e => is_info_log e || is_error_log e) evs).
Proof.
  intros Hu Hiter Hh.
  destruct (run_account config no_sleep w st urls h items Hu Hiter Hh)
    as (evs & k & Ht & _ & Hg & _ & _ & _ & _ & He & Hp).
  exists evs, k. split; [assumption|]. split; [assumption|]. split; [assumption|].
  rewrite forallb_forall in Hp.
  split.
  - rewrite <- He. apply filter_ext_in. intros e Hin.
    now destruct (shown_plain e (Hp e Hin)).
  - intros debug. apply filter_ext_in. intros e Hin.
    now destruct (shown_plain e (Hp e Hin)) as [_ H].
Qed.

Lemma default_log_shows_errors_only_witness :
  filter (shown (root_level false false))
    (trace (snd (run (demo_config two_urls) true world_second_missing init)))
  = [EvLog ERROR "Not Found" []].
Proof.
  destruct (default_log_shows_errors_only (demo_config two_urls) true
              world_second_missing init (JList (map JStr two_urls)) demo_headers
              (map JStr two_urls) eq_refl eq_refl eq_refl)
    as (evs & k & _ & _ & _ & _ & _).
  reflexivity.
Defined.

(** ** Pacing *)

Lemma sleeps_among_pacing (evs : list event) :
  existsb is_sleep evs = existsb is_sleep (filter pacing evs).
Proof.
  induction evs as [|e evs IH]; [reflexivity|].
  destruct e; cbn; rewrite <- ?IH; reflexivity.
Qed.

Lemma paced_requests_no_sleep (w : env) (h : json) (items : list json) :
  forall i, existsb is_sleep (paced_requests true w h i items) = false.
Proof. induction items as [|u rest IH]; intros i; cbn; auto. Qed.

Lemma filter_none {A} (f : A -> bool) (l : list A) :
  (forall x, In x l -> f x = false) -> filter f l = [].
Proof.
  induction l as [|x l IH]; [reflexivity|]. intros H. cbn.
  rewrite (H x (or_introl eq_refl)). apply IH. intros y Hy. apply H. now right.
Qed.

Lemma filter_is (a : Z) (n : nat) :
  filter (fun d => d =? a) (map Z.of_nat (seq 0 n))
  = if (0 <=? a) && (a <? Z.of_nat n) then [a] else [].
Proof.
  induction n as [|n IH].
  { cbn [seq map filter]. change (Z.of_nat 0) with 0.
    destruct (Z.leb_spec 0 a); destruct (Z.ltb_spec a 0); cbn [andb];
      try reflexivity; lia. }
  rewrite seq_S, map_app, filter_app, IH. cbn [Nat.add map filter].
  destruct (Z.eqb_spec (Z.of_nat n) a) as [Heq|Hne];
    destruct (Z.leb_spec 0 a); destruct (Z.ltb_spec a (Z.of_nat n));
    destruct (Z.ltb_spec a (Z.of_nat (S n))); cbn [andb app]; try subst a; try reflexivity; lia.
Qed.

(** Each duration from 35 to 621 comes from exactly one of the 587
    draws. *)
Lemma draws_giving_one (k : Z) : 35 <= k <= 621 -> draws_giving k = [k - 35].
Proof.
  intros Hk. unfold draws_giving.
  rewrite (filter_ext_in (fun d => randint_of 35 621 d =? k) (fun d => d =? k - 35)).
  - rewrite filter_is.
    destruct (Z.leb_spec 0 (k - 35)); destruct (Z.ltb_spec (k - 35) (Z.of_nat 587));
      cbn [andb]; try reflexivity; lia.
  - intros d Hd. apply in_map_iff in Hd as (j & <- & Hj). apply in_seq in Hj.
    unfold randint_of. rewrite Z.mod_small by lia.
    destruct (Z.eqb_spec (35 + Z.of_nat j) k); destruct (Z.eqb_spec (Z.of_nat j) (k - 35));
      try reflexivity; lia.
Qed.

Lemma draws_giving_none (k : Z) : ~ 35 <= k <= 621 -> draws_giving k = [].
Proof.
  intros Hk. unfold draws_giving. apply filter_none. intros d _.
  apply Z.eqb_neq. pose proof (randint_of_bounds d). lia.
Qed.

(** C8: the sleeps and the GETs of a run, in the order they happen.  A
    run whose set-up fails neither sleeps nor requests anything.
    Otherwise the run goes through an initial stretch of the URLs, all of
    them when it returns normally and at least the first when the archive
    opens, and, unless the no-sleep flag is set, it does for each of
    these URLs in turn exactly this: one sleep, then the GET of the URL;
    so every GET, the first one included, comes right after a sleep of
    its own.  The sleep of a URL lasts [randint(35, 621)] of a draw made
    for that URL: 35 plus a draw below 587, a whole number of seconds
    from 35 to 621, each of which comes from exactly one of the 587
    draws.  With the no-sleep flag set the run goes through the GETs
    alone and never sleeps. *)
Theorem sleep_before_each_get (config : json) (no_sleep : bool) (w : env) (st : state) :
  (exists evs,
      trace (snd (run config no_sleep w st)) = trace st ++ evs
      /\ (forall e, fst (setup config w st) = Raise e -> filter pacing evs = [])
      /\ (forall zf urls, fst (setup config w st) = Ok (zf, urls) ->
          exists h items k,
            Py.getitem config "headers" = Ok h
            /\ Py.iter urls = Ok items
            /\ filter pacing evs = paced_requests no_sleep w h 0 (firstn k items)
            /\ (k <= List.length items)%nat
            /\ (env_open_zip w zf = None -> (1 <= k)%nat)
            /\ (fst (run config no_sleep w st) = Ok tt -> k = List.length items))
      /\ (no_sleep = true -> existsb is_sleep evs = false))
  /\ (forall h i url rest,
        paced_requests false w h i (url :: rest)
        = EvSleep (randint_of 35 621 (env_draw w i)) :: EvGet url h
          :: paced_requests false w h (S i) rest)
  /\ (forall h i url rest,
        paced_requests true w h i (url :: rest)
        = EvGet url h :: paced_requests true w h (S i) rest)
  /\ (forall raw,
        randint_of 35 621 raw = 35 + raw mod 587
        /\ 0 <= raw mod 587 < 587
        /\ 35 <= randint_of 35 621 raw <= 621)
  /\ (forall k, 35 <= k <= 621 -> draws_giving k = [k - 35])
  /\ (forall k, ~ 35 <= k <= 621 -> draws_giving k = []).
Proof.
  split; [|split; [reflexivity|split; [reflexivity|split; [|split]]]].
  - destruct (setup config w st) as [[[zf urls]|e] st1] eqn:Hsetup.
    + destruct (setup_ok_inv config w st st1 zf urls Hsetup)
        as (d & h & n & evs' & _ & _ & Hh & _ & Hu & Tu & Hn & _).
      destruct (truthy_sized urls n Tu Hn) as (_ & url & rest & Hiter).
      destruct (run_account config no_sleep w st urls h (url :: rest) Hu Hiter Hh)
        as (evs & k & Ht & Hc & _ & Hk & Hok & _ & H1 & _).
      exists evs. split; [assumption|]. split; [discriminate|]. split.
      * intros zf' urls' Heq. injection Heq as <- <-.
        exists h, (url :: rest), k. repeat (split; [assumption|]).
        split; [|assumption]. intros Hopen. exact (H1 _ _ _ Hsetup Hopen).
      * intros ->. rewrite sleeps_among_pacing, Hc. apply paced_requests_no_sleep.
    + rewrite run_eq, Hsetup.
      destruct (setup_events_calm config w st) as (evs0 & Hst & Hcalm).
      rewrite Hsetup in Hst. cbn [snd] in *. subst st1.
      destruct (setup_event_facts evs0 Hcalm) as (_ & _ & _ & _ & _ & Hc0).
      exists evs0. split; [reflexivity|]. split; [intros _ _; assumption|].
      split; [discriminate|].
      intros _. rewrite sleeps_among_pacing, Hc0. reflexivity.
  - intros raw. pose proof (randint_of_bounds raw).
    pose proof (Z.mod_pos_bound raw 587 ltac:(lia)).
    repeat split; try lia; reflexivity.
  - exact draws_giving_one.
  - exact draws_giving_none.
Qed.

(** ** Closing the archive *)

(** C7, as the code has it: once the archive is open, the closing of the
    archive is attempted on every exit path of the loop, as the last
    thing the run does: both when the loop has gone through all URLs and
    when an exception has left the loop body (a failed GET, a failed
    archive write).  Whatever the loop did, the entries it had written
    are those of the archive after the run.  When the closing succeeds
    the archive is left closed and finished, and the run returns or
    raises what the loop did; when the closing itself fails, the run
    raises the error of the closing and the archive is left unfinished. *)
Theorem archive_closed_on_every_exit
    (config : json) (no_sleep : bool) (w : env) (st st1 : state)
    (zipfilename : string) (urls : json) :
  setup config w st = (Ok (zipfilename, urls), st1) ->
  env_open_zip w zipfilename = None ->
  exists items r0 evs entries,
    Py.iter urls = Ok items
    /\ for_urls config no_sleep 0 items w
         {| trace := trace st1 ++ [EvOpen zipfilename];
            zip := {| zstatus := Opened; zentries := [] |} |}
       = (r0, {| trace := (trace st1 ++ [EvOpen zipfilename]) ++ evs;
                 zip := {| zstatus := Opened; zentries := entries |} |})
    /\ forallb loop_event evs = true
    /\ trace (snd (run config no_sleep w st))
       = trace st1 ++ [EvOpen zipfilename] ++ evs ++ [EvClose]
    /\ zentries (zip (snd (run config no_sleep w st))) = entries
    /\ (env_close w entries = None ->
        fst (run config no_sleep w st) = r0
        /\ zstatus (zip (snd (run config no_sleep w st))) = Closed)
    /\ (forall e, env_close w entries = Some e ->
        fst (run config no_sleep w st) = Raise e
        /\ zstatus (zip (snd (run config no_sleep w st))) = Unfinished).
Proof.
  intros Hsetup Hopen.
  destruct (setup_ok_inv config w st st1 zipfilename urls Hsetup)
    as (d & h & n & evs' & _ & _ & Hh & _ & Hu & Tu & Hn & _).
  destruct (truthy_sized urls n Tu Hn) as (_ & url & rest & Hiter).
  rewrite (run_ready config no_sleep w st st1 zipfilename urls _ Hsetup Hopen Hiter).
  destruct (for_urls_account config no_sleep w h Hh (url :: rest) 0
              {| trace := trace st1 ++ [EvOpen zipfilename];
                 zip := {| zstatus := Opened; zentries := [] |} |})
    as (evs & k & Ht & Hz & _ & _ & _ & _ & _ & _ & _ & _ & Hl).
  destruct (for_urls config no_sleep 0 (url :: rest) w _) as [r0 [tr [zs ze]]] eqn:Hloop.
  cbn [snd trace zip zstatus zentries] in Ht, Hz. subst tr zs.
  exists (url :: rest), r0, evs, ze.
  split; [assumption|]. split; [exact Hloop|]. split; [assumption|].
  cbn [fst snd trace zip zentries zstatus closed_archive]. unfold close_result.
  split; [rewrite <- !app_assoc; reflexivity|]. split; [reflexivity|].
  split.
  - intros ->. split; reflexivity.
  - intros e ->. split; reflexivity.
Qed.

(** A write for which there is no room raises inside the loop body; the
    archive is closed and finished all the same. *)
Lemma archive_closed_witness :
  fst (run (demo_config two_urls) true world_no_room init)
  = Raise (OSError "No space left on device")
  /\ zstatus (zip (snd (run (demo_config two_urls) true world_no_room init))) = Closed.
Proof.
  destruct (archive_closed_on_every_exit (demo_config two_urls) true world_no_room
              init (snd (setup (demo_config two_urls) world_no_room init))
              demo_zip (JList (map JStr two_urls)) eq_refl eq_refl)
    as (items & r0 & evs & entries & _ & _ & _ & _ & _ & Hclosed & _).
  destruct (Hclosed eq_refl) as [_ Hz].
  split; [reflexivity | exact Hz].
Defined.

(** C7 fails as stated: on a full disk the write of the first page
    raises inside the loop body, and the closing, which has to write the
    directory of the archive, fails as well: the archive is not
    finished. *)
Lemma archive_closed_counterexample :
  existsb is_write (trace (snd (run (demo_config two_urls) true world_disk_full init)))
  = true
  /\ fst (run (demo_config two_urls) true world_disk_full init)
     = Raise (OSError "No space left on device")
  /\ zstatus (zip (snd (run (demo_config two_urls) true world_disk_full init)))
     = Unfinished.
Proof. repeat split; reflexivity. Qed.

(** ** What the archive can hold, and failures of the archive itself *)

Section Sound.
Variables (config : json) (no_sleep : bool) (w : env) (h : json) (all : list json).
Hypothesis headers : Py.getitem config "headers" = Ok h.

Lemma for_urls_sound (items : list json) :
  forall (i : nat) (st : state),
    (forall j u, nth_error items j = Some u -> nth_error all (i + j) = Some u) ->
    Forall (sound_entry w h all) (zentries (zip st)) ->
    let st' := snd (for_urls config no_sleep i items w st) in
    Forall (sound_entry w h all) (zentries (zip st'))
    /\ (List.length (zentries (zip st'))
        <= List.length (zentries (zip st)) + List.length items)%nat.
Proof.
  induction items as [|url rest IH]; intros i st Hidx Hst; cbv zeta.
  - cbn. split; [assumption | lia].
  - cbn [for_urls]. unfold bind.
    assert (Forall (sound_entry w h all)
              (zentries (zip (snd (fetch_one config no_sleep i url w st))))
            /\ (List.length (zentries (zip (snd (fetch_one config no_sleep i url w st))))
                <= S (List.length (zentries (zip st))))%nat) as [H1 H2].
    { rewrite fetch_one_eq, headers. cbv zeta.
      destruct url; try (split; [exact Hst | cbn; lia]).
      destruct (env_get w i s h) as [r|e] eqn:Hg; [|split; [exact Hst | cbn; lia]].
      destruct (ok r) eqn:Hok; [|split; [exact Hst | cbn; lia]].
      destruct (UrlParse.urlsplit_error (env_ip_address w) s);
        [split; [exact Hst | cbn; lia]|].
      destruct (String.eqb (archive_name s) ""); [split; [exact Hst | cbn; lia]|].
      destruct (zstatus (zip st)); try (split; [exact Hst | cbn; lia]).
      destruct (env_writestr w i (entry_name s) (text r));
        [split; [exact Hst | cbn; lia]|].
      cbn [snd zip zentries]. split.
      - apply Forall_app. split; [exact Hst|].
        constructor; [|constructor]. exists i, s, r.
        specialize (Hidx 0%nat (JStr s) eq_refl). rewrite Nat.add_0_r in Hidx. auto.
      - rewrite List.length_app. cbn. lia. }
    destruct (fetch_one config no_sleep i url w st) as [[[]|e] st1]; cbn [snd] in *.
    + destruct (IH (S i) st1) as [H3 H4]; [|assumption|].
      { intros j u Hj. replace (S i + j)%nat with (i + S j)%nat by lia.
        now apply Hidx. }
      cbv zeta in H3, H4. split; [assumption|]. cbn [List.length]. lia.
    + split; [assumption|]. cbn [List.length]. lia.
Qed.

End Sound.

(** X10: whatever the world does, the archive a run leaves holds nothing
    but bodies of ok responses to configured URLs, each under the name
    the archive gives to the entry of its URL (the entry name of the URL,
    up to a NUL character), and never more entries than there are URLs. *)
Theorem archive_only_holds_ok_bodies
    (config : json) (no_sleep : bool) (w : env) (urls h : json) (items : list json) :
  Py.getitem config "urls" = Ok urls ->
  Py.iter urls = Ok items ->
  Py.getitem config "headers" = Ok h ->
  let entries := zentries (zip (snd (run config no_sleep w init))) in
  (forall name data, In (name, data) entries ->
     exists k s r,
       nth_error items k = Some (JStr s) /\ env_get w k s h = Returns r
       /\ ok r = true /\ name = ZipFile.arcname (entry_name s) /\ data = text r)
  /\ (List.length entries <= List.length items)%nat.
Proof.
  intros Hu Hiter Hh entries.
  assert (Forall (sound_entry w h items) entries
          /\ (List.length entries <= List.length items)%nat) as [Hs Hl].
  { subst entries. rewrite run_eq.
    destruct (setup_events_calm config w init) as (evs0 & Hst & _).
    destruct (setup config w init) as [[[zf urls']|e] st1] eqn:Hsetup;
      cbn [snd] in Hst; subst st1; [|split; [constructor | cbn; lia]].
    destruct (setup_ok_inv config w init _ zf urls' Hsetup)
      as (d & h' & n & evs' & _ & _ & _ & _ & Hu' & _).
    assert (urls' = urls) as -> by congruence.
    unfold fetch_archive.
    destruct (env_open_zip w zf) as [e|] eqn:Hopen.
    - rewrite (with_open_fails _ _ _ _ e Hopen). split; [constructor | cbn; lia].
    - rewrite with_eq by assumption.
      rewrite (loop_body_eq config no_sleep urls items Hiter).
      match goal with
      | |- context [for_urls _ _ _ _ _ ?s] =>
          destruct (for_urls_sound config no_sleep w h items Hh items 0 s)
            as [H1 H2]; [intros j u Hj; exact Hj | constructor |]
      end.
      cbv zeta in H1, H2.
      destruct (for_urls _ _ _ _ _ _) as [r st'].
      cbn [snd zip zentries closed_archive] in *.
      split; [assumption|]. cbn in H2. lia. }
  split; [|assumption].
  intros name data Hin. rewrite Forall_forall in Hs.
  destruct (Hs _ Hin) as (k & s & r & Hk & Hg & Hok & Heq).
  injection Heq as -> ->. now exists k, s, r.
Qed.

Lemma archive_only_holds_ok_bodies_witness :
  zentries (zip (snd (run (demo_config two_urls) true world_second_unreachable init)))
  = [("page1.html", "<html>1</html>")].
Proof.
  destruct (archive_only_holds_ok_bodies (demo_config two_urls) true
              world_second_unreachable (JList (map JStr two_urls)) demo_headers
              (map JStr two_urls) eq_refl eq_refl eq_refl) as [_ _].
  reflexivity.
Defined.

(** X11: an archive write that raises is fatal.  When the write for a URL
    is the first thing to raise, the run ends there (exit status 1):
    after the failed [writestr] nothing happens but the closing of the
    archive, so no later URL is requested.  The run raises the exception
    of the write and leaves the entries of the earlier URLs, and only
    those, in the closed archive; if the closing fails as well, it raises
    the error of the closing and the archive is left unfinished. *)
Theorem write_failure_aborts_run
    (config : json) (no_sleep : bool) (w : env) (st st1 : state)
    (zipfilename : string) (h : json)
    (pre : list string) (s : string) (rest : list json) (r : Response) (e : exn) :
  Py.getitem config "headers" = Ok h ->
  setup config w st = (Ok (zipfilename, JList (map JStr pre ++ JStr s :: rest)), st1) ->
  env_open_zip w zipfilename = None ->
  all_respond w h 0 pre = true ->
  names_ok w h 0 pre = true ->
  writes_succeed w h 0 pre = true ->
  env_get w (List.length pre) s h = Returns r ->
  ok r = true ->
  named w s = true ->
  env_writestr w (List.length pre) (entry_name s) (text r) = Some e ->
  let entries := expected_entries w h 0 pre in
  exit_status (fst (run config no_sleep w st)) = 1
  /\ fst (run config no_sleep w st)
     = match env_close w entries with
       | None => Raise e
       | Some e' => Raise e'
       end
  /\ zip (snd (run config no_sleep w st))
     = {| zstatus := match env_close w entries with
                     | None => Closed
                     | Some _ => Unfinished
                     end;
          zentries := entries |}
  /\ exists evs,
       trace (snd (run config no_sleep w st))
       = trace st1 ++ [EvOpen zipfilename] ++ evs
         ++ [EvWriteStr (entry_name s) (text r)]
         ++ duplicate_warning (ZipFile.namelist entries) (ZipFile.arcname (entry_name s))
         ++ [EvClose]
       /\ forallb loop_event evs = true.
Proof.
  intros Hh Hsetup Hopen Hresp Hname Hwr Hget Hok Hnamed Hfail entries. subst entries.
  destruct (run_prefix config no_sleep w st st1 zipfilename h Hh Hopen
              pre (JStr s :: rest) Hsetup Hresp Hname Hwr) as (evs & Hl & _ & ->).
  cbn [for_urls]. unfold bind. rewrite fetch_one_eq, Hh. cbv zeta.
  rewrite Hget, Hok.
  unfold named, parses in Hnamed. apply andb_true_iff in Hnamed as [Hparse Hnonempty].
  destruct (UrlParse.urlsplit_error (env_ip_address w) s); [discriminate Hparse|].
  apply negb_true_iff in Hnonempty. rewrite Hnonempty.
  cbn [zip zstatus zentries]. rewrite Hfail.
  cbn [fst snd extend trace zip zentries].
  split; [apply close_result_raise|]. split; [reflexivity|]. split; [reflexivity|].
  exists (evs ++ pacing_events no_sleep w (List.length pre)
          ++ [EvLog INFO "HTTP GET '%s' ..." [LVal (JStr s)]; EvGet (JStr s) h;
              status_event r;
              EvLog DEBUG "basename: %s"
                [LStr (PosixPath.basename (UrlParse.path (UrlParse.urlparse s)))];
              EvLog DEBUG "writing %s bytes to ZIP ..." [LInt (PyStr.len (text r))]]).
  split.
  - unfold request_events, write_events, archive_name.
    rewrite <- !app_assoc. cbn [app]. reflexivity.
  - destruct (pacing_events_loop no_sleep w (List.length pre)) as [Hp _].
    rewrite !forallb_app, Hl, Hp. reflexivity.
Qed.

Lemma write_failure_aborts_run_witness :
  fst (run (demo_config two_urls) true world_no_room init)
  = Raise (OSError "No space left on device")
  /\ zip (snd (run (demo_config two_urls) true world_no_room init))
     = {| zstatus := Closed; zentries := [] |}
  /\ filter is_get (trace (snd (run (demo_config two_urls) true world_no_room init)))
     = [EvGet (JStr "https://a.test/page1.html") demo_headers].
Proof.
  destruct (write_failure_aborts_run (demo_config two_urls) true world_no_room init
              (snd (setup (demo_config two_urls) world_no_room init))
              demo_zip demo_headers [] "https://a.test/page1.html"
              [JStr "https://a.test/"]
              {| status_code := 200; reason := "OK"; text := "<html>1</html>" |}
              (OSError "No space left on device"))
    as (_ & Hr & Hz & _); try reflexivity.
  split; [exact Hr|]. split; [exact Hz | reflexivity].
Defined.

(** X12: when the archive cannot be created, [run] raises the error of
    the attempt right away: nothing follows the attempt to open, so no
    URL is requested and nothing is slept, and the archive state is left
    as the set-up found it. *)
Theorem open_failure_stops_run
    (config : json) (no_sleep : bool) (w : env) (st st1 : state)
    (zipfilename : string) (urls : json) (e : exn) :
  setup config w st = (Ok (zipfilename, urls), st1) ->
  env_open_zip w zipfilename = Some e ->
  exists evs,
    run config no_sleep w st
    = (Raise e, {| trace := trace st ++ evs ++ [EvOpen zipfilename]; zip := zip st |})
    /\ forallb setup_event evs = true.
Proof.
  intros Hsetup Hopen.
  destruct (setup_ok_inv config w st st1 zipfilename urls Hsetup)
    as (d & h & n & evs & _ & _ & _ & _ & _ & _ & _ & _ & _ & _ & -> & Hev).
  exists evs. split; [|assumption].
  rewrite run_eq, Hsetup. unfold fetch_archive.
  rewrite (with_open_fails _ _ _ _ e Hopen).
  unfold extend. cbn [trace zip]. rewrite <- app_assoc. reflexivity.
Qed.

Lemma open_failure_stops_run_witness :
  fst (run (demo_config two_urls) true world_no_permission init)
  = Raise (OSError "Permission denied")
  /\ existsb is_get
       (trace (snd (run (demo_config two_urls) true world_no_permission init))) = false.
Proof.
  destruct (open_failure_stops_run (demo_config two_urls) true world_no_permission init
              (snd (setup (demo_config two_urls) world_no_permission init))
              demo_zip (JList (map JStr two_urls)) (OSError "Permission denied"))
    as (evs & Hrun & _); try reflexivity.
  split; [now rewrite Hrun | reflexivity].
Defined.
